(** * site-roast: the audit engine, the score aggregation, the reports
      and the command line

    A shallow embedding of [site_roast/auditor.py], [site_roast/scores.py],
    [site_roast/roaster.py], [site_roast/reporter.py] and
    [site_roast/cli.py].

    Python values are modelled as follows.
    - [int] is [Z]; [len] of a list is [Z.of_nat (length _)].
    - [str] is [string], one [ascii] per character: the model covers the
      texts of code points 0..255, on which [len], [strip] and [lower] are
      Python's; a text with a character beyond U+00FF is outside it.  The
      literals of the source that hold such characters are written as
      their UTF-8 bytes: they are concatenated and printed, never
      measured.
    - [float] is IEEE binary64, modelled by [PyFloat.float]: a finite value is
      the rational it denotes, every operation is the exact rational
      operation followed by [PyFloat.round] (nearest, ties to even, 53 bits).
    - an exception is a value of [exn]; code that can raise returns a
      [result].
    - the collaborators that are libraries (HTTP, HTML parser, URL parser,
      JSON parser and serializer, regular expressions, clock, random
      generator) are parameters of the sections that use them; the
      session, the HTML parser, the URL parser and the JSON parser can
      raise. *)

From Stdlib Require Import ZArith QArith Qround List String Ascii Bool Lia Lqa.
From Stdlib Require Import DecimalString PrimFloat FloatOps SpecFloat Uint63.
Import ListNotations.

Open Scope list_scope.
Open Scope string_scope.
Open Scope Z_scope.

(** ** Python runtime *)

Module Py.

(** The exceptions the modelled code can raise or let through. *)
Inductive exn : Type :=
| ValueError
| TypeError
| ZeroDivisionError
| OverflowError
| IndexError
| AttributeError
| JSONDecodeError
| RequestException (kind : string)
| HTTPError (status : Z)
| OtherError (name : string).

Inductive result (A : Type) : Type :=
| Ok (a : A)
| Raise (e : exn).
Arguments Ok {A} a.
Arguments Raise {A} e.

Definition bind {A B} (r : result A) (k : A -> result B) : result B :=
  match r with
  | Ok a => k a
  | Raise e => Raise e
  end.

Definition len {A} (l : list A) : Z := Z.of_nat (List.length l).

(** [sum] of a list of [int]. *)
Definition sum (l : list Z) : Z := fold_left Z.add l 0.

(** [str(n)] for an [int]. *)
Definition str_of_int (z : Z) : string := NilZero.string_of_int (Z.to_int z).

(** [sep.join(l)] for a list of [str]. *)
Fixpoint join (sep : string) (l : list string) : string :=
  match l with
  | [] => ""
  | [s] => s
  | s :: rest => s ++ sep ++ join sep rest
  end.

(** [l.append(x)]. *)
Definition append {A} (l : list A) (x : A) : list A := (l ++ [x])%list.

(** [l[:n]]. *)
Definition take {A} (n : nat) (l : list A) : list A := firstn n l.

End Py.
Export Py.

Declare Scope py_scope.
Delimit Scope py_scope with py.
Notation "x <- c ;; k" := (bind c (fun x => k))
  (at level 61, c at next level, right associativity) : py_scope.
Open Scope py_scope.

(** ** IEEE binary64 as CPython uses it *)

Module PyFloat.

(** A float: a finite value (the rational it denotes), an infinity, or
    not-a-number.  The sign of zero is not modelled: nothing below
    observes it (division by zero raises, [int] and [round] map both
    zeros to [0]). *)
Inductive float : Type :=
| Fin (q : Q)
| Inf (neg : bool)
| NaN.

(** floor(log2(n/d)) for [0 < n], [0 < d]. *)
Definition ilog2 (n d : Z) : Z :=
  let l := Z.log2 n - Z.log2 d in
  if 0 <=? l
  then (if d * 2 ^ l <=? n then l else l - 1)
  else (if d <=? n * 2 ^ (- l) then l else l - 1).

(** The integer nearest to [n/d] ([0 < d]), ties to the even one. *)
Definition rne (n d : Z) : Z :=
  let q := n / d in
  let r := n mod d in
  match 2 * r ?= d with
  | Lt => q
  | Gt => q + 1
  | Eq => if Z.even q then q else q + 1
  end.

(** [m * 2^e] as a rational. *)
Definition dyadic (m e : Z) : Q :=
  if 0 <=? e then inject_Z (m * 2 ^ e)
  else Qred (Qmake m (Z.to_pos (2 ^ (- e)))).

(** Rounding of an exact rational to binary64: 53 bits of precision,
    least exponent -1074 (subnormals), overflow to infinity from 2^1024. *)
Definition round (q : Q) : float :=
  let n := Qnum q in
  let d := Zpos (Qden q) in
  if n =? 0 then Fin 0
  else
    let a := Z.abs n in
    let e := Z.max (ilog2 a d - 52) (-1074) in
    let m := if 0 <=? e then rne a (d * 2 ^ e) else rne (a * 2 ^ (- e)) d in
    if (0 <=? e) && (2 ^ 1024 <=? m * 2 ^ e) then Inf (n <? 0)
    else Fin (dyadic (if n <? 0 then - m else m) e).

Definition is_zero (q : Q) : bool := Qnum q =? 0.
Definition is_neg (q : Q) : bool := Qnum q <? 0.

(** [float(i)] for an [int]: raises when [i] is out of range. *)
Definition of_int (z : Z) : result float :=
  match round (inject_Z z) with
  | Inf _ => Raise OverflowError
  | f => Ok f
  end.

(** [a / b] for two [int]s: the correctly rounded quotient. *)
Definition int_truediv (a b : Z) : result float :=
  if b =? 0 then Raise ZeroDivisionError
  else
    match round (inject_Z a / inject_Z b) with
    | Inf _ => Raise OverflowError
    | f => Ok f
    end.

Definition neg (x : float) : float :=
  match x with
  | Fin q => Fin (- q)
  | Inf s => Inf (negb s)
  | NaN => NaN
  end.

Definition add (x y : float) : float :=
  match x, y with
  | NaN, _ | _, NaN => NaN
  | Inf s, Inf t => if Bool.eqb s t then Inf s else NaN
  | Inf s, Fin _ => Inf s
  | Fin _, Inf t => Inf t
  | Fin p, Fin q => round (p + q)
  end.

Definition sub (x y : float) : float := add x (neg y).

Definition mul (x y : float) : float :=
  match x, y with
  | NaN, _ | _, NaN => NaN
  | Inf s, Inf t => Inf (xorb s t)
  | Inf s, Fin q => if is_zero q then NaN else Inf (xorb s (is_neg q))
  | Fin p, Inf t => if is_zero p then NaN else Inf (xorb (is_neg p) t)
  | Fin p, Fin q => round (p * q)
  end.

(** [x / y] for two [float]s: Python raises on a zero divisor. *)
Definition div (x y : float) : result float :=
  match x, y with
  | _, Fin q =>
      if is_zero q then Raise ZeroDivisionError
      else
        match x with
        | NaN => Ok NaN
        | Inf s => Ok (Inf (xorb s (is_neg q)))
        | Fin p => Ok (round (p / q))
        end
  | NaN, _ | _, NaN => Ok NaN
  | Inf _, Inf _ => Ok NaN
  | Fin _, Inf _ => Ok (Fin 0)
  end.

(** [int(x)]: truncation toward zero. *)
Definition to_int (x : float) : result Z :=
  match x with
  | Fin q => Ok (Z.quot (Qnum q) (Zpos (Qden q)))
  | Inf _ => Raise OverflowError
  | NaN => Raise ValueError
  end.

(** [round(x)]: the nearest [int], ties to the even one. *)
Definition py_round (x : float) : result Z :=
  match x with
  | Fin q => Ok (rne (Qnum q) (Zpos (Qden q)))
  | Inf _ => Raise OverflowError
  | NaN => Raise ValueError
  end.

(** [x > k] for a [float] and an [int]: an exact comparison. *)
Definition gt_int (x : float) (k : Z) : bool :=
  match x with
  | Fin q => negb (Qle_bool q (inject_Z k))
  | Inf s => negb s
  | NaN => false
  end.

(** [f"{x:.1f}"]: one decimal, correctly rounded, ties to even. *)
Definition format_1f (x : float) : string :=
  match x with
  | Fin q =>
      let k := rne (10 * Z.abs (Qnum q)) (Zpos (Qden q)) in
      (if is_neg q then "-" else "")
        ++ str_of_int (k / 10) ++ "." ++ str_of_int (k mod 10)
  | Inf s => if s then "-inf" else "inf"
  | NaN => "nan"
  end.

(** The hardware's binary64 values, read into the model (used to test
    [round] against the machine). *)
Definition of_spec (x : spec_float) : float :=
  match x with
  | S754_zero _ => Fin 0
  | S754_infinity s => Inf s
  | S754_nan => NaN
  | S754_finite s m e => Fin (dyadic (if s then Zneg m else Zpos m) e)
  end.

Definition eqb (x y : float) : bool :=
  match x, y with
  | Fin p, Fin q => Qeq_bool p q
  | Inf s, Inf t => Bool.eqb s t
  | _, _ => false
  end.

End PyFloat.

(** A Python number: an [int] or a [float], with the mixed arithmetic of
    the language (the [int] operand is converted to [float] first). *)
Module PyNum.
Import PyFloat.

Inductive num : Type :=
| NInt (z : Z)
| NFloat (f : float).

Definition to_float (x : num) : result float :=
  match x with
  | NInt z => of_int z
  | NFloat f => Ok f
  end.

Definition truediv (x y : num) : result num :=
  match x, y with
  | NInt a, NInt b => f <- int_truediv a b ;; Ok (NFloat f)
  | _, _ =>
      a <- to_float x ;;
      b <- to_float y ;;
      f <- div a b ;;
      Ok (NFloat f)
  end.

Definition mul (x y : num) : result num :=
  match x, y with
  | NInt a, NInt b => Ok (NInt (a * b))
  | _, _ =>
      a <- to_float x ;;
      b <- to_float y ;;
      Ok (NFloat (PyFloat.mul a b))
  end.

Definition add (x y : num) : result num :=
  match x, y with
  | NInt a, NInt b => Ok (NInt (a + b))
  | _, _ =>
      a <- to_float x ;;
      b <- to_float y ;;
      Ok (NFloat (PyFloat.add a b))
  end.

(** [round(x)]. *)
Definition py_round (x : num) : result Z :=
  match x with
  | NInt z => Ok z
  | NFloat f => PyFloat.py_round f
  end.

End PyNum.

(** ** scores.py *)

Module ScoreCalculator.
Import PyNum.

(** [ScoreCalculator.calculate_average]. *)
Definition calculate_average (scores : list Z) : result Z :=
  match scores with
  | [] => Ok 0
  | _ =>
      m <- PyFloat.int_truediv (sum scores) (len scores) ;;
      PyFloat.py_round m
  end.

(** [ScoreCalculator.score_to_grade]. *)
Definition score_to_grade (score : Z) : string :=
  if score >=? 97 then "A+"
  else if score >=? 93 then "A"
  else if score >=? 90 then "A-"
  else if score >=? 87 then "B+"
  else if score >=? 83 then "B"
  else if score >=? 80 then "B-"
  else if score >=? 77 then "C+"
  else if score >=? 73 then "C"
  else if score >=? 70 then "C-"
  else if score >=? 67 then "D+"
  else if score >=? 63 then "D"
  else if score >=? 60 then "D-"
  else "F".

(** [ScoreCalculator.penalty] and [ScoreCalculator.bonus]. *)
Definition penalty (score penalty_amount min_score : Z) : Z :=
  Z.max min_score (score - penalty_amount).

Definition bonus (score bonus_amount max_score : Z) : Z :=
  Z.min max_score (score + bonus_amount).

(** [[w / total_weight * 100 for w in weights]]. *)
Fixpoint normalize_weights (total_weight : Z) (weights : list Z)
  : result (list num) :=
  match weights with
  | [] => Ok []
  | w :: rest =>
      r <- truediv (NInt w) (NInt total_weight) ;;
      x <- mul r (NInt 100) ;;
      xs <- normalize_weights total_weight rest ;;
      Ok (x :: xs)
  end.

(** [sum(s * (w / 100) for s, w in zip(scores, weights))], the running
    total being [acc] (sum starts from the [int] 0 and adds from the left;
    CPython 3.12 and later compensate the rounding error of the partial
    sums, which changes nothing where the partial sums are exact). *)
Fixpoint weighted_sum (acc : num) (pairs : list (Z * num)) : result num :=
  match pairs with
  | [] => Ok acc
  | (s, w) :: rest =>
      r <- truediv w (NInt 100) ;;
      t <- mul (NInt s) r ;;
      acc' <- add acc t ;;
      weighted_sum acc' rest
  end.

(** [ScoreCalculator.weighted_average]. *)
Definition weighted_average (scores weights : list Z) : result Z :=
  if negb (len scores =? len weights) then Raise ValueError
  else
    match scores with
    | [] => Ok 0
    | _ =>
        let total_weight := sum weights in
        ws <- (if negb (total_weight =? 100)
               then normalize_weights total_weight weights
               else Ok (map NInt weights)) ;;
        total <- weighted_sum (NInt 0) (combine scores ws) ;;
        py_round total
    end.

End ScoreCalculator.

(** ** [str] methods (characters are code points 0..255) *)

Module Str.

Definition code (c : ascii) : N := N_of_ascii c.

(** [c.isspace()]. *)
Definition isspace (c : ascii) : bool :=
  let n := code c in
  (((9 <=? n) && (n <=? 13)) || ((28 <=? n) && (n <=? 32))
   || (n =? 133) || (n =? 160))%N.

(** [c.isdigit()] as the pattern [\d] reads it. *)
Definition isdigit (c : ascii) : bool :=
  let n := code c in ((48 <=? n) && (n <=? 57))%N.

(** [c.lower()]. *)
Definition lower_char (c : ascii) : ascii :=
  let n := code c in
  if (((65 <=? n) && (n <=? 90))
      || ((192 <=? n) && (n <=? 222) && negb (n =? 215)))%N
  then ascii_of_N (n + 32)
  else c.

Fixpoint lower (s : string) : string :=
  match s with
  | EmptyString => EmptyString
  | String c rest => String (lower_char c) (lower rest)
  end.

Fixpoint lstrip (s : string) : string :=
  match s with
  | EmptyString => EmptyString
  | String c rest => if isspace c then lstrip rest else s
  end.

Definition reverse (s : string) : string :=
  string_of_list_ascii (rev (list_ascii_of_string s)).

Definition rstrip (s : string) : string := reverse (lstrip (reverse s)).

(** [s.strip()]. *)
Definition strip (s : string) : string := rstrip (lstrip s).

(** [s.startswith(p)]. *)
Definition startswith (s p : string) : bool := String.prefix p s.

(** [s.startswith((p1, p2, ...))]. *)
Definition startswith_any (s : string) (ps : list string) : bool :=
  existsb (startswith s) ps.

(** [sub in s]. *)
Fixpoint contains (sub s : string) : bool :=
  if String.prefix sub s then true
  else
    match s with
    | EmptyString => false
    | String _ rest => contains sub rest
    end.

(** [s[:n]]. *)
Definition slice_to (n : nat) (s : string) : string := String.substring 0 n s.

(** [s.split()] on runs of whitespace, as [re.findall(r"\S+", s)]. *)
Fixpoint tokens_from (cur : string) (s : string) : list string :=
  match s with
  | EmptyString => if String.eqb cur "" then [] else [reverse cur]
  | String c rest =>
      if isspace c
      then (if String.eqb cur "" then tokens_from "" rest
            else reverse cur :: tokens_from "" rest)
      else tokens_from (String c cur) rest
  end.

Definition tokens (s : string) : list string := tokens_from "" s.

Definition len (s : string) : Z := Z.of_nat (String.length s).

End Str.

(** ** Python values held in [raw_data] and read from JSON *)

#[warnings="-register-all"]
Inductive pyval : Type :=
| VNone
| VBool (b : bool)
| VInt (z : Z)
| VFloat (f : PyFloat.float)
| VStr (s : string)
| VList (l : list pyval)
| VDict (d : list (string * pyval)).

(** [d.get(k)] on the items of a dict, in insertion order. *)
Fixpoint dict_get {A} (k : string) (d : list (string * A)) : option A :=
  match d with
  | [] => None
  | (k', v) :: rest => if String.eqb k k' then Some v else dict_get k rest
  end.

(** [sep.join(l)] for a list of arbitrary values: every item must be a
    [str]. *)
Fixpoint join_vals (sep : string) (l : list pyval) : result string :=
  match l with
  | [] => Ok ""
  | VStr s :: rest =>
      match rest with
      | [] => Ok s
      | _ => r <- join_vals sep rest ;; Ok (s ++ sep ++ r)
      end
  | _ :: _ => Raise TypeError
  end.

(** ** The parsed document, as the analyzers query it

    A [Tag] carries what the code reads of a BeautifulSoup tag; a
    [Document] is the tags in document order (the order of [find_all])
    and the text nodes. *)

Module Bs4.

Record Tag : Type := {
  tag_name : string;
  tag_attrs : list (string * string);
  tag_text : string;            (* tag.get_text(strip=True) *)
  tag_string : option string    (* tag.string *)
}.

Record Document : Type := {
  doc_tags : list Tag;
  doc_strings : list string
}.

(** [tag.get(k)]. *)
Definition get (t : Tag) (k : string) : option string :=
  dict_get k (tag_attrs t).

(** [tag.get(k, default)]. *)
Definition get_default (t : Tag) (k : string) (default : string) : string :=
  match get t k with
  | Some v => v
  | None => default
  end.

(** [tag.get("rel")]: a list of tokens on [a] and [link] tags. *)
Definition get_rel (t : Tag) : option (list string) :=
  option_map Str.tokens (get t "rel").

Definition has_name (n : string) (t : Tag) : bool := String.eqb (tag_name t) n.

Definition attr_is (k v : string) (t : Tag) : bool :=
  match get t k with
  | Some x => String.eqb x v
  | None => false
  end.

Definition has_attr (k : string) (t : Tag) : bool :=
  match get t k with
  | Some _ => true
  | None => false
  end.

(** [rel=v] as a filter: one of the tokens is [v]. *)
Definition rel_has (v : string) (t : Tag) : bool :=
  match get_rel t with
  | Some l => existsb (String.eqb v) l
  | None => false
  end.

(** [soup.find_all(...)] with the filter [p]; [soup.find(...)]. *)
Definition find_all (p : Tag -> bool) (d : Document) : list Tag :=
  filter p (doc_tags d).

Definition find (p : Tag -> bool) (d : Document) : option Tag :=
  List.find p (doc_tags d).

End Bs4.
Import Bs4.

(** ** auditor.py: the data model *)

Record AuditResult : Type := {
  score : Z;
  max_score : Z;
  findings : list string;
  recommendations : list string;
  raw_data : list (string * pyval)
}.

(** The dataclass constructor with its defaults. *)
Definition mkResult (s : Z) (f r : list string) (raw : list (string * pyval))
  : AuditResult :=
  {| score := s; max_score := 100; findings := f; recommendations := r;
     raw_data := raw |}.

Record WebsiteAudit : Type := {
  url : string;
  timestamp : PyFloat.float;
  duration_ms : Z;
  title : AuditResult;
  meta_description : AuditResult;
  headings : AuditResult;
  images : AuditResult;
  mobile : AuditResult;
  ssl_security : AuditResult;
  performance : AuditResult;
  links : AuditResult;
  open_graph : AuditResult;
  schema : AuditResult
}.

(** [WebsiteAudit.get_overall_score]. *)
Definition get_overall_score (a : WebsiteAudit) : result Z :=
  let scores :=
    [ score (title a); score (meta_description a); score (headings a);
      score (images a); score (mobile a); score (ssl_security a);
      score (performance a); score (links a); score (open_graph a);
      score (schema a) ] in
  m <- PyFloat.int_truediv (sum scores) (len scores) ;;
  PyFloat.py_round m.

(** [WebsiteAudit.get_grade]. *)
Definition get_grade (a : WebsiteAudit) : result string :=
  score <- get_overall_score a ;;
  Ok (if score >=? 97 then "A+"
      else if score >=? 93 then "A"
      else if score >=? 90 then "A-"
      else if score >=? 87 then "B+"
      else if score >=? 83 then "B"
      else if score >=? 80 then "B-"
      else if score >=? 77 then "C+"
      else if score >=? 73 then "C"
      else if score >=? 70 then "C-"
      else if score >=? 67 then "D+"
      else if score >=? 63 then "D"
      else if score >=? 60 then "D-"
      else "F").

(** ** auditor.py: the analyzers that read the document only *)

(** [o is None]. *)
Definition is_none {A} (o : option A) : bool :=
  match o with
  | None => true
  | Some _ => false
  end.

(** [WebsiteAuditor._audit_title]. *)
Definition _audit_title (soup : Document) : AuditResult :=
  let title_tag := find (has_name "title") soup in
  match title_tag with
  | None =>
      mkResult 0 ["No title tag found"]
        ["Add a <title> tag to your <head> section"] []
  | Some tag =>
      if String.eqb (tag_text tag) "" then
        mkResult 0 ["No title tag found"]
          ["Add a <title> tag to your <head> section"] []
      else
        let title := tag_text tag in
        let title_length := Str.len title in
        let findings :=
          [ "Title found: '" ++ title ++ "'";
            "Title length: " ++ str_of_int title_length ++ " characters" ] in
        let '(score, findings, recommendations) :=
          if (50 <=? title_length) && (title_length <=? 60) then
            (100, append findings ("Title length is optimal for search engines"),
             [])
          else if ((30 <=? title_length) && (title_length <? 50))
                  || ((60 <? title_length) && (title_length <=? 70)) then
            (80,
             append findings ("Title length is acceptable but could be improved"),
             ["Aim for 50-60 characters for optimal display"])
          else if title_length <? 30 then
            (50, append findings ("Title is too short"),
             ["Expand your title to 50-60 characters"])
          else
            (60,
             append findings
               ("Title is too long and may be truncated in search results"),
             ["Shorten your title to 50-60 characters"]) in
        let generic_words := ["home"; "untitled"; "index"; "page"; "website"] in
        let '(score, findings, recommendations) :=
          if existsb (fun word => Str.contains word (Str.lower title))
               generic_words
          then
            (Z.max 0 (score - 30),
             append findings ("Title appears to be generic"),
             append recommendations
               ("Use a descriptive, unique title that describes your page content"))
          else (score, findings, recommendations) in
        mkResult score findings recommendations
          [("title", VStr title); ("length", VInt title_length)]
  end.

(** [WebsiteAuditor._audit_meta_description]. *)
Definition _audit_meta_description (soup : Document) : AuditResult :=
  let meta_desc :=
    find (fun t => has_name "meta" t && attr_is "name" "description" t) soup in
  match meta_desc with
  | None =>
      mkResult 0 ["No meta description found"]
        ["Add a meta description: <meta name='description' content='...'>"] []
  | Some tag =>
      let content := Str.strip (get_default tag "content" "") in
      let desc_length := Str.len content in
      let findings :=
        [ "Meta description found";
          "Description length: " ++ str_of_int desc_length ++ " characters" ] in
      if String.eqb content "" then
        mkResult 10 (append findings ("Meta description is empty"))
          ["Add meaningful content to your meta description"] []
      else
        let '(score, findings, recommendations) :=
          if (150 <=? desc_length) && (desc_length <=? 160) then
            (100, append findings ("Description length is optimal"), [])
          else if ((120 <=? desc_length) && (desc_length <? 150))
                  || ((160 <? desc_length) && (desc_length <=? 170)) then
            (85, append findings ("Description length is good"),
             ["Aim for 150-160 characters for optimal display"])
          else if desc_length <? 120 then
            (60, append findings ("Description is too short"),
             ["Expand your description to 150-160 characters"])
          else
            (70, append findings ("Description is too long and may be truncated"),
             ["Shorten your description to 150-160 characters"]) in
        let generic_phrases :=
          ["this is a website"; "welcome to"; "click here"; "learn more"] in
        let '(score, findings, recommendations) :=
          if existsb (fun phrase => Str.contains phrase (Str.lower content))
               generic_phrases
          then
            (Z.max 0 (score - 20),
             append findings ("Description appears to be generic"),
             append recommendations
               ("Write a compelling, unique description that entices clicks"))
          else (score, findings, recommendations) in
        mkResult score findings recommendations
          [("description", VStr content); ("length", VInt desc_length)]
  end.

(** [int(tag.name[1])] for the names [find_all] selects below. *)
Definition heading_level (name : string) : Z :=
  match name with
  | String _ (String c _) => Z.of_N (Str.code c) - 48
  | _ => 0
  end.

Definition is_heading (t : Tag) : bool :=
  existsb (String.eqb (tag_name t)) ["h1"; "h2"; "h3"; "h4"; "h5"; "h6"].

(** The loop over [heading_levels]: [prev_level] and [skipped_levels]. *)
Fixpoint skipped_levels_from (prev_level : Z) (levels : list Z) : list string :=
  match levels with
  | [] => []
  | level :: rest =>
      let tail := skipped_levels_from level rest in
      if level >? prev_level + 1
      then ("H" ++ str_of_int prev_level ++ " -> H" ++ str_of_int level) :: tail
      else tail
  end.

(** [WebsiteAuditor._audit_headings]. *)
Definition _audit_headings (soup : Document) : AuditResult :=
  let h1_tags := find_all (has_name "h1") soup in
  let h2_tags := find_all (has_name "h2") soup in
  let h3_tags := find_all (has_name "h3") soup in
  let all_headings := find_all is_heading soup in
  let findings :=
    [ "Found " ++ str_of_int (len h1_tags) ++ " H1, "
        ++ str_of_int (len h2_tags) ++ " H2, "
        ++ str_of_int (len h3_tags) ++ " H3 tags" ] in
  let score := 100 in
  let '(score, findings, recommendations) :=
    match h1_tags with
    | [] =>
        (Z.max 0 (score - 40),
         append findings ("No H1 tag found - every page needs one main heading"),
         ["Add an H1 tag that describes your main content"])
    | [h1] =>
        let h1_text := tag_text h1 in
        if negb (String.eqb h1_text "") then
          (score,
           append findings ("H1 content: '" ++ Str.slice_to 50 h1_text ++ "...'"),
           [])
        else
          (Z.max 0 (score - 15), append findings ("H1 tag is empty"),
           ["Add text content to your H1 tag"])
    | _ =>
        (Z.max 0 (score - 20),
         append findings
           ("Multiple H1 tags found (" ++ str_of_int (len h1_tags)
               ++ "). Use only one H1 per page."),
         ["Consolidate to a single H1 tag"])
    end in
  let heading_levels := map (fun tag => heading_level (tag_name tag)) all_headings in
  let '(score, findings, recommendations) :=
    match heading_levels with
    | [] => (score, findings, recommendations)
    | _ =>
        let skipped_levels := skipped_levels_from 0 heading_levels in
        match skipped_levels with
        | [] => (score, findings, recommendations)
        | _ =>
            (Z.max 0 (score - 10),
             append findings
               ("Skipped heading levels detected: "
                   ++ join ", " (take 3 skipped_levels)),
             append recommendations
               ("Maintain proper heading hierarchy (don't skip from H1 to H3)"))
        end
    end in
  let '(score, findings, recommendations) :=
    if len all_headings =? 0 then
      (0, append findings ("No heading tags found at all"),
       append recommendations
         ("Structure your content with proper heading tags (H1-H6)"))
    else (score, findings, recommendations) in
  mkResult score findings recommendations
    [ ("h1_count", VInt (len h1_tags)); ("h2_count", VInt (len h2_tags));
      ("h3_count", VInt (len h3_tags));
      ("total_headings", VInt (len all_headings)) ].

(** The loop of [_audit_images] over the images: [(missing_alt, empty_alt)]. *)
Definition count_alt (images : list Tag) : Z * Z :=
  fold_left
    (fun '(missing_alt, empty_alt) img =>
       match get img "alt" with
       | None => (missing_alt + 1, empty_alt)
       | Some alt =>
           if String.eqb (Str.strip alt) "" then (missing_alt, empty_alt + 1)
           else (missing_alt, empty_alt)
       end)
    images (0, 0).

(** [sum(1 for x in l if p(x))]. *)
Definition count_if {A} (p : A -> bool) (l : list A) : Z := len (filter p l).

(** [k < x] for an [int] and a [float]: an exact comparison. *)
Definition int_lt_float (k : Z) (x : PyFloat.float) : bool :=
  match x with
  | PyFloat.Fin q => negb (Qle_bool q (inject_Z k))
  | PyFloat.Inf s => negb s
  | PyFloat.NaN => false
  end.

(** [WebsiteAuditor._audit_images]. *)
Definition _audit_images (soup : Document) : result AuditResult :=
  let images := find_all (has_name "img") soup in
  let total_images := len images in
  let findings := ["Found " ++ str_of_int total_images ++ " image(s)"] in
  if total_images =? 0 then
    Ok (mkResult 70
          (append findings ("No images on page - consider adding visual content"))
          [] [])
  else
    let '(missing_alt, empty_alt) := count_alt images in
    let with_alt := total_images - missing_alt - empty_alt in
    let findings :=
      (append findings
         ("Images with alt text: " ++ str_of_int with_alt ++ "/"
             ++ str_of_int total_images)) in
    let findings :=
      if missing_alt >? 0
      then (append findings ("Missing alt attributes: " ++ str_of_int missing_alt))
      else findings in
    let findings :=
      if empty_alt >? 0
      then (append findings ("Empty alt attributes: " ++ str_of_int empty_alt))
      else findings in
    score <- (if total_images >? 0 then
                alt_coverage <- PyFloat.int_truediv with_alt total_images ;;
                hundred <- PyFloat.of_int 100 ;;
                PyFloat.to_int (PyFloat.mul alt_coverage hundred)
              else Ok 100) ;;
    let '(score, recommendations) :=
      if missing_alt >? 0
      then (Z.max 0 (score - 10),
            ["Add alt attributes to " ++ str_of_int missing_alt ++ " image(s)"])
      else (score, @nil string) in
    let '(score, recommendations) :=
      if empty_alt >? 0
      then (Z.max 0 (score - 5),
            append recommendations
              ("Add descriptive alt text to " ++ str_of_int empty_alt
                  ++ " image(s)"))
      else (score, recommendations) in
    let lazy_loaded := count_if (attr_is "loading" "lazy") images in
    total_f <- PyFloat.of_int total_images ;;
    let recommendations :=
      if int_lt_float lazy_loaded (PyFloat.mul total_f (PyFloat.Fin (1 # 2)))
         && (total_images >? 5)
      then (append recommendations
              ("Consider adding loading='lazy' to images below the fold"))
      else recommendations in
    Ok (mkResult score findings recommendations
          [ ("total", VInt total_images); ("with_alt", VInt with_alt);
            ("missing_alt", VInt missing_alt); ("empty_alt", VInt empty_alt);
            ("lazy_loaded", VInt lazy_loaded) ]).

(** ** auditor.py: the analyzers that read the response, URLs or JSON *)

(** What the code reads of a [requests.Response]. *)
Record Response : Type := {
  status_code : Z;
  headers : list (string * string);
  content : list Byte.byte
}.

(** What the code reads of [urlparse(...)]. *)
Record ParseResult : Type := {
  scheme : string;
  netloc : string
}.

(** [header in response.headers]: the keys compare without case. *)
Definition header_in (header : string) (hs : list (string * string)) : bool :=
  existsb (fun kv => String.eqb (Str.lower (fst kv)) (Str.lower header)) hs.

(** The pattern [width\s*:\s*\d{4,}px] with [re.IGNORECASE], matched at the
    start of [s]. *)
Fixpoint span_digits (s : string) : nat * string :=
  match s with
  | String c rest =>
      if Str.isdigit c
      then (let '(n, r) := span_digits rest in (S n, r))
      else (O, s)
  | EmptyString => (O, s)
  end.

Definition drop (n : nat) (s : string) : string :=
  String.substring n (String.length s - n) s.

Definition fixed_width_match (s : string) : bool :=
  if String.prefix "width" (Str.lower s) then
    match Str.lstrip (drop 5 s) with
    | String ":" rest =>
        let '(n, r) := span_digits (Str.lstrip rest) in
        (4 <=? n)%nat && String.prefix "px" (Str.lower r)
    | _ => false
    end
  else false.

(** [fixed_width_pattern.search(s)]. *)
Fixpoint fixed_width_search (s : string) : bool :=
  fixed_width_match s
  || match s with
     | EmptyString => false
     | String _ rest => fixed_width_search rest
     end.

Section WebsiteAuditor.

(** [response.text]: the body decoded, a function of headers and bytes. *)
Variable decode_body : list (string * string) -> list Byte.byte -> string.
(** [BeautifulSoup(markup, "html.parser")] on bytes and on text: the
    document, or the exception of a parser that rejects the markup
    ([bs4.exceptions.ParserRejectedMarkup]). *)
Variable parse_bytes : list Byte.byte -> result Document.
Variable parse_str : string -> result Document.
(** [urllib.parse.urlparse] and [json.loads]. *)
Variable urlparse : string -> result ParseResult.
Variable json_loads : string -> result pyval.

Definition text (response : Response) : string :=
  decode_body (headers response) (content response).

(** [WebsiteAuditor._audit_mobile]. *)
Definition _audit_mobile (soup : Document) (response : Response) : AuditResult :=
  let score := 100 in
  let viewport :=
    find (fun t => has_name "meta" t && attr_is "name" "viewport" t) soup in
  let '(score, findings, recommendations) :=
    match viewport with
    | None =>
        (Z.max 0 (score - 40), ["No viewport meta tag found"],
         ["Add: <meta name='viewport' content='width=device-width, initial-scale=1'>"])
    | Some tag =>
        let content := get_default tag "content" "" in
        let findings := ["Viewport found: " ++ content] in
        if negb (Str.contains "width=device-width" content) then
          (Z.max 0 (score - 20),
           append findings "Viewport missing 'width=device-width'",
           ["Add width=device-width to viewport content"])
        else (score, findings, [])
    end in
  let media_queries := count_if (Str.contains "@media") (doc_strings soup) in
  let findings :=
    if media_queries >? 0
    then append findings
           ("Found " ++ str_of_int media_queries ++ " media query references")
    else findings in
  let '(score, findings, recommendations) :=
    if fixed_width_search (text response) then
      (Z.max 0 (score - 15),
       append findings
         "Fixed widths >1000px detected - may cause horizontal scrolling on mobile",
       append recommendations
         "Use relative units (%, vw, rem) instead of large fixed pixel widths")
    else (score, findings, recommendations) in
  mkResult score findings recommendations
    [ ("viewport",
       match viewport with
       | Some tag =>
           match get tag "content" with
           | Some c => VStr c
           | None => VNone
           end
       | None => VNone
       end) ].

Definition security_headers : list (string * string) :=
  [ ("Strict-Transport-Security", "HSTS - forces HTTPS connections");
    ("Content-Security-Policy", "CSP - prevents XSS attacks");
    ("X-Frame-Options", "Prevents clickjacking");
    ("X-Content-Type-Options", "Prevents MIME sniffing");
    ("Referrer-Policy", "Controls referrer information leakage") ].

(** [WebsiteAuditor._audit_ssl_security]. *)
Definition _audit_ssl_security (url : string) (response : Response)
  : result AuditResult :=
  let score := 100 in
  parsed <- urlparse url ;;
  let '(score, findings, recommendations) :=
    if negb (String.eqb (scheme parsed) "https") then
      (Z.max 0 (score - 50), ["Site is not using HTTPS"],
       ["Enable HTTPS - it's free with Let's Encrypt and essential for security"])
    else (score, ["HTTPS is enabled ✓"], []) in
  let hs := headers response in
  let found_headers :=
    map fst (filter (fun hd => header_in (fst hd) hs) security_headers) in
  let missing_headers :=
    filter (fun hd => negb (header_in (fst hd) hs)) security_headers in
  let findings :=
    append findings
      ("Security headers found: " ++ str_of_int (len found_headers) ++ "/"
       ++ str_of_int (len security_headers)) in
  let '(score, recommendations) :=
    match missing_headers with
    | [] => (score, recommendations)
    | _ =>
        let penalty := Z.min 30 (len missing_headers * 6) in
        (Z.max 0 (score - penalty),
         fold_left
           (fun recs hd => append recs ("Add " ++ fst hd ++ " header: " ++ snd hd))
           (take 3 missing_headers) recommendations)
    end in
  Ok (mkResult score findings recommendations
        [ ("https", VBool (String.eqb (scheme parsed) "https"));
          ("found_headers", VList (map VStr found_headers));
          ("missing_headers", VList (map (fun hd => VStr (fst hd)) missing_headers)) ]).

(** [WebsiteAuditor._audit_performance]. *)
Definition _audit_performance (response : Response) (content_length : Z)
  (html_content : string) : result AuditResult :=
  let score := 100 in
  size_kb <- PyFloat.int_truediv content_length 1024 ;;
  let findings := ["Page size: " ++ PyFloat.format_1f size_kb ++ " KB"] in
  let '(score, findings, recommendations) :=
    if PyFloat.gt_int size_kb 2000 then
      (Z.max 0 (score - 30), append findings "Page is very large (>2MB)",
       ["Optimize images and minify CSS/JS to reduce page size"])
    else if PyFloat.gt_int size_kb 1000 then
      (Z.max 0 (score - 15), append findings "Page is quite large (>1MB)",
       ["Consider compressing images and lazy loading"])
    else if PyFloat.gt_int size_kb 500 then
      (Z.max 0 (score - 5), append findings "Page is moderately large", [])
    else (score, findings, []) in
  soup <- parse_str html_content ;;
  let css_files :=
    len (find_all (fun t => has_name "link" t && rel_has "stylesheet" t) soup) in
  let js_files :=
    len (find_all (fun t => has_name "script" t && has_attr "src" t) soup) in
  let images := len (find_all (has_name "img") soup) in
  let findings :=
    append findings
      ("External resources: " ++ str_of_int css_files ++ " CSS, "
       ++ str_of_int js_files ++ " JS, " ++ str_of_int images ++ " images") in
  let total_external := css_files + js_files in
  let '(score, findings, recommendations) :=
    if total_external >? 20 then
      (Z.max 0 (score - 15),
       append findings
         ("Excessive external resources (" ++ str_of_int total_external ++ ")"),
       append recommendations
         "Combine and minify CSS/JS files to reduce HTTP requests")
    else if total_external >? 10 then
      (Z.max 0 (score - 5), append findings "Many external resources",
       append recommendations "Consider combining some CSS/JS files")
    else (score, findings, recommendations) in
  let blocking_css :=
    count_if (fun link => negb (attr_is "media" "print" link))
      (find_all (fun t => has_name "link" t && rel_has "stylesheet" t) soup) in
  let recommendations :=
    if blocking_css >? 3
    then append recommendations "Consider loading non-critical CSS asynchronously"
    else recommendations in
  let img_srcs :=
    map (fun img => get_default img "src" "") (find_all (has_name "img") soup) in
  let modern_formats :=
    count_if
      (fun src => existsb (fun ext => Str.contains ext (Str.lower src))
                    [".webp"; ".avif"])
      img_srcs in
  let recommendations :=
    if (images >? 0) && (modern_formats =? 0)
    then append recommendations "Consider using WebP format for better compression"
    else recommendations in
  Ok (mkResult score findings recommendations
        [ ("size_kb", VFloat size_kb); ("css_files", VInt css_files);
          ("js_files", VInt js_files); ("image_count", VInt images) ]).

(** [link.get("rel") and tok in link.get("rel", [])]. *)
Definition rel_truthy_and_has (tok : string) (link : Tag) : bool :=
  match get_rel link with
  | Some (x :: l) => existsb (String.eqb tok) (x :: l)
  | _ => false
  end.

Definition is_absolute (href : string) : bool :=
  Str.startswith_any href ["http://"; "https://"].

(** The loop of [_audit_links] over the links: [(internal, external, nofollow)]. *)
Fixpoint classify_links (base_domain : string) (links : list Tag)
  (acc : Z * Z * Z) : result (Z * Z * Z) :=
  match links with
  | [] => Ok acc
  | link :: rest =>
      let '(internal, external, nofollow) := acc in
      let href := get_default link "href" "" in
      ie <- (if is_absolute href then
               parsed_link <- urlparse href ;;
               if String.eqb (netloc parsed_link) base_domain
               then Ok (internal + 1, external)
               else Ok (internal, external + 1)
             else if negb (Str.startswith_any href
                             ["#"; "javascript:"; "mailto:"; "tel:"])
             then Ok (internal + 1, external)
             else Ok (internal, external)) ;;
      let nofollow :=
        if rel_truthy_and_has "nofollow" link then nofollow + 1 else nofollow in
      classify_links base_domain rest (fst ie, snd ie, nofollow)
  end.

(** The generator summed into [external_no_rel]. *)
Fixpoint count_external_no_rel (base_domain : string) (links : list Tag)
  : result Z :=
  match links with
  | [] => Ok 0
  | link :: rest =>
      hit <- (if is_absolute (get_default link "href" "") then
                parsed_link <- urlparse (get_default link "href" "") ;;
                Ok (negb (String.eqb (netloc parsed_link) base_domain)
                    && negb (rel_truthy_and_has "noopener" link))
              else Ok false) ;;
      n <- count_external_no_rel base_domain rest ;;
      Ok (if hit : bool then 1 + n else n)
  end.

(** [WebsiteAuditor._audit_links]. *)
Definition _audit_links (soup : Document) (base_url : string)
  : result AuditResult :=
  let links := find_all (fun t => has_name "a" t && has_attr "href" t) soup in
  let total_links := len links in
  let findings := ["Found " ++ str_of_int total_links ++ " link(s)"] in
  if total_links =? 0 then
    Ok (mkResult 30 (append findings "No links found on page")
          ["Add navigation links to help users explore your site"] [])
  else
    parsed_base <- urlparse base_url ;;
    let base_domain := netloc parsed_base in
    counts <- classify_links base_domain links (0, 0, 0) ;;
    let '(internal, external, nofollow) := counts in
    let findings := append findings ("Internal links: " ++ str_of_int internal) in
    let findings := append findings ("External links: " ++ str_of_int external) in
    let score := 100 in
    let '(score, findings, recommendations) :=
      if total_links <? 3 then
        (Z.max 0 (score - 30), append findings "Very few links on page",
         ["Add more navigation links to improve site structure"])
      else (score, findings, []) in
    r <- (if external >? 0 then
            external_no_rel <- count_external_no_rel base_domain links ;;
            if external_no_rel >? 0 then
              Ok (Z.max 0 (score - 10),
                  append findings
                    (str_of_int external_no_rel
                     ++ " external links missing rel='noopener noreferrer'"),
                  append recommendations
                    "Add rel='noopener noreferrer' to external links for security")
            else Ok (score, findings, recommendations)
          else Ok (score, findings, recommendations)) ;;
    let '(score, findings, recommendations) := r in
    Ok (mkResult score findings recommendations
          [ ("total", VInt total_links); ("internal", VInt internal);
            ("external", VInt external); ("nofollow", VInt nofollow) ]).

Definition og_tags : list (string * string) :=
  [ ("og:title", "Title for social sharing");
    ("og:description", "Description for social sharing");
    ("og:image", "Image displayed when shared");
    ("og:url", "Canonical URL");
    ("og:type", "Content type (website, article, etc.)") ].

(** [tag.get("content")] where [tag] is the first [meta] with the property,
    when both exist and the content is not empty. *)
Definition og_content (soup : Document) (tag_name : string) : option string :=
  match find (fun t => has_name "meta" t && attr_is "property" tag_name t) soup with
  | Some tag =>
      match get tag "content" with
      | Some c => if String.eqb c "" then None else Some c
      | None => None
      end
  | None => None
  end.

(** The loop of [_audit_open_graph]: [(found_tags, missing_tags)]. *)
Definition scan_og_tags (soup : Document)
  : list (string * string) * list (string * string) :=
  fold_left
    (fun '(found_tags, missing_tags) '(tag_name, description) =>
       match og_content soup tag_name with
       | Some c => (append found_tags (tag_name, c), missing_tags)
       | None => (found_tags, append missing_tags (tag_name, description))
       end)
    og_tags ([], []).

(** [WebsiteAuditor._audit_open_graph]. *)
Definition _audit_open_graph (soup : Document) : result AuditResult :=
  let '(found_tags, missing_tags) := scan_og_tags soup in
  let findings :=
    [ "Open Graph tags found: " ++ str_of_int (len found_tags) ++ "/"
      ++ str_of_int (len og_tags) ] in
  coverage <- PyFloat.int_truediv (len found_tags) (len og_tags) ;;
  hundred <- PyFloat.of_int 100 ;;
  score <- PyFloat.to_int (PyFloat.mul coverage hundred) ;;
  let recommendations :=
    fold_left (fun recs t => append recs ("Add " ++ fst t ++ ": " ++ snd t))
      (take 3 missing_tags) [] in
  let twitter_card :=
    find (fun t => has_name "meta" t && attr_is "name" "twitter:card" t) soup in
  let '(findings, recommendations) :=
    match twitter_card with
    | Some _ => (append findings "Twitter Card tags also present ✓", recommendations)
    | None =>
        (findings,
         append recommendations
           "Consider adding Twitter Card meta tags for better X/Twitter sharing")
    end in
  Ok (mkResult score findings recommendations
        [ ("found_tags", VDict (map (fun t => (fst t, VStr (snd t))) found_tags));
          ("missing_tags", VList (map (fun t => VStr (fst t)) missing_tags)) ]).

(** [data.get("@type", "Unknown")]. *)
Definition type_of_dict (d : list (string * pyval)) : pyval :=
  match dict_get "@type" d with
  | Some v => v
  | None => VStr "Unknown"
  end.

(** What one parsed block adds to [schema_types_found]. *)
Definition types_of_data (data : pyval) : list pyval :=
  match data with
  | VDict d => [type_of_dict d]
  | VList items =>
      flat_map (fun item =>
                  match item with
                  | VDict d => [type_of_dict d]
                  | _ => []
                  end) items
  | _ => []
  end.

(** The body of the [try] for one script, with its [except] clause:
    [JSONDecodeError] and [AttributeError] are swallowed, anything else
    propagates. *)
Definition types_of_script (script : Tag) : result (list pyval) :=
  let loaded :=
    match tag_string script with
    | Some s => if String.eqb s "" then Ok (VDict []) else json_loads s
    | None => Ok (VDict [])
    end in
  match loaded with
  | Ok data => Ok (types_of_data data)
  | Raise JSONDecodeError => Ok []
  | Raise AttributeError => Ok []
  | Raise e => Raise e
  end.

(** The loop of [_audit_schema] over the scripts. *)
Fixpoint collect_schema_types (scripts : list Tag) (acc : list pyval)
  : result (list pyval) :=
  match scripts with
  | [] => Ok acc
  | script :: rest =>
      ts <- types_of_script script ;;
      collect_schema_types rest (acc ++ ts)%list
  end.

(** [WebsiteAuditor._audit_schema]. *)
Definition _audit_schema (soup : Document) : result AuditResult :=
  let jsonld_scripts :=
    find_all (fun t => has_name "script" t && attr_is "type" "application/ld+json" t)
      soup in
  let findings :=
    ["Found " ++ str_of_int (len jsonld_scripts) ++ " JSON-LD script(s)"] in
  if len jsonld_scripts =? 0 then
    Ok (mkResult 0 (append findings "No structured data found")
          (append ["Add JSON-LD structured data for better search visibility"]
             "Consider Organization, WebSite, or Article schema types")
          [])
  else
    let score := Z.min 100 (40 + len jsonld_scripts * 20) in
    schema_types_found <- collect_schema_types jsonld_scripts [] ;;
    findings <- (match schema_types_found with
                 | [] => Ok findings
                 | _ =>
                     joined <- join_vals ", " (take 5 schema_types_found) ;;
                     Ok (append findings ("Schema types found: " ++ joined))
                 end) ;;
    let microdata := find_all (has_attr "itemscope") soup in
    let findings :=
      match microdata with
      | [] => findings
      | _ =>
          append findings
            ("Also found " ++ str_of_int (len microdata) ++ " microdata element(s)")
      end in
    let recommendations :=
      if len jsonld_scripts <? 2
      then ["Consider adding more structured data types (BreadcrumbList, Article, etc.)"]
      else [] in
    Ok (mkResult score findings recommendations
          [ ("jsonld_count", VInt (len jsonld_scripts));
            ("schema_types", VList schema_types_found);
            ("microdata_count", VInt (len microdata)) ]).

(** ** auditor.py: the orchestrator *)

(** [response.raise_for_status()]. *)
Definition raise_for_status (response : Response) : result unit :=
  if (400 <=? status_code response) && (status_code response <? 600)
  then Raise (HTTPError (status_code response))
  else Ok tt.

(** The analyses of [WebsiteAuditor.audit], in the order of the keyword
    arguments of [WebsiteAudit(...)]. *)
Definition run_analyzers (url : string) (start_time : PyFloat.float)
  (duration_ms : Z) (response : Response) (soup : Document)
  (html_content : string) (content_length : Z) : result WebsiteAudit :=
  let r_title := _audit_title soup in
  let r_meta := _audit_meta_description soup in
  let r_headings := _audit_headings soup in
  r_images <- _audit_images soup ;;
  let r_mobile := _audit_mobile soup response in
  r_ssl <- _audit_ssl_security url response ;;
  r_perf <- _audit_performance response content_length html_content ;;
  r_links <- _audit_links soup url ;;
  r_og <- _audit_open_graph soup ;;
  r_schema <- _audit_schema soup ;;
  Ok {| url := url; timestamp := start_time; duration_ms := duration_ms;
        title := r_title; meta_description := r_meta; headings := r_headings;
        images := r_images; mobile := r_mobile; ssl_security := r_ssl;
        performance := r_perf; links := r_links; open_graph := r_og;
        schema := r_schema |}.

(** The world outside: the clock and the HTTP session. *)
Variable World : Type.
Variable time_time : World -> PyFloat.float * World.
Variable session_get : string -> World -> result Response * World.

(** [WebsiteAuditor.audit]. *)
Definition audit (url : string) (w : World) : result WebsiteAudit * World :=
  let '(start_time, w) := time_time w in
  let '(fetched, w) := session_get url w in
  match fetched with
  | Raise e => (Raise e, w)
  | Ok response =>
      match raise_for_status response with
      | Raise e => (Raise e, w)
      | Ok _ =>
          match parse_bytes (content response) with
          | Raise e => (Raise e, w)
          | Ok soup =>
              let html_content := text response in
              let '(now, w) := time_time w in
              (thousand <- PyFloat.of_int 1000 ;;
               duration_ms <-
                 PyFloat.to_int
                   (PyFloat.mul (PyFloat.sub now start_time) thousand) ;;
               let content_length := len (content response) in
               run_analyzers url start_time duration_ms response soup
                 html_content content_length,
               w)
          end
      end
  end.

End WebsiteAuditor.

(** ** roaster.py

    Characters beyond U+00FF in the source's literals are written as their
    UTF-8 bytes. *)

Module Roaster.

Definition HIGH_SCORE_ROASTS : list string :=
  [
    "Okay, this is actually fire. Respect. 🔥";
    "Chef's kiss. Someone knows what they're doing. 👨‍🍳";
    "I'd hire whoever built this. Outstanding work.";
    "Finally! A website that doesn't make me want to cry.";
    "This is so good, I'm suspicious. What's the catch?";
    "Plot twist: this website is actually good!"
  ].

Definition GOOD_SCORE_ROASTS : list string :=
  [
    "Not bad, not bad. Your SEO person deserves a raise.";
    "Solid B+. You're in the top 20% of websites I've seen today.";
    "This is like a decent restaurant meal. Won't win awards, but won't make you sick.";
    "Pretty good! Just a few rough edges to polish.";
    "I see potential here. A few tweaks and this could be great.";
    "Acceptable. Which is high praise coming from me."
  ].

Definition MID_SCORE_ROASTS : list string :=
  [
    "Mid. Just... mid. Your website is the plain oatmeal of the internet.";
    "It's giving 'we did the bare minimum' vibes.";
    "Not terrible, but also not memorable. Like elevator music.";
    "Your website is the human equivalent of lukewarm coffee.";
    "I've seen worse. But I've also seen a lot better.";
    "This is the 'participation trophy' of websites.";
    "Functional, but about as exciting as a tax form."
  ].

Definition LOW_SCORE_ROASTS : list string :=
  [
    "Yikes. Did an intern build this during their lunch break?";
    "This website has commitment issues. And by commitment, I mean committing to quality.";
    "I've seen more effort put into a 'coming soon' page.";
    "Your website is like a salad at a steakhouse — technically there, but why?";
    "Bold strategy making everything mediocre. Let's see if it pays off.";
    "This needs work. Like, 'pull an all-nighter' level work."
  ].

Definition BAD_SCORE_ROASTS : list string :=
  [
    "I've seen better websites on GeoCities in 1998.";
    "This website is so slow, I aged 5 years waiting for it to load.";
    "Did you build this in Notepad... during a power outage?";
    "Your SEO is hiding like my motivation on a Monday morning.";
    "This site has more issues than a celebrity tabloid.";
    "Calling this 'unfinished' would be generous.";
    "Your website just asked me if it could copy my homework."
  ].

Definition DISASTER_ROASTS : list string :=
  [
    "This isn't a website. This is a cry for help. 💀";
    "I've seen error pages with more effort than this.";
    "Congratulations, you've achieved '404 personality'.";
    "This website is the digital equivalent of a dumpster fire.";
    "I'm not saying your website is bad, but... actually yes I am. It's bad.";
    "Burn it down and start over. Trust me on this one.";
    "Your website called and asked if it could borrow some self-respect.";
    "If websites could feel shame, this one would need therapy."
  ].

(** [Roaster._get_serious_comment]. *)
Definition _get_serious_comment (score : Z) : string :=
  if score >=? 95 then "Excellent. This category meets or exceeds best practices."
  else if score >=? 80 then "Good. Minor improvements could push this to excellent."
  else if score >=? 60 then "Acceptable. Some issues present but functional."
  else if score >=? 40 then "Below average. Several issues need attention."
  else if score >=? 20 then "Poor. Significant problems affecting this category."
  else "Critical. Immediate attention required for this area.".

(** The list [get_roast] draws from. *)
Definition roasts_for (score : Z) : list string :=
  if score >=? 95 then HIGH_SCORE_ROASTS
  else if score >=? 80 then GOOD_SCORE_ROASTS
  else if score >=? 60 then MID_SCORE_ROASTS
  else if score >=? 40 then LOW_SCORE_ROASTS
  else if score >=? 20 then BAD_SCORE_ROASTS
  else DISASTER_ROASTS.

End Roaster.

(** ** reporter.py: the JSON emitter

    [json.dumps] and [json.loads] are the library's, and parameters here:
    the emitter hands its document to [json.dumps] and returns the text.
    That [json.loads] reads back what [json.dumps] wrote is the library's
    contract on values built from [dict] with [str] keys, [list], [str],
    [int], [bool], [None] and finite [float]s; a statement on the re-parsed
    text takes it as a hypothesis on the document of the report. *)

(** The state-passing style of the reporters: a computation that may
    raise and that threads the state of the [random] module. *)
Definition bind2 {S A B} (c : result A * S) (k : A -> S -> result B * S)
  : result B * S :=
  match c with
  | (Ok a, s) => k a s
  | (Raise e, s) => (Raise e, s)
  end.

Section Reporter.

(** The state of the [random] module and [random._randbelow(n)], which
    returns some [k] with [0 <= k < n]. *)
Variable Rng : Type.
Variable randbelow : Z -> Rng -> Z * Rng.

(** [random.choice(seq)]. *)
Definition random_choice {A} (seq : list A) (g : Rng) : result A * Rng :=
  match seq with
  | [] => (Raise IndexError, g)
  | _ =>
      let '(i, g) := randbelow (len seq) g in
      match (if 0 <=? i then nth_error seq (Z.to_nat i) else None) with
      | Some x => (Ok x, g)
      | None => (Raise IndexError, g)
      end
  end.

(** [Roaster.get_roast] of a roaster built with [no_roast]; the category
    is not used by the source. *)
Definition get_roast (no_roast : bool) (score : Z) (category : string) (g : Rng)
  : result string * Rng :=
  if no_roast then (Ok (Roaster._get_serious_comment score), g)
  else random_choice (Roaster.roasts_for score) g.

(** The reporter's two flags ([BaseReporter.__init__]). *)
Record Flags : Type := {
  no_roast : bool;
  verbose : bool
}.

(** [JsonReporter._category_to_dict]. *)
Definition _category_to_dict (self : Flags) (name : string) (result : AuditResult)
  (g : Rng) : Py.result pyval * Rng :=
  let '(roast, g) :=
    if negb (no_roast self) then get_roast (no_roast self) (score result) name g
    else (Ok "", g) in
  match roast with
  | Raise e => (Raise e, g)
  | Ok roast =>
      let data :=
        [ ("name", VStr name);
          ("score", VInt (score result));
          ("max_score", VInt (max_score result));
          ("findings", VList (map VStr (findings result)));
          ("recommendations",
           VList (map VStr (if verbose self then recommendations result else [])));
          ("raw_data", VDict (raw_data result)) ] in
      let data :=
        if negb (String.eqb roast "") then append data ("roast", VStr roast)
        else data in
      (Ok (VDict data), g)
  end.

(** The ten entries of ["categories"], in the order of the dict display:
    key, display name, result. *)
Definition category_entries (audit : WebsiteAudit)
  : list (string * string * AuditResult) :=
  [ ("title", "Title Tag", title audit);
    ("meta_description", "Meta Description", meta_description audit);
    ("headings", "Headings", headings audit);
    ("images", "Images", images audit);
    ("mobile", "Mobile", mobile audit);
    ("ssl_security", "SSL/Security", ssl_security audit);
    ("performance", "Performance", performance audit);
    ("links", "Links", links audit);
    ("open_graph", "Open Graph", open_graph audit);
    ("schema", "Schema/Structured Data", schema audit) ].

(** The evaluation of the ["categories"] display, entry by entry. *)
Fixpoint categories_to_dict (self : Flags)
  (entries : list (string * string * AuditResult)) (g : Rng)
  : Py.result (list (string * pyval)) * Rng :=
  match entries with
  | [] => (Ok [], g)
  | (key, name, result) :: rest =>
      let '(d, g) := _category_to_dict self name result g in
      match d with
      | Raise e => (Raise e, g)
      | Ok d =>
          let '(ds, g) := categories_to_dict self rest g in
          match ds with
          | Raise e => (Raise e, g)
          | Ok ds => (Ok ((key, d) :: ds), g)
          end
      end
  end.

(** [JsonReporter.generate], up to the call of [json.dumps]: the document
    [data]. *)
Definition generate (self : Flags) (audit : WebsiteAudit) (g : Rng)
  : Py.result pyval * Rng :=
  match get_overall_score audit with
  | Raise e => (Raise e, g)
  | Ok overall_score =>
      match get_grade audit with
      | Raise e => (Raise e, g)
      | Ok grade =>
          let '(cats, g) := categories_to_dict self (category_entries audit) g in
          match cats with
          | Raise e => (Raise e, g)
          | Ok cats =>
              (Ok (VDict
                     [ ("url", VStr (url audit));
                       ("timestamp", VFloat (timestamp audit));
                       ("duration_ms", VInt (duration_ms audit));
                       ("overall_score", VInt overall_score);
                       ("grade", VStr grade);
                       ("categories", VDict cats) ]),
               g)
          end
      end
  end.

(** [json.dumps(data, indent=2)]. *)
Variable json_dumps : pyval -> string.

(** [JsonReporter.generate]: the text of the report. *)
Definition json_generate (self : Flags) (audit : WebsiteAudit) (g : Rng)
  : Py.result string * Rng :=
  bind2 (generate self audit g)
    (fun data g => (Ok (json_dumps data), g)).

End Reporter.

(** [json.loads] gives back the document that [json.dumps] wrote. *)
Definition loads_inverts_dumps (json_dumps : pyval -> string)
  (json_loads : string -> result pyval) (data : pyval) : Prop :=
  json_loads (json_dumps data) = Ok data.

(** Reading a re-parsed report: the score, the findings and the
    recommendations of the category under [key]. *)
Definition as_str_list (v : pyval) : option (list string) :=
  match v with
  | VList l =>
      fold_right
        (fun x acc =>
           match x, acc with
           | VStr s, Some r => Some (s :: r)
           | _, _ => None
           end)
        (Some []) l
  | _ => None
  end.

(** The score, findings and recommendations of one serialized category. *)
Definition read_category (c : pyval) : option (Z * list string * list string) :=
  match c with
  | VDict c =>
      match dict_get "score" c, dict_get "findings" c,
            dict_get "recommendations" c with
      | Some (VInt s), Some f, Some r =>
          match as_str_list f, as_str_list r with
          | Some f, Some r => Some (s, f, r)
          | _, _ => None
          end
      | _, _, _ => None
      end
  | _ => None
  end.

Definition parsed_category (report : pyval) (key : string)
  : option (Z * list string * list string) :=
  match report with
  | VDict top =>
      match dict_get "categories" top with
      | Some (VDict cats) =>
          match dict_get key cats with
          | Some c => read_category c
          | None => None
          end
      | _ => None
      end
  | _ => None
  end.

(** * The rest of the code

    The remaining functions of [scores.py] and [roaster.py], the terminal
    and Markdown reporters of [reporter.py] and the command line of
    [cli.py].  In the literals of [reporter.py] and [cli.py] every
    character beyond ASCII is written as its UTF-8 bytes, as the file has
    it. *)

(** ** More of the Python runtime *)

Module PyOps.
Import PyFloat PyNum.

(** [x - y]. *)
Definition sub (x y : num) : result num :=
  match x, y with
  | NInt a, NInt b => Ok (NInt (a - b))
  | _, _ =>
      a <- to_float x ;;
      b <- to_float y ;;
      Ok (NFloat (PyFloat.sub a b))
  end.

(** [x < y] for two [float]s; a comparison with not-a-number is false. *)
Definition float_lt (x y : float) : bool :=
  match x, y with
  | NaN, _ | _, NaN => false
  | Inf s, Inf t => s && negb t
  | Inf s, Fin _ => s
  | Fin _, Inf t => negb t
  | Fin p, Fin q => negb (Qle_bool q p)
  end.

(** The value of a number on the extended rational line: Python compares
    an [int] with a [float] by value, the [int] is not rounded. *)
Definition exact (x : num) : float :=
  match x with
  | NInt z => Fin (inject_Z z)
  | NFloat f => f
  end.

Definition lt (x y : num) : bool := float_lt (exact x) (exact y).
Definition gt (x y : num) : bool := float_lt (exact y) (exact x).
Definition eqb (x y : num) : bool := PyFloat.eqb (exact x) (exact y).

(** [min(a, b)] keeps [a] unless [b < a]; [max(a, b)] keeps [a] unless
    [b > a]. *)
Definition py_min (a b : num) : num := if lt b a then b else a.
Definition py_max (a b : num) : num := if gt b a then b else a.

(** [int(x)]. *)
Definition to_int (x : num) : result Z :=
  match x with
  | NInt z => Ok z
  | NFloat f => PyFloat.to_int f
  end.

(** [s * n] for a [str] and an [int]: the empty string when [n <= 0]. *)
Fixpoint repeat_str (s : string) (n : nat) : string :=
  match n with
  | O => ""
  | S k => s ++ repeat_str s k
  end.

Definition str_mul (s : string) (n : Z) : string := repeat_str s (Z.to_nat n).

(** [s.endswith(suffix)]: [suffix] read backwards starts [s] read
    backwards. *)
Definition endswith (s suffix : string) : bool :=
  String.prefix (Str.reverse suffix) (Str.reverse s).

(** [s.endswith((p1, p2, ...))]. *)
Definition endswith_any (s : string) (suffixes : list string) : bool :=
  existsb (endswith s) suffixes.

(** [s.replace(old, new)] for a one-character [old]. *)
Fixpoint replace (old : ascii) (new : string) (s : string) : string :=
  match s with
  | EmptyString => EmptyString
  | String c rest =>
      if Ascii.eqb c old then new ++ replace old new rest
      else String c (replace old new rest)
  end.

(** The line feed and the escape character. *)
Definition NL : string := String (ascii_of_nat 10) EmptyString.
Definition ESC : string := String (ascii_of_nat 27) EmptyString.

End PyOps.
Import PyOps.

(** ** scores.py: the remaining functions *)

(** [ScoreCalculator.normalize_score]. *)
Definition normalize_score (value min_val max_val : PyNum.num)
  (target_min target_max : Z) : result Z :=
  if PyOps.eqb max_val min_val then Ok target_max
  else
    above <- PyOps.sub value min_val ;;
    width <- PyOps.sub max_val min_val ;;
    normalized <- PyNum.truediv above width ;;
    let normalized := py_max (PyNum.NInt 0) (py_min (PyNum.NInt 1) normalized) in
    scaled <- PyNum.mul normalized (PyNum.NInt (target_max - target_min)) ;;
    shifted <- PyNum.add scaled (PyNum.NInt target_min) ;;
    score <- PyOps.to_int shifted ;;
    Ok (Z.max target_min (Z.min target_max score)).

Definition descriptions : list (string * string) :=
  [ ("A+", "Exceptional - exceeds all expectations");
    ("A", "Excellent - meets best practices");
    ("A-", "Very Good - minor improvements needed");
    ("B+", "Good - above average");
    ("B", "Above Average - competent work");
    ("B-", "Average Plus - acceptable with room for improvement");
    ("C+", "Slightly Above Average - meets minimum standards");
    ("C", "Average - acceptable but unremarkable");
    ("C-", "Below Average - needs work");
    ("D+", "Poor - significant issues present");
    ("D", "Very Poor - major improvements needed");
    ("D-", "Critical - barely functional");
    ("F", "Failing - requires complete overhaul") ].

(** [ScoreCalculator.grade_description]. *)
Definition grade_description (grade : string) : string :=
  match dict_get grade descriptions with
  | Some d => d
  | None => "Unknown"
  end.

Module ScoreThresholds.

Definition EXCELLENT : Z := 90.
Definition GOOD : Z := 75.
Definition AVERAGE : Z := 60.
Definition POOR : Z := 40.
Definition CRITICAL : Z := 20.

(** [ScoreThresholds.categorize]. *)
Definition categorize (score : Z) : string :=
  if score >=? EXCELLENT then "excellent"
  else if score >=? GOOD then "good"
  else if score >=? AVERAGE then "average"
  else if score >=? POOR then "poor"
  else if score >=? CRITICAL then "critical"
  else "disaster".

Definition thresholds : list (string * Z) :=
  [ ("excellent", EXCELLENT); ("good", GOOD); ("average", AVERAGE);
    ("poor", POOR); ("critical", CRITICAL) ].

(** [ScoreThresholds.get_threshold]. *)
Definition get_threshold (category : string) : Z :=
  match dict_get (Str.lower category) thresholds with
  | Some t => t
  | None => 0
  end.

End ScoreThresholds.

(** ** roaster.py: the remaining functions *)

Definition GRADE_ROASTS : list (string * list string) :=
  [ ("A+",
     [ "Absolutely flawless. Are you sure you didn't cheat?";
       "I'm genuinely impressed. Take my money already!" ]);
    ("A",
     [ "Excellent work! Someone actually cares about quality.";
       "Top tier website. You should be proud (and I don't say that often)." ]);
    ("A-",
     [ "So close to perfect! Just a tiny bit more polish needed.";
       "Great job! The A- student who could easily be an A+." ]);
    ("B+",
     [ "Very solid effort. Above average in a sea of mediocrity.";
       "Good work! You're in the honors program of web development." ]);
    ("B",
     [ "Respectable B-tier website. Not exceptional, but competent.";
       "Decent job. You're passing with style." ]);
    ("B-",
     [ "Average with ambition. I see what you're trying to do.";
       "You're on the right track, just keep improving." ]);
    ("C+",
     [ "Slightly above average. The participation trophy of grades.";
       "Meh-plus. It's trying, I'll give it that." ]);
    ("C",
     [ "Definition of 'fine, I guess'. The vanilla ice cream of websites.";
       "Perfectly average. Not good, not bad, just... there." ]);
    ("C-",
     [ "Below average. Like getting a C- in 'Introduction to Breathing'.";
       "Needs significant improvement. Back to the drawing board." ]);
    ("D+",
     [ "Barely passing. Your website is one missed assignment away from failing.";
       "This is what 'doing the minimum' looks like." ]);
    ("D",
     [ "Failing but trying. Points for effort, I suppose.";
       "This needs serious work. Like, hire-a-professional serious." ]);
    ("D-",
     [ "Almost failing. Your website is holding on by a thread.";
       "Critical condition. Call a developer ASAP." ]);
    ("F",
     [ "Complete failure. This website is an insult to the internet.";
       "F stands for 'Find a new web developer'. Immediately." ]) ].

Definition contexts : list (string * list (string * string)) :=
  [ ("title",
     [ ("low", "Your title is so bad, even the browser tab is embarrassed.");
       ("mid", "Title exists but it's as exciting as 'Document1.doc'.") ]);
    ("meta_description",
     [ ("low", "No meta description? Google will just make something up. Probably about hamsters.");
       ("mid", "Your meta description is the literary equivalent of elevator music.") ]);
    ("headings",
     [ ("low", "Heading structure is a disaster. It's like a book with random chapter numbers.");
       ("mid", "Your headings exist, which is the bare minimum. Congratulations on doing the bare minimum.") ]);
    ("images",
     [ ("low", "Images without alt text are just digital decorations for sighted people. Rude.");
       ("mid", "Some images have alt text. The rest are just guessing games for screen readers.") ]);
    ("mobile",
     [ ("low", "Not mobile-friendly? What year is this, 2007?");
       ("mid", "Sort of works on mobile. Like how a shoe sort of works as a hammer.") ]);
    ("ssl_security",
     [ ("low", "No HTTPS? Your users' data is basically postcards in the mail.");
       ("mid", "You have HTTPS, but your security headers are taking a nap.") ]);
    ("performance",
     [ ("low", "This site is so slow, I made coffee while waiting for it to load.");
       ("mid", "Not the fastest, but hey, patience is a virtue, right?") ]);
    ("links",
     [ ("low", "Link structure is a maze with no exit. Good luck, users!");
       ("mid", "Links work, but they could be better organized.") ]);
    ("open_graph",
     [ ("low", "No Open Graph? Your social shares will look like sad text messages.");
       ("mid", "Basic social tags present. Could use more flair for sharing.") ]);
    ("schema",
     [ ("low", "No structured data. Google is playing guessing games with your content.");
       ("mid", "Some schema markup. Enough to get by, not enough to excel.") ]) ].

(** [Roaster.get_category_context] of a roaster built with [no_roast]. *)
Definition get_category_context (no_roast : bool) (category : string) (score : Z)
  : string :=
  if no_roast then ""
  else
    let category_key :=
      replace "/" "_" (replace " " "_" (Str.lower category)) in
    let cat_contexts :=
      match dict_get category_key contexts with
      | Some d => d
      | None => []
      end in
    if score <? 40 then
      match dict_get "low" cat_contexts with
      | Some s => s
      | None => ""
      end
    else if score <? 70 then
      match dict_get "mid" cat_contexts with
      | Some s => s
      | None => ""
      end
    else "".

Section RoasterRest.

Variable Rng : Type.
Variable randbelow : Z -> Rng -> Z * Rng.

(** [Roaster.get_overall_roast] of a roaster built with [no_roast]; the
    default of [dict.get] is evaluated before the lookup. *)
Definition get_overall_roast (no_roast : bool) (grade : string) (score : Z)
  (g : Rng) : result string * Rng :=
  if no_roast then
    (Ok ("Overall Score: " ++ str_of_int score ++ "/100 (Grade: " ++ grade ++ ")"), g)
  else
    match dict_get "F" GRADE_ROASTS with
    | None => (Raise (OtherError "KeyError"), g)
    | Some fallback =>
        let roasts :=
          match dict_get grade GRADE_ROASTS with
          | Some l => l
          | None => fallback
          end in
        random_choice Rng randbelow roasts g
    end.

(** The list literal [categories] of both text reporters. *)
Definition categories (audit : WebsiteAudit) : list (string * AuditResult) :=
  [ ("Title Tag", title audit);
    ("Meta Description", meta_description audit);
    ("Headings", headings audit);
    ("Images", images audit);
    ("Mobile", mobile audit);
    ("SSL/Security", ssl_security audit);
    ("Performance", performance audit);
    ("Links", links audit);
    ("Open Graph", open_graph audit);
    ("Schema/Structured Data", schema audit) ].

(** A loop that appends one formatted block per category. *)
Fixpoint for_each_category (f : string -> AuditResult -> Rng -> result string * Rng)
  (cats : list (string * AuditResult)) (lines : list string) (g : Rng)
  : result (list string) * Rng :=
  match cats with
  | [] => (Ok lines, g)
  | (name, result) :: rest =>
      bind2 (f name result g)
        (fun block g => for_each_category f rest (append lines block) g)
  end.

End RoasterRest.

(** ** reporter.py: TerminalReporter *)

Module Terminal.

Definition RESET : string := ESC ++ "[0m".
Definition BOLD : string := ESC ++ "[1m".
Definition DIM : string := ESC ++ "[2m".
Definition RED : string := ESC ++ "[91m".
Definition GREEN : string := ESC ++ "[92m".
Definition YELLOW : string := ESC ++ "[93m".
Definition BLUE : string := ESC ++ "[94m".
Definition MAGENTA : string := ESC ++ "[95m".
Definition CYAN : string := ESC ++ "[96m".
Definition WHITE : string := ESC ++ "[97m".
Definition ORANGE : string := ESC ++ "[38;5;208m".

(** [TerminalReporter._color]. *)
Definition _color (text color : string) : string :=
  color ++ text ++ RESET.

(** [TerminalReporter._score_color]; the orange of the third branch is
    the literal [ORANGE]. *)
Definition _score_color (score : Z) : string :=
  if score >=? 80 then GREEN
  else if score >=? 60 then YELLOW
  else if score >=? 40 then ORANGE
  else RED.

Definition bar_char : string := "â–ˆ".
Definition empty_char : string := "â–‘".

(** [TerminalReporter._get_progress_bar]. *)
Definition _get_progress_bar (score width : Z) : result string :=
  ratio <- PyFloat.int_truediv (width * score) 100 ;;
  filled <- PyFloat.to_int ratio ;;
  let empty := width - filled in
  let color := _score_color score in
  let bar := str_mul bar_char filled ++ str_mul empty_char empty in
  Ok (color ++ bar ++ RESET).

(** [TerminalReporter._get_ascii_header]. *)
Definition _get_ascii_header : string :=
  NL ++
  _color "â•”â•â•â•â•â•â•â•â•â•â•â•â•â•â•â•â•â•â•â•â•â•â•â•â•â•â•â•â•â•â•â•â•â•â•â•â•â•â•â•â•â•â•â•â•â•â•â•â•â•â•â•â•â•â•â•â•â•â•â•â•â•â•â•—" RED ++ NL ++
  _color "â•‘" RED ++ "  " ++ _color "ðŸ”¥" YELLOW ++ "  " ++ _color ("â–ˆâ–ˆâ–ˆâ–ˆâ–ˆâ–ˆâ–ˆâ•—â–ˆâ–ˆâ•—â–ˆâ–ˆâ–ˆâ–ˆâ–ˆâ–ˆâ–ˆâ–ˆâ•—â–ˆâ–ˆâ–ˆâ–ˆâ–ˆâ–ˆâ–ˆâ•—      â–ˆâ–ˆâ–ˆâ–ˆâ–ˆâ–ˆâ•—  â–ˆâ–ˆâ–ˆâ–ˆâ–ˆâ–ˆâ•—  â–ˆâ–ˆâ–ˆâ–ˆâ–ˆâ•— â–ˆâ–ˆâ–ˆâ–ˆâ–ˆâ–ˆâ–ˆâ•—â–ˆâ–ˆâ–ˆâ–ˆâ–ˆâ–ˆâ–ˆâ–ˆâ•—") RED ++ "  " ++ _color "â•‘" RED ++ NL ++
  _color "â•‘" RED ++ "  " ++ _color "ðŸ”¥" YELLOW ++ "  " ++ _color ("â–ˆâ–ˆâ•”â•â•â•â•â•â–ˆâ–ˆâ•‘â•šâ•â•â–ˆâ–ˆâ•”â•â•â•â–ˆâ–ˆâ•”â•â•â•â•â•      â–ˆâ–ˆâ•”â•â•â–ˆâ–ˆâ•—â–ˆâ–ˆâ•”â•â•â•â–ˆâ–ˆâ•—â–ˆâ–ˆâ•”â•â•â–ˆâ–ˆâ•—â–ˆâ–ˆâ•”â•â•â•â•â•â•šâ•â•â–ˆâ–ˆâ•”â•â•â•") RED ++ "  " ++ _color "â•‘" RED ++ NL ++
  _color "â•‘" RED ++ "  " ++ _color "ðŸ”¥" YELLOW ++ "  " ++ _color ("â–ˆâ–ˆâ–ˆâ–ˆâ–ˆâ–ˆâ–ˆâ•—â–ˆâ–ˆâ•‘   â–ˆâ–ˆâ•‘   â–ˆâ–ˆâ–ˆâ–ˆâ–ˆâ–ˆâ–ˆâ•—â–ˆâ–ˆâ–ˆâ–ˆâ–ˆâ•—â–ˆâ–ˆâ–ˆâ–ˆâ–ˆâ–ˆâ•”â•â–ˆâ–ˆâ•‘   â–ˆâ–ˆâ•‘â–ˆâ–ˆâ–ˆâ–ˆâ–ˆâ–ˆâ–ˆâ•‘â–ˆâ–ˆâ–ˆâ–ˆâ–ˆâ–ˆâ–ˆâ•—   â–ˆâ–ˆâ•‘   ") RED ++ "  " ++ _color "â•‘" RED ++ NL ++
  _color "â•‘" RED ++ "  " ++ _color "ðŸ”¥" YELLOW ++ "  " ++ _color ("â•šâ•â•â•â•â–ˆâ–ˆâ•‘â–ˆâ–ˆâ•‘   â–ˆâ–ˆâ•‘   â•šâ•â•â•â•â–ˆâ–ˆâ•‘â•šâ•â•â•â•â•â–ˆâ–ˆâ•”â•â•â–ˆâ–ˆâ•—â–ˆâ–ˆâ•‘   â–ˆâ–ˆâ•‘â–ˆâ–ˆâ•”â•â•â–ˆâ–ˆâ•‘â•šâ•â•â•â•â–ˆâ–ˆâ•‘   â–ˆâ–ˆâ•‘   ") RED ++ "  " ++ _color "â•‘" RED ++ NL ++
  _color "â•‘" RED ++ "  " ++ _color "ðŸ”¥" YELLOW ++ "  " ++ _color ("â–ˆâ–ˆâ–ˆâ–ˆâ–ˆâ–ˆâ–ˆâ•‘â–ˆâ–ˆâ•‘   â–ˆâ–ˆâ•‘   â–ˆâ–ˆâ–ˆâ–ˆâ–ˆâ–ˆâ–ˆâ•‘      â–ˆâ–ˆâ•‘  â–ˆâ–ˆâ•‘â•šâ–ˆâ–ˆâ–ˆâ–ˆâ–ˆâ–ˆâ•”â•â–ˆâ–ˆâ•‘  â–ˆâ–ˆâ•‘â–ˆâ–ˆâ–ˆâ–ˆâ–ˆâ–ˆâ–ˆâ•‘   â–ˆâ–ˆâ•‘   ") RED ++ "  " ++ _color "â•‘" RED ++ NL ++
  _color "â•‘" RED ++ "  " ++ _color "ðŸ”¥" YELLOW ++ "  " ++ _color ("â•šâ•â•â•â•â•â•â•â•šâ•â•   â•šâ•â•   â•šâ•â•â•â•â•â•â•      â•šâ•â•  â•šâ•â• â•šâ•â•â•â•â•â• â•šâ•â•  â•šâ•â•â•šâ•â•â•â•â•â•â•   â•šâ•â•   ") RED ++ "  " ++ _color "â•‘" RED ++ NL ++
  _color "â• â•â•â•â•â•â•â•â•â•â•â•â•â•â•â•â•â•â•â•â•â•â•â•â•â•â•â•â•â•â•â•â•â•â•â•â•â•â•â•â•â•â•â•â•â•â•â•â•â•â•â•â•â•â•â•â•â•â•â•â•â•â•â•£" RED ++ NL ++
  _color "â•‘" RED ++ "     " ++ _color ("Gordon Ramsay meets Web Development") YELLOW ++ "                       " ++ _color "â•‘" RED ++ NL ++
  _color "â•šâ•â•â•â•â•â•â•â•â•â•â•â•â•â•â•â•â•â•â•â•â•â•â•â•â•â•â•â•â•â•â•â•â•â•â•â•â•â•â•â•â•â•â•â•â•â•â•â•â•â•â•â•â•â•â•â•â•â•â•â•â•â•â•" RED ++ NL.

Section WithRandom.

Variable Rng : Type.
Variable randbelow : Z -> Rng -> Z * Rng.

(** The list [lines] that [_format_category] joins. *)
Definition _format_category_lines (self : Flags) (name : string)
  (result : AuditResult) (g : Rng) : Py.result (list string) * Rng :=
  let score_color := _score_color (score result) in
  match _get_progress_bar (score result) 20 with
  | Raise e => (Raise e, g)
  | Ok progress_bar =>
      let lines :=
        [ NL ++ BOLD ++ _color "â–¶" CYAN ++ " " ++ name ++ RESET;
          "  Score: " ++ _color (str_of_int (score result) ++ "/100") score_color ++ " " ++ progress_bar ] in
      bind2 (get_roast Rng randbelow (no_roast self) (score result) name g)
        (fun roast g =>
           let lines :=
             if negb (String.eqb roast "")
             then append lines ("  " ++ _color "ðŸ’¬" MAGENTA ++ " " ++ roast)
             else lines in
           let lines :=
             match findings result with
             | [] => lines
             | _ =>
                 app (append lines ("  " ++ DIM ++ "Findings:" ++ RESET))
                   (map (fun finding => "    " ++ _color "â€¢" BLUE ++ " " ++ finding)
                      (take 4 (findings result)))
             end in
           let lines :=
             match verbose self, recommendations result with
             | true, _ :: _ =>
                 app (append lines ("  " ++ _color "ðŸ’¡" YELLOW ++ " Recommendations:"))
                   (map (fun rec => "    " ++ _color "â†’" GREEN ++ " " ++ rec)
                      (take 3 (recommendations result)))
             | _, _ => lines
             end in
           (Ok lines, g))
  end.

(** [TerminalReporter._format_category]. *)
Definition _format_category (self : Flags) (name : string)
  (result : AuditResult) (g : Rng) : Py.result string * Rng :=
  bind2 (_format_category_lines self name result g)
    (fun lines g => (Ok (join NL lines), g)).

Definition grade_colors : list (string * string) :=
  [ ("A+", GREEN); ("A", GREEN); ("A-", GREEN);
    ("B+", CYAN); ("B", CYAN); ("B-", CYAN);
    ("C+", YELLOW); ("C", YELLOW); ("C-", YELLOW);
    ("D+", ORANGE); ("D", ORANGE); ("D-", ORANGE);
    ("F", RED) ].

(** [TerminalReporter._format_grade]. *)
Definition _format_grade (self : Flags) (grade : string) (score : Z) (g : Rng)
  : Py.result string * Rng :=
  let color :=
    match dict_get grade grade_colors with
    | Some c => c
    | None => WHITE
    end in
  let lines :=
    [ "";
      _color (str_mul "â•" 64) RED;
      "";
      "                    " ++ BOLD ++ _color ("FINAL GRADE") WHITE ++ RESET;
      "";
      "                         " ++ BOLD ++ _color grade color ++ RESET;
      "                       " ++ _color ("(" ++ str_of_int score ++ "/100)") DIM;
      "" ] in
  bind2 (get_overall_roast Rng randbelow (no_roast self) grade score g)
    (fun overall_roast g =>
       let lines := append lines ("           " ++ _color overall_roast CYAN) in
       let lines := append lines "" in
       let lines := append lines (_color (str_mul "â•" 64) RED) in
       (Ok (join NL lines), g)).

(** [TerminalReporter.generate]. *)
Definition generate (self : Flags) (audit : WebsiteAudit) (g : Rng)
  : Py.result string * Rng :=
  let lines := [ _get_ascii_header ] in
  let lines := append lines (NL ++ BOLD ++ "Target:" ++ RESET ++ " " ++ _color (url audit) CYAN) in
  let lines := append lines (DIM ++ "Audit completed in " ++ str_of_int (duration_ms audit) ++ "ms" ++ RESET) in
  bind2 (for_each_category Rng (_format_category self) (categories audit) lines g)
    (fun lines g =>
       match get_grade audit with
       | Raise e => (Raise e, g)
       | Ok grade =>
           match get_overall_score audit with
           | Raise e => (Raise e, g)
           | Ok overall =>
               bind2 (_format_grade self grade overall g)
                 (fun block g =>
                    let lines := append lines block in
                    let lines := append lines (NL ++ DIM ++ "Built by Cybrflux â€” We build what AI can't... yet." ++ RESET) in
                    let lines := append lines (DIM ++ "https://github.com/M4ST3R-C0NTR0L" ++ RESET ++ NL) in
                    (Ok (join NL lines), g))
           end
       end).

End WithRandom.

End Terminal.

(** ** reporter.py: MarkdownReporter *)

Module Markdown.

(** [MarkdownReporter._grade_emoji]. *)
Definition _grade_emoji (grade : string) : string :=
  if Str.startswith grade "A" then "ðŸŒŸ"
  else if Str.startswith grade "B" then "âœ…"
  else if Str.startswith grade "C" then "âš ï¸"
  else if Str.startswith grade "D" then "ðŸ”§"
  else "ðŸ’€".

(** [MarkdownReporter._score_status]. *)
Definition _score_status (score : Z) : string :=
  if score >=? 80 then "âœ… Good"
  else if score >=? 60 then "âš ï¸ Needs Work"
  else "ðŸ”´ Poor".

(** [MarkdownReporter._score_to_mini_grade]. *)
Definition _score_to_mini_grade (score : Z) : string :=
  if score >=? 93 then "A"
  else if score >=? 85 then "B"
  else if score >=? 75 then "C"
  else if score >=? 65 then "D"
  else "F".

Section WithRandom.

Variable Rng : Type.
Variable randbelow : Z -> Rng -> Z * Rng.

(** The list [lines] that [_format_category_markdown] joins. *)
Definition _format_category_markdown_lines (self : Flags) (name : string)
  (result : AuditResult) (g : Rng) : Py.result (list string) * Rng :=
  bind2 (get_roast Rng randbelow (no_roast self) (score result) name g)
    (fun roast g =>
       let lines :=
         [ "### " ++ name ++ ": " ++ str_of_int (score result) ++ "/100"; ""; "*" ++ roast ++ "*"; "" ] in
       let lines :=
         match findings result with
         | [] => lines
         | _ =>
             append
               (app (append lines "**Findings:**")
                  (map (fun finding => "- " ++ finding) (findings result)))
               ""
         end in
       let lines :=
         match verbose self, recommendations result with
         | true, _ :: _ =>
             append
               (app (append lines "**Recommendations:**")
                  (map (fun rec => "- " ++ rec) (recommendations result)))
               ""
         | _, _ => lines
         end in
       (Ok lines, g)).

(** [MarkdownReporter._format_category_markdown]. *)
Definition _format_category_markdown (self : Flags) (name : string)
  (result : AuditResult) (g : Rng) : Py.result string * Rng :=
  bind2 (_format_category_markdown_lines self name result g)
    (fun lines g => (Ok (join NL lines), g)).

(** [MarkdownReporter._format_timestamp]: the local time of [datetime],
    which raises out of its range. *)
Variable _format_timestamp : PyFloat.float -> Py.result string.

(** The rows of the summary table. *)
Definition summary_rows (cats : list (string * AuditResult)) : list string :=
  map (fun '(name, result) =>
         let status := _score_status (score result) in
         let mini_grade := _score_to_mini_grade (score result) in
         "| " ++ name ++ " | " ++ str_of_int (score result) ++ "/100 | " ++ mini_grade ++ " | " ++ status ++ " |")
    cats.

(** [MarkdownReporter.generate]. *)
Definition generate (self : Flags) (audit : WebsiteAudit) (g : Rng)
  : Py.result string * Rng :=
  let lines := [ "# ðŸ”¥ Site Roast Report"; ""; "**Target:** `" ++ url audit ++ "`  " ] in
  match _format_timestamp (timestamp audit) with
  | Raise e => (Raise e, g)
  | Ok stamp =>
      let lines := append lines ("**Audited:** " ++ stamp ++ "  ") in
      let lines := append lines ("**Duration:** " ++ str_of_int (duration_ms audit) ++ "ms") in
      let lines := append lines "" in
      match get_grade audit with
      | Raise e => (Raise e, g)
      | Ok grade =>
          match get_overall_score audit with
          | Raise e => (Raise e, g)
          | Ok score =>
              let grade_emoji := _grade_emoji grade in
              let lines := append lines ("## " ++ grade_emoji ++ " Overall Grade: **" ++ grade ++ "** (" ++ str_of_int score ++ "/100)") in
              let lines := append lines "" in
              bind2 (get_overall_roast Rng randbelow (no_roast self) grade score g)
                (fun overall_roast g =>
                   let lines := append lines ("> " ++ overall_roast) in
                   let lines := append lines "" in
                   let lines := append lines "## ðŸ“Š Category Summary" in
                   let lines := append lines "" in
                   let lines := append lines "| Category | Score | Grade | Status |" in
                   let lines := append lines "|----------|-------|-------|--------|" in
                   let lines := app lines (summary_rows (categories audit)) in
                   let lines := append lines "" in
                   let lines := append lines "## ðŸ” Detailed Analysis" in
                   let lines := append lines "" in
                   bind2 (for_each_category Rng (_format_category_markdown self)
                            (categories audit) lines g)
                     (fun lines g =>
                        let lines := append lines "---" in
                        let lines := append lines "" in
                        let lines := append lines "*Generated by [site-roast](https://github.com/M4ST3R-C0NTR0L/site-roast) â€” Built by [Cybrflux](https://github.com/M4ST3R-C0NTR0L)*" in
                        (Ok (join NL lines), g)))
          end
      end
  end.

End WithRandom.

End Markdown.

(** ** cli.py *)

Module Cli.

(** The namespace [parser.parse_args()] returns. *)
Record Args : Type := {
  args_url : string;
  args_json : bool;
  args_markdown : bool;
  args_no_roast : bool;
  args_verbose : bool;
  args_timeout : Z;
  args_user_agent : string;
  args_output : option string
}.

(** What has been printed, one item per call of [print]. *)
Record Console : Type := {
  stdout : list string;
  stderr : list string
}.

Definition print (s : string) (con : Console) : Console :=
  {| stdout := append (stdout con) s; stderr := stderr con |}.

Definition eprint (s : string) (con : Console) : Console :=
  {| stdout := stdout con; stderr := append (stderr con) s |}.

(** How a function of the command line ends: it returns, [sys.exit]
    ends the process, or an exception leaves it. *)
Inductive ended (A : Type) : Type :=
| Returned (a : A)
| Exited (code : Z)
| Uncaught (e : exn).
Arguments Returned {A} a.
Arguments Exited {A} code.
Arguments Uncaught {A} e.

(** [validate_url]. *)
Definition validate_url (url : string) (con : Console) : ended string * Console :=
  let url :=
    if negb (Str.startswith_any url ["http://"; "https://"])
    then "https://" ++ url
    else url in
  if negb (Str.startswith url "http") || negb (Str.contains "." url) then
    let con := eprint ("Error: Invalid URL '" ++ url ++ "'") con in
    let con := eprint "Please provide a valid URL (e.g., https://example.com)" con in
    (Exited 1, con)
  else (Returned url, con).

(** [detect_output_format]. *)
Definition detect_output_format (output_path : option string) : option string :=
  match output_path with
  | None => None
  | Some p =>
      if String.eqb p "" then None
      else
        let output_path := Str.lower p in
        if endswith output_path ".json" then Some "json"
        else if endswith_any output_path [".md"; ".markdown"] then Some "markdown"
        else None
  end.

(** [except KeyboardInterrupt] and [except Exception], on the class of
    the exception. *)
Definition is_keyboard_interrupt (e : exn) : bool :=
  match e with
  | OtherError n => String.eqb n "KeyboardInterrupt"
  | _ => false
  end.

Definition is_exception (e : exn) : bool :=
  match e with
  | OtherError n =>
      negb (existsb (String.eqb n)
              ["BaseException"; "KeyboardInterrupt"; "SystemExit"; "GeneratorExit"])
  | _ => true
  end.

Section Main.

Variable decode_body : list (string * string) -> list Byte.byte -> string.
Variable parse_bytes : list Byte.byte -> result Document.
Variable parse_str : string -> result Document.
Variable urlparse : string -> result ParseResult.
Variable json_loads : string -> result pyval.
Variable _format_timestamp : PyFloat.float -> result string.
Variable json_dumps : pyval -> string.

(** The world outside: the clock, the HTTP session built with a timeout
    and a user agent, the [random] module and the file system. *)
Variable World : Type.
Variable time_time : World -> PyFloat.float * World.
Variable session_get : Z -> string -> string -> World -> result Response * World.
Variable randbelow : Z -> World -> Z * World.
(** [with open(path, "w", encoding="utf-8") as f: f.write(output)]. *)
Variable write_file : string -> string -> World -> result unit * World.
(** [str(e)]. *)
Variable str_exn : exn -> string.

(** [main], from the parsed arguments on. *)
Definition main (args : Args) (w : World) (con : Console)
  : ended Z * World * Console :=
  match validate_url (args_url args) con with
  | (Exited code, con) => (Exited code, w, con)
  | (Uncaught e, con) => (Uncaught e, w, con)
  | (Returned url, con) =>
      let output_format := detect_output_format (args_output args) in
      let '(json, markdown) :=
        match output_format with
        | Some f =>
            if String.eqb f "json" then (true, args_markdown args)
            else if String.eqb f "markdown" then (args_json args, true)
            else (args_json args, args_markdown args)
        | None => (args_json args, args_markdown args)
        end in
      let '(results, w) :=
        audit decode_body parse_bytes parse_str urlparse json_loads World
          time_time (session_get (args_timeout args) (args_user_agent args))
          url w in
      match results with
      | Raise e =>
          if is_keyboard_interrupt e then
            (Returned 1, w,
             eprint (NL ++ NL ++ "🛑 Audit interrupted by user.") con)
          else if is_exception e then
            (Returned 1, w, eprint (NL ++ "💥 Audit failed: " ++ str_exn e) con)
          else (Uncaught e, w, con)
      | Ok results =>
          let self :=
            {| no_roast := args_no_roast args; verbose := args_verbose args |} in
          let '(output, w) :=
            if json then json_generate World randbelow json_dumps self results w
            else if markdown then
              Markdown.generate World randbelow _format_timestamp self results w
            else Terminal.generate World randbelow self results w in
          match output with
          | Raise e => (Uncaught e, w, con)
          | Ok output =>
              match args_output args with
              | Some path =>
                  if String.eqb path "" then (Returned 0, w, print output con)
                  else
                    let '(written, w) := write_file path output w in
                    match written with
                    | Raise e => (Uncaught e, w, con)
                    | Ok _ =>
                        (Returned 0, w, print ("✅ Report saved to: " ++ path) con)
                    end
              | None => (Returned 0, w, print output con)
              end
          end
      end
  end.

End Main.

End Cli.

(** * Specification-side definitions and concrete inputs *)

(** ** What the specification says, word for word *)

(** "a fixed, ordered 13-bucket lookup (descending thresholds)": twelve
    thresholds and the final bucket F. *)
Definition spec_grade_thresholds : list (Z * string) :=
  [ (97, "A+"); (93, "A"); (90, "A-"); (87, "B+"); (83, "B"); (80, "B-");
    (77, "C+"); (73, "C"); (70, "C-"); (67, "D+"); (63, "D"); (60, "D-") ].

Fixpoint spec_grade_lookup (table : list (Z * string)) (score : Z) : string :=
  match table with
  | [] => "F"
  | (threshold, grade) :: rest =>
      if score >=? threshold then grade else spec_grade_lookup rest score
  end.

(** "standard round-half-up" of [n/d]: floor(n/d + 1/2). *)
Definition spec_round_half_up (n d : Z) : Z := (2 * n + d) / (2 * d).

(** [z] is the integer nearest to [n/d], ties going to the even one. *)
Definition nearest_ties_even (n d z : Z) : Prop :=
  2 * Z.abs (n - z * d) < d
  \/ (2 * Z.abs (n - z * d) = d /\ Z.even z = true).

(** The ten scores of an audit, in category order. *)
Definition scores_of (a : WebsiteAudit) : list Z :=
  [ score (title a); score (meta_description a); score (headings a);
    score (images a); score (mobile a); score (ssl_security a);
    score (performance a); score (links a); score (open_graph a);
    score (schema a) ].

(** The ten category results of an audit, in category order. *)
Definition results_of (a : WebsiteAudit) : list AuditResult :=
  [ title a; meta_description a; headings a; images a; mobile a;
    ssl_security a; performance a; links a; open_graph a; schema a ].

Definition in_range (r : AuditResult) : Prop := 0 <= score r <= 100.

Definition valid_scores (a : WebsiteAudit) : Prop :=
  Forall (fun s => 0 <= s <= 100) (scores_of a).

(** The images of a document and their three classes. *)
Definition images_of (soup : Document) : list Tag := find_all (has_name "img") soup.

Definition alt_missing (img : Tag) : bool := is_none (get img "alt").

Definition alt_blank (img : Tag) : bool :=
  match get img "alt" with
  | Some alt => String.eqb (Str.strip alt) ""
  | None => false
  end.

Definition alt_with_text (img : Tag) : bool :=
  match get img "alt" with
  | Some alt => negb (String.eqb (Str.strip alt) "")
  | None => false
  end.

(** The images score as the specification words it: 70 without images,
    else round(100 * withText / total), minus 10 and minus 5, each floored
    at 0. *)
Definition spec_images_score (soup : Document) : Z :=
  let imgs := images_of soup in
  let total := len imgs in
  if total =? 0 then 70
  else
    let base := spec_round_half_up (100 * count_if alt_with_text imgs) total in
    let s := if count_if alt_missing imgs >? 0 then Z.max 0 (base - 10) else base in
    if count_if alt_blank imgs >? 0 then Z.max 0 (s - 5) else s.

(** [int(with_alt / total * 100)], as the code computes it. *)
Definition alt_coverage_score (with_alt total : Z) : result Z :=
  alt_coverage <- PyFloat.int_truediv with_alt total ;;
  hundred <- PyFloat.of_int 100 ;;
  PyFloat.to_int (PyFloat.mul alt_coverage hundred).

(** The two flat penalties of the images score. *)
Definition images_penalties (base missing blank : Z) : Z :=
  let s := if missing >? 0 then Z.max 0 (base - 10) else base in
  if blank >? 0 then Z.max 0 (s - 5) else s.

(** The largest length of a Python list ([sys.maxsize], 64-bit build). *)
Definition sys_maxsize : Z := 2 ^ 63 - 1.

Definition score_of (r : result AuditResult) : option Z :=
  match r with
  | Ok x => Some (score x)
  | Raise _ => None
  end.

(** The JSON-LD blocks of a document. *)
Definition jsonld_of (soup : Document) : list Tag :=
  find_all (fun t => has_name "script" t && attr_is "type" "application/ld+json" t)
    soup.

(** The six entries [_category_to_dict] always writes. *)
Definition category_fields (self : Flags) (name : string) (r : AuditResult)
  : list (string * pyval) :=
  [ ("name", VStr name);
    ("score", VInt (score r));
    ("max_score", VInt (max_score r));
    ("findings", VList (map VStr (findings r)));
    ("recommendations",
     VList (map VStr (if verbose self then recommendations r else [])));
    ("raw_data", VDict (raw_data r)) ].

(** [round(s / 10)]: the overall score from the sum of the ten scores. *)
Definition mean_rounded (s : Z) : result Z :=
  m <- PyFloat.int_truediv s 10 ;; PyFloat.py_round m.

Definition mean_rounded_is_rne (s : Z) : bool :=
  match mean_rounded s with
  | Ok z => z =? PyFloat.rne s 10
  | Raise _ => false
  end.

Definition is_str (v : pyval) : bool :=
  match v with
  | VStr _ => true
  | _ => false
  end.

(** The machine's binary64 operations on small integers, read into the
    model, to test [PyFloat.round] against the hardware. *)
Definition hw_int (z : Z) : PrimFloat.float := PrimFloat.of_uint63 (Uint63.of_Z z).

Definition agrees (r : result PyFloat.float) (x : PrimFloat.float) : bool :=
  match r with
  | Ok y => PyFloat.eqb y (PyFloat.of_spec (Prim2SF x))
  | Raise _ => false
  end.

Definition hw_agrees_at (a b : Z) : bool :=
  agrees (PyFloat.int_truediv a b) (PrimFloat.div (hw_int a) (hw_int b))
  && agrees (x <- PyFloat.int_truediv a b ;;
             Ok (PyFloat.mul x (PyFloat.Fin (inject_Z 100))))
       (PrimFloat.mul (PrimFloat.div (hw_int a) (hw_int b)) (hw_int 100))
  && agrees (x <- PyFloat.int_truediv a b ;;
             y <- PyFloat.int_truediv b 7 ;;
             Ok (PyFloat.add x y))
       (PrimFloat.add (PrimFloat.div (hw_int a) (hw_int b))
          (PrimFloat.div (hw_int b) (hw_int 7))).

Definition small_ints (n : nat) : list Z := map Z.of_nat (seq 1 n).

(** ** Concrete inputs *)

(** A tag without content ([<img>], [<meta>]). *)
Definition mk_tag (name : string) (attrs : list (string * string)) : Tag :=
  {| tag_name := name; tag_attrs := attrs; tag_text := ""; tag_string := None |}.

(** A tag whose only child is the text [txt] (no surrounding blanks). *)
Definition mk_text_tag (name : string) (attrs : list (string * string))
  (txt : string) : Tag :=
  {| tag_name := name; tag_attrs := attrs; tag_text := txt;
     tag_string := Some txt |}.

(** The document of the given tags, the text nodes being their texts. *)
Definition mk_doc (tags : list Tag) : Document :=
  {| doc_tags := tags;
     doc_strings :=
       flat_map (fun t => match tag_string t with
                          | Some s => [s]
                          | None => []
                          end) tags |}.

Definition dquote : string := String (ascii_of_nat 34) EmptyString.

(** Three images: two with text, one without the attribute. *)
Definition doc_three_images : Document :=
  mk_doc [ mk_tag "img" [("src", "a.png"); ("alt", "a cat")];
           mk_tag "img" [("src", "b.png"); ("alt", "a dog")];
           mk_tag "img" [("src", "c.png")] ].

(** The example of the specification: four images, two without [alt], one
    with a blank [alt], one proper. *)
Definition doc_four_images : Document :=
  mk_doc [ mk_tag "img" [("src", "a.png")];
           mk_tag "img" [("src", "b.png")];
           mk_tag "img" [("src", "c.png"); ("alt", "  ")];
           mk_tag "img" [("src", "d.png"); ("alt", "a cat")] ].

(** [{"@type": ["Person", "Organization"]}]: a JSON-LD block whose type is
    a list. *)
Definition jsonld_list_type_text : string :=
  "{" ++ dquote ++ "@type" ++ dquote ++ ": [" ++ dquote ++ "Person" ++ dquote
  ++ ", " ++ dquote ++ "Organization" ++ dquote ++ "]}".

(** [{"@type": "WebSite"}]. *)
Definition jsonld_website_text : string :=
  "{" ++ dquote ++ "@type" ++ dquote ++ ": " ++ dquote ++ "WebSite" ++ dquote ++ "}".

(** [json.loads] on the texts used below; any other text is taken as
    malformed. *)
Definition json_loads_ex (s : string) : result pyval :=
  if String.eqb s jsonld_list_type_text
  then Ok (VDict [("@type", VList [VStr "Person"; VStr "Organization"])])
  else if String.eqb s jsonld_website_text
  then Ok (VDict [("@type", VStr "WebSite")])
  else Raise JSONDecodeError.

Definition jsonld_attrs : list (string * string) := [("type", "application/ld+json")].

(** Four pages, as markup and as the parser reads them. *)
Definition html_person : string :=
  "<title>Jane Doe</title><script type='application/ld+json'>"
  ++ jsonld_list_type_text ++ "</script>".

Definition doc_person : Document :=
  mk_doc [ mk_text_tag "title" [] "Jane Doe";
           mk_text_tag "script" jsonld_attrs jsonld_list_type_text ].

Definition html_plain : string :=
  "<title>A page</title><script type='application/ld+json'>"
  ++ jsonld_website_text ++ "</script>".

Definition doc_plain : Document :=
  mk_doc [ mk_text_tag "title" [] "A page";
           mk_text_tag "script" jsonld_attrs jsonld_website_text ].

(** A link whose host part opens a bracket and never closes it. *)
Definition html_bad_href : string := "<a href='http://['>broken</a>".

Definition doc_bad_href : Document :=
  mk_doc [ mk_text_tag "a" [("href", "http://[")] "broken" ].

Definition html_two_blocks : string :=
  "<script type='application/ld+json'>{not json</script>"
  ++ "<script type='application/ld+json'>" ++ jsonld_website_text ++ "</script>".

(** Two blocks, the first one malformed. *)
Definition doc_two_blocks : Document :=
  mk_doc [ mk_text_tag "script" jsonld_attrs "{not json";
           mk_text_tag "script" jsonld_attrs jsonld_website_text ].

(** A marked section that [html.parser] does not know: the parser
    rejects the markup. *)
Definition html_rejected : string := "<![foo]>".

(** The parser on these pages; any other markup is read as the empty
    document here. *)
Definition parse_str_ex (markup : string) : result Document :=
  if String.eqb markup html_person then Ok doc_person
  else if String.eqb markup html_plain then Ok doc_plain
  else if String.eqb markup html_bad_href then Ok doc_bad_href
  else if String.eqb markup html_two_blocks then Ok doc_two_blocks
  else if String.eqb markup html_rejected
  then Raise (OtherError "ParserRejectedMarkup")
  else Ok (mk_doc []).

Definition decode_ex (hs : list (string * string)) (body : list Byte.byte) : string :=
  string_of_list_byte body.

Definition parse_bytes_ex (body : list Byte.byte) : result Document :=
  parse_str_ex (string_of_list_byte body).

(** [urlparse] on the URLs used below: [ValueError] on the unbalanced
    bracket, as [urllib.parse.urlsplit] does ("Invalid IPv6 URL"). *)
Definition urlparse_ex (u : string) : result ParseResult :=
  if String.eqb u "http://[" then Raise ValueError
  else if String.prefix "https://example.com" u
  then Ok {| scheme := "https"; netloc := "example.com" |}
  else if String.prefix "https://" u
  then Ok {| scheme := "https"; netloc := "elsewhere.org" |}
  else Ok {| scheme := "http"; netloc := "elsewhere.org" |}.

(** The site: what each URL serves (the empty body elsewhere). *)
Definition site_ex (u : string) : string :=
  if String.eqb u "https://example.com/person" then html_person
  else if String.eqb u "https://example.com/links" then html_bad_href
  else if String.eqb u "https://example.com/" then html_plain
  else if String.eqb u "https://example.com/rejected" then html_rejected
  else "".

Definition response_ex (u : string) : Response :=
  {| status_code := 200;
     headers := [("Content-Type", "text/html")];
     content := list_byte_of_string (site_ex u) |}.

(** A world whose state is the clock, in seconds; every fetch succeeds
    with status 200 and takes two seconds. *)
Definition time_ex (w : Z) : PyFloat.float * Z := (PyFloat.Fin (inject_Z w), w).

Definition get_ex (u : string) (w : Z) : result Response * Z :=
  (Ok (response_ex u), w + 2).

Definition audit_ex : string -> Z -> result WebsiteAudit * Z :=
  audit decode_ex parse_bytes_ex parse_str_ex urlparse_ex json_loads_ex
    Z time_ex get_ex.

(** An audit whose ten scores sum to 725: title 100, description 85,
    headings 100, no images 70, mobile 100, HTTPS without security headers
    70, performance 100, links 100, no Open Graph 0, no JSON-LD 0. *)
Definition audit_725 : WebsiteAudit :=
  {| url := "https://example.com"; timestamp := PyFloat.Fin 0; duration_ms := 12;
     title := mkResult 100 [] [] [];
     meta_description :=
       mkResult 85 ["Meta description found"]
         ["Aim for 150-160 characters for optimal display"] [];
     headings := mkResult 100 [] [] [];
     images := mkResult 70 ["Found 0 image(s)"] [] [];
     mobile := mkResult 100 [] [] [];
     ssl_security := mkResult 70 [] [] [];
     performance := mkResult 100 [] [] [];
     links := mkResult 100 [] [] [];
     open_graph := mkResult 0 [] [] [];
     schema :=
       mkResult 0 ["Found 0 JSON-LD script(s)"; "No structured data found"]
         [ "Add JSON-LD structured data for better search visibility";
           "Consider Organization, WebSite, or Article schema types" ] [] |}.

(** A random generator that always draws the first item. *)
Definition randbelow_ex (n : Z) (g : unit) : Z * unit := (0, g).

(** A serializer and a reader for the examples: compact JSON, the quote
    and the backslash of a string escaped, a float with one decimal. *)
Definition backslash : ascii := ascii_of_nat 92.

Fixpoint json_escape (s : string) : string :=
  match s with
  | EmptyString => EmptyString
  | String c rest =>
      if Ascii.eqb c (ascii_of_nat 34) || Ascii.eqb c backslash
      then String backslash (String c (json_escape rest))
      else String c (json_escape rest)
  end.

Fixpoint json_dumps_ex (v : pyval) : string :=
  match v with
  | VNone => "null"
  | VBool b => if b then "true" else "false"
  | VInt z => str_of_int z
  | VFloat f => PyFloat.format_1f f
  | VStr s => dquote ++ json_escape s ++ dquote
  | VList l => "[" ++ join ", " (map json_dumps_ex l) ++ "]"
  | VDict d =>
      "{"
      ++ join ", "
           (map (fun kv =>
                   dquote ++ json_escape (fst kv) ++ dquote ++ ": "
                   ++ json_dumps_ex (snd kv))
              d)
      ++ "}"
  end.

Fixpoint skip_blanks (s : string) : string :=
  match s with
  | String " " rest => skip_blanks rest
  | _ => s
  end.

(** The string that ends at the first quote that is not escaped. *)
Fixpoint read_string (s : string) : option (string * string) :=
  match s with
  | EmptyString => None
  | String c rest =>
      if Ascii.eqb c (ascii_of_nat 34) then Some (EmptyString, rest)
      else if Ascii.eqb c backslash then
        match rest with
        | String d rest' =>
            match read_string rest' with
            | Some (t, r) => Some (String d t, r)
            | None => None
            end
        | EmptyString => None
        end
      else
        match read_string rest with
        | Some (t, r) => Some (String c t, r)
        | None => None
        end
  end.

Definition digit_of (c : ascii) : option Z :=
  let n := Z.of_nat (nat_of_ascii c) in
  if (48 <=? n) && (n <=? 57) then Some (n - 48) else None.

(** The digits in front of [s]: their value on top of [acc], their
    number on top of [count], and the rest. *)
Fixpoint read_digits (s : string) (acc count : Z) : Z * Z * string :=
  match s with
  | EmptyString => (acc, count, s)
  | String c rest =>
      match digit_of c with
      | Some d => read_digits rest (10 * acc + d) (count + 1)
      | None => (acc, count, s)
      end
  end.

Definition read_number (s : string) : option (pyval * string) :=
  let '(negative, s) :=
    match s with
    | String "-" rest => (true, rest)
    | _ => (false, s)
    end in
  let '(n, k, rest) := read_digits s 0 0 in
  if k =? 0 then None
  else
    match rest with
    | String "." rest' =>
        let '(m, j, rest'') := read_digits rest' n 0 in
        if j =? 0 then None
        else
          Some (VFloat
                  (PyFloat.round
                     (Qmake (if negative then - m else m) (Z.to_pos (10 ^ j)))),
                rest'')
    | _ => Some (VInt (if negative then - n else n), rest)
    end.

Definition read_word (word : string) (v : pyval) (s : string)
  : option (pyval * string) :=
  if String.prefix word s
  then Some (v, String.substring (String.length word)
                  (String.length s - String.length word) s)
  else None.

Fixpoint json_read (fuel : nat) (s : string) {struct fuel}
  : option (pyval * string) :=
  match fuel with
  | O => None
  | S fuel =>
      match skip_blanks s with
      | EmptyString => None
      | String c rest =>
          if Ascii.eqb c (ascii_of_nat 34) then
            match read_string rest with
            | Some (t, r) => Some (VStr t, r)
            | None => None
            end
          else if Ascii.eqb c "[" then
            match skip_blanks rest with
            | String "]" r => Some (VList [], r)
            | _ =>
                match json_read_items fuel rest with
                | Some (l, r) => Some (VList l, r)
                | None => None
                end
            end
          else if Ascii.eqb c "{" then
            match skip_blanks rest with
            | String "}" r => Some (VDict [], r)
            | _ =>
                match json_read_members fuel rest with
                | Some (d, r) => Some (VDict d, r)
                | None => None
                end
            end
          else if Ascii.eqb c "n" then read_word "null" VNone (String c rest)
          else if Ascii.eqb c "t" then read_word "true" (VBool true) (String c rest)
          else if Ascii.eqb c "f" then read_word "false" (VBool false) (String c rest)
          else read_number (String c rest)
      end
  end
with json_read_items (fuel : nat) (s : string) {struct fuel}
  : option (list pyval * string) :=
  match fuel with
  | O => None
  | S fuel =>
      match json_read fuel s with
      | Some (v, r) =>
          match skip_blanks r with
          | String "," r' =>
              match json_read_items fuel r' with
              | Some (l, r'') => Some (v :: l, r'')
              | None => None
              end
          | String "]" r' => Some ([v], r')
          | _ => None
          end
      | None => None
      end
  end
with json_read_members (fuel : nat) (s : string) {struct fuel}
  : option (list (string * pyval) * string) :=
  match fuel with
  | O => None
  | S fuel =>
      match skip_blanks s with
      | String c rest =>
          if Ascii.eqb c (ascii_of_nat 34) then
            match read_string rest with
            | Some (k, r) =>
                match skip_blanks r with
                | String ":" r' =>
                    match json_read fuel r' with
                    | Some (v, r'') =>
                        match skip_blanks r'' with
                        | String "," r3 =>
                            match json_read_members fuel r3 with
                            | Some (d, r4) => Some ((k, v) :: d, r4)
                            | None => None
                            end
                        | String "}" r3 => Some ([(k, v)], r3)
                        | _ => None
                        end
                    | None => None
                    end
                | _ => None
                end
            | None => None
            end
          else None
      | EmptyString => None
      end
  end.

(** [json.loads] for the examples: the whole text is one value. *)
Definition json_read_ex (s : string) : result pyval :=
  match json_read (S (String.length s)) s with
  | Some (v, rest) =>
      match skip_blanks rest with
      | EmptyString => Ok v
      | _ => Raise JSONDecodeError
      end
  | None => Raise JSONDecodeError
  end.

(** The JSON report of [audit_725] in verbose mode, as text. *)
Definition report_725_text : string :=
  Eval vm_compute in
    match fst (json_generate unit randbelow_ex json_dumps_ex
                 {| no_roast := false; verbose := true |} audit_725 tt) with
    | Ok text => text
    | Raise _ => EmptyString
    end.

(** * The rest of the code: definitions for the statements *)

(** [normalize_score(v, 0, 100)] with the default target range, and the
    check that it gives [v], or [v - 1] at 29, 57 and 58. *)
Definition normalize_default (v : Z) : result Z :=
  normalize_score (PyNum.NInt v) (PyNum.NInt 0) (PyNum.NInt 100) 0 100.

Definition lowered (v : Z) : Z :=
  if existsb (Z.eqb v) [29; 57; 58] then v - 1 else v.

Definition normalize_default_ok (v : Z) : bool :=
  match normalize_default v with
  | Ok r => r =? lowered v
  | Raise _ => false
  end.

(** The contract of [random._randbelow(n)]: some [k] with [0 <= k < n]. *)
Definition randbelow_in_range {Rng : Type} (randbelow : Z -> Rng -> Z * Rng)
  : Prop :=
  forall n g, 0 < n -> 0 <= fst (randbelow n g) < n.

(** A generator whose state is a counter: it draws the counter modulo
    [n] and advances it. *)
Definition randbelow_counter (n : Z) (g : Z) : Z * Z := (g mod n, g + 1).

(** No roast of a list is the empty string. *)
Definition no_empty_roast (roasts : list string) : bool :=
  forallb (fun r => negb (String.eqb r "")) roasts.

(** The keys of the ["categories"] object of the JSON report. *)
Definition category_keys : list string :=
  [ "title"; "meta_description"; "headings"; "images"; "mobile";
    "ssl_security"; "performance"; "links"; "open_graph"; "schema" ].

(** A computation that draws nothing: its result and the untouched state
    of the generator, whatever the generator. *)
Definition draws_nothing {A : Type}
  (c : forall Rng : Type, (Z -> Rng -> Z * Rng) -> Rng -> result A * Rng) : Prop :=
  exists out : result A,
    forall (Rng : Type) (randbelow : Z -> Rng -> Z * Rng) (g : Rng),
      c Rng randbelow g = (out, g).

(** [int(a / 100)] is the whole quotient [a // 100]. *)
Definition filled_is_quotient (a : Z) : bool :=
  match (ratio <- PyFloat.int_truediv a 100 ;; PyFloat.to_int ratio) with
  | Ok filled => filled =? a / 100
  | Raise _ => false
  end.

(** The rank of a grade by its letter: A is 4, B 3, C 2, D 1, anything
    else 0. *)
Definition letter_rank (grade : string) : Z :=
  if Str.startswith grade "A" then 4
  else if Str.startswith grade "B" then 3
  else if Str.startswith grade "C" then 2
  else if Str.startswith grade "D" then 1
  else 0.

(** The scores at which the summary table of the Markdown report shows a
    lower letter than the overall scale. *)
Definition lower_mini_grade (score : Z) : bool :=
  ((90 <=? score) && (score <=? 92)) || ((80 <=? score) && (score <=? 84))
  || ((70 <=? score) && (score <=? 74)) || ((60 <=? score) && (score <=? 64)).

(** The number of entries of a block of at most [limit] items under a
    heading, with [extra] entries after them; no block for no item. *)
Definition block_lines (limit : option nat) (extra : Z) (items : list string) : Z :=
  match items with
  | [] => 0
  | _ =>
      1 + extra
      + match limit with
        | Some n => Z.min (Z.of_nat n) (len items)
        | None => len items
        end
  end.

(** The URL with the scheme [validate_url] puts in front of it. *)
Definition with_scheme (url : string) : string :=
  if Str.startswith_any url ["http://"; "https://"] then url
  else "https://" ++ url.

(** [o == v] for an optional string. *)
Definition is_some_eq (o : option string) (v : string) : bool :=
  match o with
  | Some x => String.eqb x v
  | None => false
  end.

(** The reporter [main] runs: "json" wins over "markdown", and the
    extension of the output path counts like the flag. *)
Inductive reporter_kind : Type :=
| JsonReport
| MarkdownReport
| TerminalReport.

Definition chosen_reporter (args : Cli.Args) : reporter_kind :=
  let format := Cli.detect_output_format (Cli.args_output args) in
  if Cli.args_json args || is_some_eq format "json" then JsonReport
  else if Cli.args_markdown args || is_some_eq format "markdown" then MarkdownReport
  else TerminalReport.

(** A world for the examples: a clock in seconds, the counter of the
    random generator and the files written so far. *)
Record world_ex : Type := {
  clock : Z;
  seed : Z;
  files : list (string * string)
}.

Definition time_w (w : world_ex) : PyFloat.float * world_ex :=
  (PyFloat.Fin (inject_Z (clock w)), w).

(** Every request is answered by the site of the examples after two
    seconds, whatever the timeout and the user agent. *)
Definition get_w (timeout : Z) (user_agent url : string) (w : world_ex)
  : result Response * world_ex :=
  (Ok (response_ex url),
   {| clock := clock w + 2; seed := seed w; files := files w |}).

Definition randbelow_w (n : Z) (w : world_ex) : Z * world_ex :=
  (seed w mod n, {| clock := clock w; seed := seed w + 1; files := files w |}).

Definition write_file_w (path content : string) (w : world_ex)
  : result unit * world_ex :=
  (Ok tt,
   {| clock := clock w; seed := seed w; files := (path, content) :: files w |}).

(** Stand-ins for [str(e)], [datetime] and [json.dumps] in the examples:
    the serializer is compact, writes floats with one decimal and escapes
    nothing. *)
Definition str_exn_ex (e : exn) : string :=
  match e with
  | TypeError => "sequence item 0: expected str instance, list found"
  | ValueError => "Invalid IPv6 URL"
  | _ => "error"
  end.

Definition format_timestamp_ex (t : PyFloat.float) : result string :=
  Ok "1970-01-01 00:00:00".

Definition main_ex : Cli.Args -> world_ex -> Cli.Console
                     -> Cli.ended Z * world_ex * Cli.Console :=
  Cli.main decode_ex parse_bytes_ex parse_str_ex urlparse_ex json_loads_ex
    format_timestamp_ex json_dumps_ex world_ex time_w get_w randbelow_w
    write_file_w str_exn_ex.

Definition audit_w (url : string) (w : world_ex) : result WebsiteAudit * world_ex :=
  audit decode_ex parse_bytes_ex parse_str_ex urlparse_ex json_loads_ex
    world_ex time_w (get_w 30 "site-roast/1.0 (Website Auditor)") url w.

Definition args_ex (url : string) (markdown : bool) (output : option string)
  : Cli.Args :=
  {| Cli.args_url := url; Cli.args_json := false; Cli.args_markdown := markdown;
     Cli.args_no_roast := false; Cli.args_verbose := false;
     Cli.args_timeout := 30;
     Cli.args_user_agent := "site-roast/1.0 (Website Auditor)";
     Cli.args_output := output |}.

Definition world0 : world_ex := {| clock := 0; seed := 0; files := [] |}.
Definition console0 : Cli.Console := {| Cli.stdout := []; Cli.stderr := [] |}.

(** The audit of the plain page of the examples and its JSON report with
    the default flags. *)
Definition audit_plain_result : WebsiteAudit :=
  Eval vm_compute in
    match fst (audit_w "https://example.com/" world0) with
    | Ok a => a
    | Raise _ => audit_725
    end.

Definition world_after_audit : world_ex := {| clock := 2; seed := 0; files := [] |}.

Definition report_plain_text : string :=
  Eval vm_compute in
    match fst (json_generate world_ex randbelow_w json_dumps_ex
                 {| no_roast := false; verbose := false |} audit_plain_result
                 world_after_audit) with
    | Ok text => text
    | Raise _ => ""
    end.

(** The security headers the response lacks, and the Open Graph tags the
    document provides (a [meta] tag with the property and a content that
    is not empty). *)
Definition missing_security_headers (response : Response) : list string :=
  map fst
    (filter (fun hd => negb (header_in (fst hd) (headers response)))
       security_headers).

Definition found_og_tags (soup : Document) : list string :=
  map fst (filter (fun t => negb (is_none (og_content soup (fst t)))) og_tags).

(** The text of the title, when the document has a title that is not
    empty; the description tag; the heading tags. *)
Definition title_text (soup : Document) : option string :=
  match find (has_name "title") soup with
  | Some tag => if String.eqb (tag_text tag) "" then None else Some (tag_text tag)
  | None => None
  end.

Definition description_tag (soup : Document) : option Tag :=
  find (fun t => has_name "meta" t && attr_is "name" "description" t) soup.

Definition heading_tags (soup : Document) : list Tag := find_all is_heading soup.

(** The links the analyzer counts. *)
Definition link_tags (soup : Document) : list Tag :=
  find_all (fun t => has_name "a" t && has_attr "href" t) soup.

(** The penalties of the performance score, by the size of the body in
    bytes and by the number of style sheets and external scripts. *)
Definition size_penalty (content_length : Z) : Z :=
  if content_length >? 2048000 then 30
  else if content_length >? 1024000 then 15
  else if content_length >? 512000 then 5
  else 0.

Definition external_resources (soup : Document) : Z :=
  len (find_all (fun t => has_name "link" t && rel_has "stylesheet" t) soup)
  + len (find_all (fun t => has_name "script" t && has_attr "src" t) soup).

Definition resource_penalty (total_external : Z) : Z :=
  if total_external >? 20 then 15
  else if total_external >? 10 then 5
  else 0.

(** What the audit needs of the libraries on a page: [urlparse] accepts
    the absolute [href] of a link, and the types that a JSON-LD block
    contributes are strings. *)
Definition href_parses (urlparse : string -> result ParseResult) (link : Tag)
  : bool :=
  if is_absolute (get_default link "href" "") then
    match urlparse (get_default link "href" "") with
    | Ok _ => true
    | Raise _ => false
    end
  else true.

Definition string_types (json_loads : string -> result pyval) (script : Tag)
  : bool :=
  match types_of_script json_loads script with
  | Ok types => forallb is_str types
  | Raise _ => false
  end.

(** A page with four links: one relative and one absolute link to the
    site, one link to another site marked [nofollow], and a mail link. *)
Definition doc_four_links : Document :=
  mk_doc [ mk_text_tag "a" [("href", "/about")] "About";
           mk_text_tag "a" [("href", "https://example.com/contact")] "Contact";
           mk_text_tag "a" [("href", "https://elsewhere.org/");
                            ("rel", "nofollow")] "Elsewhere";
           mk_text_tag "a" [("href", "mailto:me@example.com")] "Mail" ].

(** The result of the links analyzer on that page. *)
Definition links_result_ex : AuditResult :=
  Eval vm_compute in
    match _audit_links urlparse_ex doc_four_links "https://example.com/" with
    | Ok r => r
    | Raise _ => mkResult 0 [] [] []
    end.

(** * Proofs *)

(** ** Facts on the binary64 model *)

Import PyFloat.


Lemma rne_le (n d N : Z) : 0 < d -> n <= N * d -> rne n d <= N.
Proof.
  intros Hd Hn. unfold rne.
  pose proof (Z.div_mod n d ltac:(lia)) as E.
  pose proof (Z.mod_pos_bound n d Hd) as R.
  assert (n / d <= N) by nia.
  destruct (Z.eq_dec (n / d) N) as [Q|Q].
  - assert (n mod d = 0) by nia.
    replace (2 * (n mod d) ?= d) with Lt; [lia|].
    symmetry. apply Z.compare_lt_iff. lia.
  - destruct (2 * (n mod d) ?= d); [destruct (Z.even (n / d))| |]; lia.
Qed.

Lemma rne_ge (n d N : Z) : 0 < d -> N * d <= n -> N <= rne n d.
Proof.
  intros Hd Hn. unfold rne.
  pose proof (Z.div_mod n d ltac:(lia)) as E.
  pose proof (Z.mod_pos_bound n d Hd) as R.
  assert (N <= n / d) by nia.
  destruct (2 * (n mod d) ?= d); [destruct (Z.even (n / d))| |]; lia.
Qed.

Lemma pow2_pos (k : Z) : 0 <= k -> 0 < 2 ^ k.
Proof. intros. apply Z.pow_pos_nonneg; lia. Qed.

Lemma ilog2_spec (n d : Z) :
  0 < n -> 0 < d ->
  let k := ilog2 n d in
  (0 <= k -> d * 2 ^ k <= n < d * 2 ^ (k + 1))
  /\ (k < 0 -> d <= n * 2 ^ (- k) /\ n * 2 ^ (- k - 1) < d).
Proof.
  intros Hn Hd. unfold ilog2.
  pose proof (Z.log2_spec n Hn) as [An1 An2].
  pose proof (Z.log2_spec d Hd) as [Ad1 Ad2].
  pose proof (Z.log2_nonneg n) as Ann.
  pose proof (Z.log2_nonneg d) as Adn.
  set (a := Z.log2 n) in *. set (b := Z.log2 d) in *.
  rewrite <- Z.add_1_r in An2, Ad2.
  destruct (Z.leb_spec 0 (a - b)) as [L|L].
  - assert (Ea : a = b + (a - b)) by lia.
    destruct (Z.leb_spec (d * 2 ^ (a - b)) n) as [C|C]; cbv zeta.
    + split; [intros _|lia]. split; [exact C|].
      assert (2 ^ (a + 1) = 2 ^ b * 2 ^ (a - b + 1)).
      { rewrite <- Z.pow_add_r by lia. f_equal. lia. }
      pose proof (pow2_pos (a - b + 1) ltac:(lia)). nia.
    + split.
      * intros K. replace (a - b - 1 + 1) with (a - b) by lia.
        split; [|exact C].
        assert (2 ^ a = 2 ^ (b + 1) * 2 ^ (a - b - 1)).
        { rewrite <- Z.pow_add_r by lia. f_equal. lia. }
        pose proof (pow2_pos (a - b - 1) ltac:(lia)). nia.
      * intros K. assert (a - b = 0) by lia.
        replace (- (a - b - 1)) with 1 by lia.
        replace (1 - 1) with 0 by lia.
        replace (a - b) with 0 in C by lia.
        replace a with b in * by lia.
        rewrite Z.pow_add_r in Ad2 by lia.
        change (2 ^ 1) with 2 in *. change (2 ^ 0) with 1 in *. lia.
  - destruct (Z.leb_spec d (n * 2 ^ (- (a - b)))) as [C|C]; cbv zeta.
    + split; [lia|intros _]. split; [exact C|].
      assert (2 ^ b = 2 ^ (a + 1) * 2 ^ (- (a - b) - 1)).
      { rewrite <- Z.pow_add_r by lia. f_equal. lia. }
      pose proof (pow2_pos (- (a - b) - 1) ltac:(lia)). nia.
    + split; [lia|intros _].
      replace (- (a - b - 1) - 1) with (- (a - b)) by lia.
      split; [|exact C].
      assert (2 ^ (b + 1) = 2 ^ a * 2 ^ (- (a - b - 1))).
      { rewrite <- Z.pow_add_r by lia. f_equal. lia. }
      pose proof (pow2_pos (- (a - b - 1)) ltac:(lia)). nia.
Qed.



Lemma dyadic_value (m e : Z) :
  (dyadic m e == if 0 <=? e then inject_Z (m * 2 ^ e)
                 else Qmake m (Z.to_pos (2 ^ (- e))))%Q.
Proof.
  unfold dyadic. destruct (0 <=? e); [reflexivity|apply Qred_correct].
Qed.

Lemma round_le_int (q : Q) (B : Z) :
  0 < Qnum q -> 0 < B < 2 ^ 53 -> (q <= inject_Z B)%Q ->
  exists v, round q = Fin v /\ (0 <= v)%Q /\ (v <= inject_Z B)%Q.
Proof.
  intros Hn HB Hq. unfold round.
  destruct q as [n d]. cbn [Qnum Qden] in *.
  unfold Qle in Hq. cbn [Qnum Qden inject_Z] in Hq.
  destruct (Z.eqb_spec n 0) as [|_]; [lia|].
  rewrite (Z.abs_eq n) by lia.
  replace (n <? 0) with false by (symmetry; apply Z.ltb_ge; lia).
  pose proof (ilog2_spec n (Zpos d) Hn ltac:(lia)) as [K1 K2]. cbv zeta in K1, K2.
  set (k := ilog2 n (Zpos d)) in *.
  assert (Hk : k <= 52).
  { destruct (Z.le_gt_cases k 52) as [|G]; [assumption|exfalso].
    destruct (K1 ltac:(lia)) as [K _].
    assert (2 ^ 53 <= 2 ^ k) by (apply Z.pow_le_mono_r; lia). nia. }
  set (e := Z.max (k - 52) (-1074)).
  assert (He : e <= 0) by (unfold e; lia).
  destruct (Z.leb_spec 0 e) as [E|E].
  - assert (e = 0) by lia. assert (k = 52) by (unfold e in *; lia).
    replace e with 0 by lia. change (2 ^ 0) with 1.
    rewrite !Z.mul_1_r.
    assert (rne n (Zpos d) <= B) by (apply rne_le; lia).
    assert (0 <= rne n (Zpos d)) by (apply rne_ge; lia).
    cbn [andb].
    replace (2 ^ 1024 <=? rne n (Zpos d)) with false.
    2:{ symmetry. apply Z.leb_gt.
        assert (2 ^ 53 < 2 ^ 1024) by (apply Z.pow_lt_mono_r; lia). lia. }
    eexists. split; [reflexivity|].
    unfold dyadic. cbn [Z.leb Z.compare]. change (2 ^ 0) with 1.
    rewrite Z.mul_1_r. unfold Qle. cbn [Qnum Qden inject_Z]. lia.
  - cbn [andb].
    pose proof (Z.pow_pos_nonneg 2 (- e) ltac:(lia) ltac:(lia)) as P.
    assert (rne (n * 2 ^ (- e)) (Zpos d) <= B * 2 ^ (- e)) by (apply rne_le; nia).
    assert (0 <= rne (n * 2 ^ (- e)) (Zpos d)) by (apply rne_ge; nia).
    eexists. split; [reflexivity|].
    rewrite dyadic_value.
    replace (0 <=? e) with false by (symmetry; apply Z.leb_gt; lia).
    unfold Qle. cbn [Qnum Qden inject_Z].
    rewrite Z2Pos.id by lia. lia.
Qed.

(** Rounding stays finite below [2^1023]. *)
Lemma round_finite (q : Q) :
  0 < Qnum q -> Qnum q < 2 ^ 1023 * Zpos (Qden q) ->
  exists v, round q = Fin v.
Proof.
  intros Hn Hq. unfold round. destruct q as [n d]. cbn [Qnum Qden] in *.
  destruct (Z.eqb_spec n 0) as [|_]; [lia|].
  rewrite (Z.abs_eq n) by lia.
  pose proof (ilog2_spec n (Zpos d) Hn ltac:(lia)) as [K1 K2]. cbv zeta in K1, K2.
  set (k := ilog2 n (Zpos d)) in *.
  assert (Hk : k <= 1022).
  { destruct (Z.le_gt_cases k 1022) as [|G]; [assumption|exfalso].
    destruct (K1 ltac:(lia)) as [K _].
    assert (2 ^ 1023 <= 2 ^ k) by (apply Z.pow_le_mono_r; lia). nia. }
  set (e := Z.max (k - 52) (-1074)).
  destruct (Z.leb_spec 0 e) as [E|E]; cbn [andb]; [|eexists; reflexivity].
  assert (Ee : e = k - 52) by (unfold e; lia).
  destruct (K1 ltac:(lia)) as [_ K].
  pose proof (Z.pow_pos_nonneg 2 e ltac:(lia) ltac:(lia)) as P.
  assert (M : rne n (Zpos d * 2 ^ e) <= 2 ^ 53).
  { apply rne_le; [nia|].
    replace (k + 1) with (53 + e) in K by lia.
    rewrite Z.pow_add_r in K by lia. nia. }
  replace (2 ^ 1024 <=? rne n (Zpos d * 2 ^ e) * 2 ^ e) with false;
    [eexists; reflexivity|].
  symmetry. apply Z.leb_gt.
  assert (2 ^ 53 * 2 ^ e <= 2 ^ 1023).
  { rewrite <- Z.pow_add_r by lia. apply Z.pow_le_mono_r; lia. }
  assert (2 ^ 1023 < 2 ^ 1024) by (apply Z.pow_lt_mono_r; lia).
  nia.
Qed.

(** [rne] is the nearest integer, ties to even. *)
Lemma rne_nearest (n d : Z) : 0 < d -> nearest_ties_even n d (rne n d).
Proof.
  intros Hd. unfold nearest_ties_even, rne.
  pose proof (Z.div_mod n d ltac:(lia)) as E.
  pose proof (Z.mod_pos_bound n d Hd) as R.
  set (q := n / d) in *. set (r := n mod d) in *.
  destruct (Z.compare_spec (2 * r) d) as [C|C|C].
  - right. destruct (Z.even q) eqn:Ev.
    + split; [|exact Ev]. replace (n - q * d) with r by lia. lia.
    + split.
      * replace (n - (q + 1) * d) with (r - d) by lia. lia.
      * rewrite Z.add_1_r, Z.even_succ, <- Z.negb_even, Ev. reflexivity.
  - left. replace (n - q * d) with r by lia. lia.
  - left. replace (n - (q + 1) * d) with (r - d) by lia. lia.
Qed.

Lemma rne_tie (n : Z) :
  n mod 10 = 5 -> rne n 10 = if Z.even (n / 10) then n / 10 else n / 10 + 1.
Proof. intros H. unfold rne. rewrite H. reflexivity. Qed.

Lemma rne_error (n d : Z) :
  0 < d -> 2 * (rne n d * d - n) <= d /\ 2 * (n - rne n d * d) <= d.
Proof.
  intros Hd. destruct (rne_nearest n d Hd) as [H|[H _]]; lia.
Qed.

(** The relative error of rounding is at most 2^-53 in the range used
    by the coverage scores. *)
Lemma round_relative_error (q : Q) :
  (1 # 2 ^ 40 <= q)%Q -> (q <= 128)%Q ->
  exists v,
    round q = Fin v
    /\ ((v - q) * inject_Z (2 ^ 53) <= q)%Q
    /\ ((q - v) * inject_Z (2 ^ 53) <= q)%Q.
Proof.
  intros Hlo Hhi. destruct q as [n d]. unfold Qle in Hlo, Hhi.
  cbn [Qnum Qden] in Hlo, Hhi.
  assert (Hn : 0 < n) by lia.
  unfold round. cbn [Qnum Qden].
  destruct (Z.eqb_spec n 0) as [|_]; [lia|].
  rewrite (Z.abs_eq n) by lia.
  replace (n <? 0) with false by (symmetry; apply Z.ltb_ge; lia).
  pose proof (ilog2_spec n (Zpos d) Hn ltac:(lia)) as [K1 K2]. cbv zeta in K1, K2.
  set (k := ilog2 n (Zpos d)) in *.
  assert (Hk7 : k <= 7).
  { destruct (Z.le_gt_cases k 7) as [|G]; [assumption|exfalso].
    destruct (K1 ltac:(lia)) as [K _].
    assert (2 ^ 8 <= 2 ^ k) by (apply Z.pow_le_mono_r; lia).
    change (2 ^ 8) with 256 in *. nia. }
  assert (Hk40 : -40 <= k).
  { destruct (Z.le_gt_cases (-40) k) as [|G]; [assumption|exfalso].
    destruct (K2 ltac:(lia)) as [_ K].
    assert (2 ^ 40 <= 2 ^ (- k - 1)) by (apply Z.pow_le_mono_r; lia).
    change (Z.pos (2 ^ 40)) with (2 ^ 40) in Hlo. nia. }
  replace (Z.max (k - 52) (-1074)) with (k - 52) by lia.
  replace (0 <=? k - 52) with false by (symmetry; apply Z.leb_gt; lia).
  cbn [andb].
  set (P := 2 ^ (- (k - 52))).
  assert (HP : 0 < P) by (apply Z.pow_pos_nonneg; lia).
  set (m := rne (n * P) (Zpos d)).
  destruct (rne_error (n * P) (Zpos d) ltac:(lia)) as [E1 E2]. fold m in E1, E2.
  assert (E3 : Zpos d * 2 ^ 52 <= n * P).
  { unfold P. destruct (Z.le_gt_cases 0 k) as [G|G].
    - destruct (K1 G) as [K _].
      replace (- (k - 52)) with (52 - k) by lia.
      assert (2 ^ 52 = 2 ^ k * 2 ^ (52 - k)).
      { rewrite <- Z.pow_add_r by lia. f_equal. lia. }
      pose proof (Z.pow_pos_nonneg 2 (52 - k) ltac:(lia) ltac:(lia)). nia.
    - destruct (K2 G) as [K _].
      replace (- (k - 52)) with (52 + - k) by lia.
      rewrite Z.pow_add_r by lia.
      pose proof (Z.pow_pos_nonneg 2 52 ltac:(lia) ltac:(lia)). nia. }
  eexists. split; [reflexivity|].
  assert (V : (dyadic m (k - 52) == Qmake m (Z.to_pos P))%Q).
  { rewrite dyadic_value.
    replace (0 <=? k - 52) with false by (symmetry; apply Z.leb_gt; lia).
    reflexivity. }
  rewrite !V. unfold Qle, Qminus, Qplus, Qmult, Qopp, inject_Z.
  cbn [Qnum Qden]. rewrite !Pos2Z.inj_mul, Z2Pos.id by lia.
  assert (E4 : 2 ^ 53 = 2 * 2 ^ 52) by reflexivity.
  split; nia.
Qed.

(** The model agrees with the machine's binary64 on the quotients a/b,
    the products (a/b)*100 and the sums a/b + b/7 for 1 <= a, b <= 40, and
    on the quotient behind the example 29/100. *)
Example round_agrees_with_hardware :
  forallb (fun a => forallb (hw_agrees_at a) (small_ints 40)) (small_ints 40)
  = true
  /\ hw_agrees_at 29 100 = true
  /\ hw_agrees_at (2 ^ 62 - 1) 3 = true
  /\ hw_agrees_at 1 (2 ^ 62 - 3) = true.
Proof. repeat match goal with |- _ /\ _ => split end; vm_compute; reflexivity. Qed.

(** ** scores.py: grades and weighted averages *)

(** C3. For every integer score, [score_to_grade] (and [get_grade], which
    applies the same comparisons to the overall score) is the ordered
    13-bucket threshold lookup >=97 A+, >=93 A, >=90 A-, >=87 B+, >=83 B,
    >=80 B-, >=77 C+, >=73 C, >=70 C-, >=67 D+, >=63 D, >=60 D-, else F;
    in particular 96 gives A, 97 gives A+, 59 gives F and 60 gives D-. *)
Theorem grade_is_ordered_threshold_lookup :
  (forall score : Z,
      ScoreCalculator.score_to_grade score
      = spec_grade_lookup spec_grade_thresholds score)
  /\ (forall a : WebsiteAudit,
         get_grade a
         = (s <- get_overall_score a ;;
            Ok (spec_grade_lookup spec_grade_thresholds s)))
  /\ (forall score : Z,
         (97 <= score -> ScoreCalculator.score_to_grade score = "A+")
         /\ (93 <= score < 97 -> ScoreCalculator.score_to_grade score = "A")
         /\ (90 <= score < 93 -> ScoreCalculator.score_to_grade score = "A-")
         /\ (87 <= score < 90 -> ScoreCalculator.score_to_grade score = "B+")
         /\ (83 <= score < 87 -> ScoreCalculator.score_to_grade score = "B")
         /\ (80 <= score < 83 -> ScoreCalculator.score_to_grade score = "B-")
         /\ (77 <= score < 80 -> ScoreCalculator.score_to_grade score = "C+")
         /\ (73 <= score < 77 -> ScoreCalculator.score_to_grade score = "C")
         /\ (70 <= score < 73 -> ScoreCalculator.score_to_grade score = "C-")
         /\ (67 <= score < 70 -> ScoreCalculator.score_to_grade score = "D+")
         /\ (63 <= score < 67 -> ScoreCalculator.score_to_grade score = "D")
         /\ (60 <= score < 63 -> ScoreCalculator.score_to_grade score = "D-")
         /\ (score < 60 -> ScoreCalculator.score_to_grade score = "F"))
  /\ ScoreCalculator.score_to_grade 96 = "A"
  /\ ScoreCalculator.score_to_grade 97 = "A+"
  /\ ScoreCalculator.score_to_grade 59 = "F"
  /\ ScoreCalculator.score_to_grade 60 = "D-".
Proof.
  split; [intros score; reflexivity|].
  split; [intros a; reflexivity|].
  split; [|repeat match goal with |- _ /\ _ => split end; vm_compute; reflexivity].
  intros score. unfold ScoreCalculator.score_to_grade.
  rewrite !Z.geb_leb.
  repeat split; intros H;
    repeat match goal with
           | |- context [?a <=? score] =>
               destruct (Z.leb_spec a score); try lia
           end;
    reflexivity.
Qed.

Lemma len_length {A} (l1 : list A) {B} (l2 : list B) :
  (len l1 =? len l2) = true <-> List.length l1 = List.length l2.
Proof.
  unfold len. rewrite Z.eqb_eq. split; [apply Nat2Z.inj|congruence].
Qed.

(** C8. [weighted_average([80, 90], [50, 50])] returns 85, and for every
    pair of lists of different lengths [weighted_average] raises
    [ValueError]: neither input is truncated to the other's length. *)
Theorem weighted_average_example_and_length_check :
  ScoreCalculator.weighted_average [80; 90] [50; 50] = Ok 85
  /\ (forall scores weights : list Z,
         List.length scores <> List.length weights ->
         ScoreCalculator.weighted_average scores weights = Raise ValueError).
Proof.
  split; [vm_compute; reflexivity|].
  intros scores weights H. unfold ScoreCalculator.weighted_average.
  destruct (len scores =? len weights) eqn:E; [|reflexivity].
  apply len_length in E. contradiction.
Qed.

(** Three scores against two weights. *)
Lemma weighted_average_length_check_witness :
  ScoreCalculator.weighted_average [80; 90; 70] [50; 50] = Raise ValueError.
Proof.
  apply (proj2 weighted_average_example_and_length_check).
  simpl. discriminate.
Defined.

(** C10. For every pair of non-empty lists of equal length whose weights
    sum to 0, [weighted_average] raises [ZeroDivisionError]: the weights
    are normalised by a division by their sum, which nothing guards. *)
Theorem weighted_average_zero_weight_sum :
  forall scores weights : list Z,
    scores <> [] ->
    List.length scores = List.length weights ->
    sum weights = 0 ->
    ScoreCalculator.weighted_average scores weights = Raise ZeroDivisionError.
Proof.
  intros scores weights Hne Hlen Hsum.
  unfold ScoreCalculator.weighted_average.
  rewrite (proj2 (len_length scores weights) Hlen). cbn [negb].
  destruct scores as [|s scores]; [contradiction|].
  destruct weights as [|w weights]; [discriminate|].
  rewrite Hsum. reflexivity.
Qed.

(** The weights 1 and -1. *)
Lemma weighted_average_zero_weight_sum_witness :
  ScoreCalculator.weighted_average [80; 90] [1; -1] = Raise ZeroDivisionError.
Proof.
  apply weighted_average_zero_weight_sum;
    [discriminate | reflexivity | reflexivity].
Defined.

(** ** The overall score *)

Lemma mean_rounded_table :
  forallb mean_rounded_is_rne (map Z.of_nat (seq 0 1001)) = true.
Proof. vm_compute. reflexivity. Qed.

Lemma mean_rounded_upto_1000 (s : Z) :
  0 <= s <= 1000 -> mean_rounded s = Ok (rne s 10).
Proof.
  intros H. pose proof mean_rounded_table as T.
  rewrite forallb_forall in T.
  specialize (T s). unfold mean_rounded_is_rne in T.
  destruct (mean_rounded s) as [z|e].
  - f_equal. apply Z.eqb_eq. apply T.
    apply in_map_iff. exists (Z.to_nat s). split; [lia|].
    apply in_seq. lia.
  - discriminate T.
    apply in_map_iff. exists (Z.to_nat s). split; [lia|].
    apply in_seq. lia.
Qed.

Lemma overall_score_is_mean_rounded (a : WebsiteAudit) :
  get_overall_score a = mean_rounded (sum (scores_of a)).
Proof. reflexivity. Qed.

Lemma valid_scores_sum (a : WebsiteAudit) :
  valid_scores a -> 0 <= sum (scores_of a) <= 1000.
Proof.
  unfold valid_scores, scores_of, sum. intros H.
  repeat match goal with
         | H : Forall _ (_ :: _) |- _ => inversion H; subst; clear H
         end.
  cbn [fold_left]. lia.
Qed.

(** The overall score of ten scores in 0..100. *)
Lemma overall_score_of_valid (a : WebsiteAudit) :
  valid_scores a -> get_overall_score a = Ok (rne (sum (scores_of a)) 10).
Proof.
  intros Hv. rewrite overall_score_is_mean_rounded.
  apply mean_rounded_upto_1000, valid_scores_sum, Hv.
Qed.

(** C2, as the code has it. For every audit whose ten scores lie in
    0..100, the overall score is the integer nearest to the mean of the
    ten scores, and a mean that ends in .5 goes to the even neighbour
    (round-half-to-even, Python's [round]), not upward. *)
Theorem overall_score_rounds_half_to_even :
  forall a : WebsiteAudit,
    valid_scores a ->
    exists z : Z,
      get_overall_score a = Ok z
      /\ nearest_ties_even (sum (scores_of a)) 10 z
      /\ (sum (scores_of a) mod 10 = 5 ->
          z = if Z.even (sum (scores_of a) / 10)
              then sum (scores_of a) / 10
              else sum (scores_of a) / 10 + 1).
Proof.
  intros a Hv. exists (rne (sum (scores_of a)) 10).
  split; [apply overall_score_of_valid, Hv|].
  split; [apply rne_nearest; lia|apply rne_tie].
Qed.

(** The theorem at [audit_725], whose ten scores lie in 0..100. *)
Lemma overall_score_rounds_half_to_even_witness :
  exists z : Z,
    get_overall_score audit_725 = Ok z
    /\ nearest_ties_even (sum (scores_of audit_725)) 10 z
    /\ (sum (scores_of audit_725) mod 10 = 5 ->
        z = if Z.even (sum (scores_of audit_725) / 10)
            then sum (scores_of audit_725) / 10
            else sum (scores_of audit_725) / 10 + 1).
Proof.
  apply overall_score_rounds_half_to_even.
  unfold valid_scores, scores_of.
  repeat (apply Forall_cons; [cbn; lia|]). apply Forall_nil.
Defined.

(** C2, as stated, fails: the ten scores of [audit_725] sum to 725, the
    mean is 72.5, round-half-up gives 73 and the code returns 72 (and the
    grade C- where 73 would give C). *)
Lemma overall_score_725_is_not_half_up :
  sum (scores_of audit_725) = 725
  /\ spec_round_half_up (sum (scores_of audit_725)) 10 = 73
  /\ get_overall_score audit_725 = Ok 72
  /\ get_overall_score audit_725
     <> Ok (spec_round_half_up (sum (scores_of audit_725)) 10)
  /\ get_grade audit_725 = Ok "C-".
Proof.
  repeat match goal with |- _ /\ _ => split end;
    try (vm_compute; reflexivity).
  vm_compute. discriminate.
Qed.

(** ** The images analyzer *)

Lemma bind_ok {A B} (c : result A) (k : A -> result B) (b : B) :
  bind c k = Ok b -> exists a, c = Ok a /\ k a = Ok b.
Proof. destruct c as [a|e]; cbn; [eauto|discriminate]. Qed.

Lemma of_int_100 : of_int 100 = Ok (Fin (100 # 1)).
Proof. vm_compute. reflexivity. Qed.

Lemma of_int_finite (z : Z) :
  0 <= z < 2 ^ 1023 -> exists v, of_int z = Ok (Fin v).
Proof.
  intros H. unfold of_int.
  destruct (Z.eq_dec z 0) as [->|N]; [eexists; reflexivity|].
  destruct (round_finite (inject_Z z)) as [v ->]; cbn; [lia|lia|eauto].
Qed.

Lemma to_int_bounds (v : Q) (B : Z) :
  (0 <= v)%Q -> (v <= inject_Z B)%Q ->
  exists s, to_int (Fin v) = Ok s /\ 0 <= s <= B.
Proof.
  intros H0 HB. destruct v as [n d]. unfold Qle in *.
  cbn [Qnum Qden inject_Z to_int] in *. eexists. split; [reflexivity|].
  rewrite Z.quot_div_nonneg by lia. split.
  - apply Z.div_pos; lia.
  - apply Z.div_le_upper_bound; lia.
Qed.

(** [int(w / t * 100)] is defined and within 0..100 whenever
    [0 <= w <= t] and [t] is not 0. *)
Lemma alt_coverage_score_bounds (w t : Z) :
  0 <= w <= t -> 0 < t ->
  exists base, alt_coverage_score w t = Ok base /\ 0 <= base <= 100.
Proof.
  intros Hw Ht. unfold alt_coverage_score, int_truediv.
  destruct (Z.eqb_spec t 0) as [|_]; [lia|].
  rewrite of_int_100.
  destruct t as [|p|p]; try lia.
  assert (Hx : exists x, round (inject_Z w / inject_Z (Zpos p)) = Fin x
                         /\ (0 <= x)%Q /\ (x <= inject_Z 1)%Q).
  { destruct (Z.eq_dec w 0) as [->|N].
    - exists 0%Q. split; [reflexivity|]. split; unfold Qle; cbn; lia.
    - apply round_le_int.
      + cbn. lia.
      + split; [lia|reflexivity].
      + unfold Qle. cbn. lia. }
  destruct Hx as (x & -> & X0 & X1). cbn [bind mul].
  assert (Hy : exists y, round (x * (100 # 1)) = Fin y
                         /\ (0 <= y)%Q /\ (y <= inject_Z 100)%Q).
  { destruct x as [n d]. unfold Qle in X0, X1. cbn [Qnum Qden inject_Z] in X0, X1.
    destruct (Z.eq_dec n 0) as [->|N].
    - exists 0%Q. split; [reflexivity|]. split; unfold Qle; cbn; lia.
    - apply round_le_int.
      + cbn. lia.
      + split; [lia|reflexivity].
      + unfold Qle. cbn. lia. }
  destruct Hy as (y & -> & Y0 & Y1).
  apply to_int_bounds; assumption.
Qed.

Lemma to_int_between (y : Q) (N : Z) :
  0 <= N -> (inject_Z N <= y)%Q -> (y < inject_Z (N + 1))%Q ->
  to_int (Fin y) = Ok N.
Proof.
  intros HN Hlo Hhi. destruct y as [n d]. unfold Qle, Qlt in *.
  cbn [Qnum Qden inject_Z to_int] in *. f_equal.
  rewrite Z.quot_div_nonneg by nia.
  symmetry. apply (Z.div_unique n (Zpos d) N (n - N * Zpos d)); lia.
Qed.

(** [int(w / t * 100)] against the exact quotient, for [t] up to 2^32:
    it is floor(100 w / t), except that when 100 w / t is a whole number
    [N] the rounding of the product can leave it just below [N] and the
    truncation then gives [N - 1] (29 of 100 gives 28). *)
Lemma alt_coverage_score_floor (w t : Z) :
  0 < w <= t -> t <= 2 ^ 32 ->
  exists base,
    alt_coverage_score w t = Ok base
    /\ ((100 * w) mod t <> 0 -> base = 100 * w / t)
    /\ ((100 * w) mod t = 0 -> base = 100 * w / t \/ base = 100 * w / t - 1).
Proof.
  intros Hw Ht. unfold alt_coverage_score, int_truediv.
  destruct (Z.eqb_spec t 0) as [|_]; [lia|].
  rewrite of_int_100.
  pose proof (Z.div_mod (100 * w) t ltac:(lia)) as DM.
  pose proof (Z.mod_pos_bound (100 * w) t ltac:(lia)) as MB.
  set (N := 100 * w / t) in *. set (r := (100 * w) mod t) in *.
  assert (HN : 0 <= N) by (apply Z.div_pos; lia).
  set (q := (inject_Z w / inject_Z t)%Q).
  change (2 ^ 32) with 4294967296 in Ht.
  assert (Hq_lo : (1 # 4294967296 <= q)%Q).
  { unfold q. destruct t as [|p|p]; try lia.
    unfold Qle, Qdiv, Qmult, Qinv, inject_Z. cbn [Qnum Qden]. nia. }
  assert (Hq_hi : (q <= 1)%Q).
  { unfold q. destruct t as [|p|p]; try lia.
    unfold Qle, Qdiv, Qmult, Qinv, inject_Z. cbn [Qnum Qden]. nia. }
  assert (Hq_exact : r = 0 -> (q * 100 == inject_Z N)%Q).
  { intros R. unfold q. destruct t as [|p|p]; try lia.
    unfold Qeq, Qdiv, Qmult, Qinv, inject_Z. cbn [Qnum Qden]. nia. }
  assert (Hq_between :
            r <> 0 ->
            (inject_Z N + (1 # 4294967296) <= q * 100)%Q
            /\ (q * 100 <= inject_Z N + 1 - (1 # 4294967296))%Q).
  { intros R. unfold q. destruct t as [|p|p]; try lia.
    unfold Qle, Qminus, Qdiv, Qmult, Qinv, Qplus, Qopp, inject_Z.
    cbn [Qnum Qden]. rewrite ?Pos2Z.inj_mul, ?Pos.mul_1_r. cbn [Pos.mul].
    rewrite ?Pos2Z.inj_mul. split; nia. }
  clearbody q.
  destruct (round_relative_error q) as (x & -> & X1 & X2).
  { change (2 ^ 40)%positive with 1099511627776%positive. lra. }
  { lra. }
  change (inject_Z (2 ^ 53)) with (9007199254740992 # 1) in X1, X2.
  cbn [bind mul].
  destruct (round_relative_error (x * (100 # 1))) as (y & -> & Y1 & Y2).
  { change (2 ^ 40)%positive with 1099511627776%positive. lra. }
  { lra. }
  change (inject_Z (2 ^ 53)) with (9007199254740992 # 1) in Y1, Y2.
  assert (Ep : (inject_Z (N + 1) == inject_Z N + 1)%Q)
    by (rewrite inject_Z_plus; reflexivity).
  assert (Em : (inject_Z (N - 1) == inject_Z N - 1)%Q).
  { unfold Z.sub. rewrite inject_Z_plus, inject_Z_opp. reflexivity. }
  destruct (Z.eq_dec r 0) as [R|R].
  - specialize (Hq_exact R).
    assert (1 <= N) by nia.
    destruct (Qlt_le_dec y (inject_Z N)) as [L|L].
    + exists (N - 1). split; [|split; [contradiction|auto]].
      apply to_int_between; [lia| |].
      * rewrite Em. lra.
      * replace (N - 1 + 1) with N by lia. exact L.
    + exists N. split; [|split; [contradiction|auto]].
      apply to_int_between; [lia|exact L|].
      rewrite Ep. lra.
  - destruct (Hq_between R) as [B1 B2].
    exists N. split; [|split; [reflexivity|contradiction]].
    apply to_int_between; [lia| |].
    + lra.
    + rewrite Ep. lra.
Qed.

Lemma count_alt_from (imgs : list Tag) (m e : Z) :
  fold_left
    (fun '(missing_alt, empty_alt) img =>
       match get img "alt" with
       | None => (missing_alt + 1, empty_alt)
       | Some alt =>
           if String.eqb (Str.strip alt) "" then (missing_alt, empty_alt + 1)
           else (missing_alt, empty_alt)
       end)
    imgs (m, e)
  = (m + count_if alt_missing imgs, e + count_if alt_blank imgs).
Proof.
  revert m e. induction imgs as [|img imgs IH]; intros m e.
  - cbn. f_equal; lia.
  - cbn [fold_left]. unfold count_if, alt_missing, alt_blank, len in *.
    cbn [filter].
    destruct (get img "alt") as [alt|]; cbn [is_none].
    + destruct (String.eqb (Str.strip alt) ""); rewrite IH; cbn [List.length];
        f_equal; lia.
    + rewrite IH. cbn [List.length]. f_equal; lia.
Qed.

Lemma count_alt_spec (imgs : list Tag) :
  count_alt imgs = (count_if alt_missing imgs, count_if alt_blank imgs).
Proof. unfold count_alt. rewrite count_alt_from. reflexivity. Qed.

Lemma count_if_nonneg {A} (p : A -> bool) (l : list A) :
  0 <= count_if p l <= len l.
Proof.
  unfold count_if, len. pose proof (filter_length_le p l). lia.
Qed.

(** The three classes partition the images. *)
Lemma alt_classes_partition (imgs : list Tag) :
  len imgs
  = count_if alt_missing imgs + count_if alt_blank imgs
    + count_if alt_with_text imgs.
Proof.
  unfold count_if, len. induction imgs as [|img imgs IH]; [reflexivity|].
  cbn [filter List.length]. unfold alt_missing, alt_blank, alt_with_text in *.
  destruct (get img "alt") as [alt|]; cbn [is_none negb];
    [destruct (String.eqb (Str.strip alt) "")|]; cbn [negb List.length]; lia.
Qed.

Lemma images_penalties_bounds (base m b : Z) :
  0 <= base <= 100 -> 0 <= images_penalties base m b <= 100.
Proof.
  intros H. unfold images_penalties.
  destruct (m >? 0), (b >? 0); lia.
Qed.

(** Without images the analyzer returns at once, with score 70. *)
Lemma images_none (soup : Document) :
  len (images_of soup) = 0 ->
  exists r, _audit_images soup = Ok r /\ score r = 70.
Proof.
  intros H. unfold _audit_images. fold (images_of soup). rewrite H.
  eexists. split; reflexivity.
Qed.

(** What a returned images result holds when there are images. *)
Lemma images_some (soup : Document) (r : AuditResult) :
  len (images_of soup) <> 0 ->
  _audit_images soup = Ok r ->
  exists base,
    alt_coverage_score (count_if alt_with_text (images_of soup))
      (len (images_of soup)) = Ok base
    /\ score r
       = images_penalties base (count_if alt_missing (images_of soup))
           (count_if alt_blank (images_of soup)).
Proof.
  intros Hn. unfold _audit_images. fold (images_of soup).
  set (imgs := images_of soup) in *.
  destruct (Z.eqb_spec (len imgs) 0) as [|_]; [contradiction|].
  rewrite count_alt_spec.
  pose proof (alt_classes_partition imgs) as P.
  pose proof (count_if_nonneg alt_missing imgs) as M.
  pose proof (count_if_nonneg alt_blank imgs) as B.
  pose proof (count_if_nonneg alt_with_text imgs) as T.
  replace (len imgs - count_if alt_missing imgs - count_if alt_blank imgs)
    with (count_if alt_with_text imgs) by lia.
  replace (len imgs >? 0) with true by (symmetry; apply Z.gtb_lt; lia).
  intros H. apply bind_ok in H. destruct H as (base & Hb & H).
  exists base. split; [exact Hb|].
  unfold images_penalties.
  destruct (count_if alt_missing imgs >? 0), (count_if alt_blank imgs >? 0);
    cbv beta iota zeta in H; apply bind_ok in H; destruct H as (tf & _ & H);
    injection H as <-; reflexivity.
Qed.

(** The images analyzer returns on every document a Python list can hold. *)
Lemma images_returns (soup : Document) :
  len (images_of soup) <= sys_maxsize ->
  exists r, _audit_images soup = Ok r.
Proof.
  intros Hs.
  destruct (Z.eq_dec (len (images_of soup)) 0) as [Z0|N0].
  - destruct (images_none soup Z0) as (r & H & _). eauto.
  - unfold _audit_images. fold (images_of soup).
    set (imgs := images_of soup) in *.
    destruct (Z.eqb_spec (len imgs) 0) as [|_]; [contradiction|].
    rewrite count_alt_spec.
    pose proof (alt_classes_partition imgs) as P.
    pose proof (count_if_nonneg alt_missing imgs) as M.
    pose proof (count_if_nonneg alt_blank imgs) as B.
    pose proof (count_if_nonneg alt_with_text imgs) as T.
    replace (len imgs - count_if alt_missing imgs - count_if alt_blank imgs)
      with (count_if alt_with_text imgs) by lia.
    replace (len imgs >? 0) with true by (symmetry; apply Z.gtb_lt; lia).
    destruct (alt_coverage_score_bounds (count_if alt_with_text imgs) (len imgs))
      as (base & Hb & _); [lia|lia|].
    change (bind (int_truediv (count_if alt_with_text imgs) (len imgs)) _)
      with (alt_coverage_score (count_if alt_with_text imgs) (len imgs)).
    rewrite Hb. cbn [bind].
    destruct (of_int_finite (len imgs)) as (v & Hv).
    { unfold sys_maxsize in Hs. split; [lia|].
      assert (2 ^ 63 < 2 ^ 1023) by (apply Z.pow_lt_mono_r; lia). lia. }
    destruct (count_if alt_missing imgs >? 0), (count_if alt_blank imgs >? 0);
      cbv beta iota zeta; rewrite Hv; cbn [bind]; eexists; reflexivity.
Qed.

(** C4, as the code has it. For every document (of at most [sys.maxsize]
    images): without images the images analyzer returns score 70;
    otherwise the base score is [int(100 * withText / total)], the product
    computed in binary64 and truncated toward zero (not rounded to the
    nearest integer), lying in 0..100, minus a flat 10 if some image lacks
    the [alt] attribute, minus a flat 5 if some image has a blank [alt],
    each subtraction floored at 0.  Up to 2^32 images the base score is
    floor(100 * withText / total), except that where 100 * withText / total
    is a whole number [N] it is [N] or [N - 1]. *)
Theorem images_score_truncates_coverage :
  forall soup : Document,
    len (images_of soup) <= sys_maxsize ->
    exists r : AuditResult,
      _audit_images soup = Ok r
      /\ (len (images_of soup) = 0 -> score r = 70)
      /\ (len (images_of soup) <> 0 ->
          exists base : Z,
            alt_coverage_score (count_if alt_with_text (images_of soup))
              (len (images_of soup)) = Ok base
            /\ 0 <= base <= 100
            /\ score r
               = images_penalties base
                   (count_if alt_missing (images_of soup))
                   (count_if alt_blank (images_of soup))
            /\ (len (images_of soup) <= 2 ^ 32 ->
                let exact := 100 * count_if alt_with_text (images_of soup) in
                (exact mod len (images_of soup) <> 0 ->
                 base = exact / len (images_of soup))
                /\ (exact mod len (images_of soup) = 0 ->
                    base = exact / len (images_of soup)
                    \/ base = exact / len (images_of soup) - 1))).
Proof.
  intros soup Hs. destruct (images_returns soup Hs) as (r & Hr).
  exists r. split; [exact Hr|]. split.
  - intros Z0. destruct (images_none soup Z0) as (r' & Hr' & S).
    rewrite Hr in Hr'. injection Hr' as ->. exact S.
  - intros N0. destruct (images_some soup r N0 Hr) as (base & Hb & S).
    exists base. split; [exact Hb|].
    pose proof (alt_classes_partition (images_of soup)) as P.
    pose proof (count_if_nonneg alt_missing (images_of soup)) as M.
    pose proof (count_if_nonneg alt_blank (images_of soup)) as B.
    pose proof (count_if_nonneg alt_with_text (images_of soup)) as T.
    split; [|split; [exact S|]].
    + destruct (alt_coverage_score_bounds
                  (count_if alt_with_text (images_of soup))
                  (len (images_of soup))) as (b & Hb' & R); [lia|lia|].
      rewrite Hb in Hb'. injection Hb' as ->. exact R.
    + intros H32. cbv zeta.
      destruct (Z.eq_dec (count_if alt_with_text (images_of soup)) 0) as [W0|W0].
      * rewrite W0 in Hb |- *.
        assert (E0 : alt_coverage_score 0 (len (images_of soup)) = Ok 0).
        { unfold alt_coverage_score, int_truediv.
          destruct (Z.eqb_spec (len (images_of soup)) 0) as [|_];
            [contradiction|reflexivity]. }
        rewrite E0 in Hb. injection Hb as <-.
        rewrite Z.mul_0_r, Z.div_0_l by lia. split; auto.
      * destruct (alt_coverage_score_floor
                    (count_if alt_with_text (images_of soup))
                    (len (images_of soup))) as (b & Hb' & F1 & F2);
          [lia|exact H32|].
        rewrite Hb in Hb'. injection Hb' as ->. split; assumption.
Qed.

(** The theorem at the four images of the specification's example. *)
Lemma images_score_truncates_coverage_witness :
  exists r : AuditResult,
    _audit_images doc_four_images = Ok r
    /\ (len (images_of doc_four_images) = 0 -> score r = 70)
    /\ (len (images_of doc_four_images) <> 0 ->
        exists base : Z,
          alt_coverage_score (count_if alt_with_text (images_of doc_four_images))
            (len (images_of doc_four_images)) = Ok base
          /\ 0 <= base <= 100
          /\ score r
             = images_penalties base
                 (count_if alt_missing (images_of doc_four_images))
                 (count_if alt_blank (images_of doc_four_images))
          /\ (len (images_of doc_four_images) <= 2 ^ 32 ->
              let exact := 100 * count_if alt_with_text (images_of doc_four_images) in
              (exact mod len (images_of doc_four_images) <> 0 ->
               base = exact / len (images_of doc_four_images))
              /\ (exact mod len (images_of doc_four_images) = 0 ->
                  base = exact / len (images_of doc_four_images)
                  \/ base = exact / len (images_of doc_four_images) - 1))).
Proof.
  apply images_score_truncates_coverage. vm_compute. discriminate.
Defined.

(** The example of the specification: 4 images, 2 without [alt], 1 blank,
    1 proper give 25 - 10 - 5 = 10, on the code and on the specification's
    formula alike. *)
Example images_score_four_images :
  score_of (_audit_images doc_four_images) = Some 10
  /\ spec_images_score doc_four_images = 10.
Proof. split; vm_compute; reflexivity. Qed.

(** C4, as stated, fails: with two images of three carrying text and one
    lacking [alt], round(100 * 2/3) - 10 is 57 and the code returns
    int(66.66...) - 10 = 56. *)
Lemma images_score_three_images_is_truncated :
  spec_images_score doc_three_images = 57
  /\ score_of (_audit_images doc_three_images) = Some 56
  /\ score_of (_audit_images doc_three_images)
     <> Some (spec_images_score doc_three_images).
Proof.
  repeat match goal with |- _ /\ _ => split end;
    try (vm_compute; reflexivity).
  vm_compute. discriminate.
Qed.

(** Truncation is of the binary64 product: 29 images of 100 with text give
    28, since 0.29 * 100 is 28.999999999999996 in binary64. *)
Example alt_coverage_score_29_of_100 : alt_coverage_score 29 100 = Ok 28.
Proof. vm_compute. reflexivity. Qed.

(** ** Every analyzer's score lies in 0..100 *)

Ltac split_ifs :=
  repeat (cbv beta iota zeta;
          match goal with
          | |- context [if ?c then _ else _] => destruct c
          end).

Ltac split_ifs_in H :=
  repeat (cbv beta iota zeta in H;
          match type of H with
          | context [if ?c then _ else _] => destruct c
          end).

Ltac finish_score := cbn [score mkResult]; lia.

Lemma Ok_inj {A} (a b : A) : Ok a = Ok b -> a = b.
Proof. congruence. Qed.

Ltac ok_inj H := apply Ok_inj in H; subst.

Ltac triple_fst H :=
  apply Ok_inj in H; apply (f_equal (fun t => fst (fst t))) in H;
  cbn [fst] in H; subst.

Lemma len_nonneg {A} (l : list A) : 0 <= len l.
Proof. unfold len. lia. Qed.

Lemma title_in_range (soup : Document) : in_range (_audit_title soup).
Proof.
  unfold in_range, _audit_title.
  destruct (find (has_name "title") soup) as [tag|]; [|finish_score].
  split_ifs; finish_score.
Qed.

Lemma meta_description_in_range (soup : Document) :
  in_range (_audit_meta_description soup).
Proof.
  unfold in_range, _audit_meta_description.
  destruct (find _ soup) as [tag|]; [|finish_score].
  split_ifs; finish_score.
Qed.

Lemma headings_in_range (soup : Document) : in_range (_audit_headings soup).
Proof.
  unfold in_range, _audit_headings.
  destruct (find_all (has_name "h1") soup) as [|h1 [|h1' more]];
    destruct (map _ (find_all is_heading soup));
    try destruct (skipped_levels_from _ _);
    split_ifs; finish_score.
Qed.

Lemma images_in_range (soup : Document) (r : AuditResult) :
  _audit_images soup = Ok r -> in_range r.
Proof.
  intros H. unfold in_range.
  destruct (Z.eq_dec (len (images_of soup)) 0) as [Z0|N0].
  - destruct (images_none soup Z0) as (r' & Hr' & S).
    rewrite H in Hr'. injection Hr' as <-. lia.
  - destruct (images_some soup r N0 H) as (base & Hb & ->).
    apply images_penalties_bounds.
    pose proof (alt_classes_partition (images_of soup)) as P.
    pose proof (count_if_nonneg alt_missing (images_of soup)) as M.
    pose proof (count_if_nonneg alt_blank (images_of soup)) as B.
    pose proof (count_if_nonneg alt_with_text (images_of soup)) as T.
    destruct (alt_coverage_score_bounds
                (count_if alt_with_text (images_of soup))
                (len (images_of soup))) as (b & Hb' & R); [lia|lia|].
    rewrite Hb in Hb'. injection Hb' as ->. exact R.
Qed.

Section AnalyzerRanges.

Variable decode_body : list (string * string) -> list Byte.byte -> string.
Variable parse_str : string -> result Document.
Variable urlparse : string -> result ParseResult.
Variable json_loads : string -> result pyval.

Lemma mobile_in_range (soup : Document) (response : Response) :
  in_range (_audit_mobile decode_body soup response).
Proof.
  unfold in_range, _audit_mobile.
  destruct (find _ soup) as [tag|]; split_ifs; finish_score.
Qed.

Lemma ssl_security_in_range (u : string) (response : Response) (r : AuditResult) :
  _audit_ssl_security urlparse u response = Ok r -> in_range r.
Proof.
  unfold in_range, _audit_ssl_security. intros H.
  apply bind_ok in H. destruct H as (parsed & _ & H).
  pose proof (len_nonneg
                (filter (fun hd => negb (header_in (fst hd) (headers response)))
                   security_headers)) as L.
  destruct (filter (fun hd => negb (header_in (fst hd) (headers response)))
              security_headers) eqn:E;
    split_ifs_in H; ok_inj H; finish_score.
Qed.

Lemma performance_in_range (response : Response) (content_length : Z)
  (html_content : string) (r : AuditResult) :
  _audit_performance parse_str response content_length html_content = Ok r ->
  in_range r.
Proof.
  unfold in_range, _audit_performance. intros H.
  apply bind_ok in H. destruct H as (size_kb & _ & H).
  split_ifs_in H;
    (apply bind_ok in H; destruct H as (soup & _ & H));
    split_ifs_in H; ok_inj H; finish_score.
Qed.

Lemma links_in_range (soup : Document) (base_url : string) (r : AuditResult) :
  _audit_links urlparse soup base_url = Ok r -> in_range r.
Proof.
  unfold in_range, _audit_links. intros H.
  destruct (len _ =? 0); [ok_inj H; finish_score|].
  apply bind_ok in H. destruct H as (parsed_base & _ & H).
  apply bind_ok in H. destruct H as ([[internal external] nofollow] & _ & H).
  cbv beta iota zeta in H.
  destruct (len _ <? 3); cbv beta iota zeta in H;
    apply bind_ok in H; destruct H as ([[s f] rec] & Hx & H);
    ok_inj H;
    (destruct (external >? 0);
     [ apply bind_ok in Hx; destruct Hx as (n & _ & Hx);
       destruct (n >? 0); triple_fst Hx; finish_score
     | triple_fst Hx; finish_score ]).
Qed.

Lemma scan_og_tags_found (soup : Document) :
  0 <= len (fst (scan_og_tags soup)) <= 5.
Proof.
  unfold scan_og_tags, og_tags. cbn [fold_left].
  repeat match goal with
         | |- context [og_content soup ?k] => destruct (og_content soup k)
         end;
    cbn; lia.
Qed.

Lemma open_graph_in_range (soup : Document) (r : AuditResult) :
  _audit_open_graph soup = Ok r -> in_range r.
Proof.
  unfold in_range, _audit_open_graph. intros H.
  pose proof (scan_og_tags_found soup) as F.
  destruct (scan_og_tags soup) as [found_tags missing_tags]. cbn [fst] in F.
  apply bind_ok in H. destruct H as (coverage & Hc & H).
  apply bind_ok in H. destruct H as (hundred & Hh & H).
  apply bind_ok in H. destruct H as (s & Hs & H).
  destruct (alt_coverage_score_bounds (len found_tags) (len og_tags))
    as (b & Hb & R); [exact F|reflexivity|].
  unfold alt_coverage_score in Hb. rewrite Hc in Hb. cbn [bind] in Hb.
  rewrite Hh in Hb. cbn [bind] in Hb. rewrite Hs in Hb. injection Hb as ->.
  destruct (find _ soup); ok_inj H; finish_score.
Qed.

Lemma schema_in_range (soup : Document) (r : AuditResult) :
  _audit_schema json_loads soup = Ok r -> in_range r.
Proof.
  unfold in_range, _audit_schema. intros H.
  fold (jsonld_of soup) in H.
  pose proof (len_nonneg (jsonld_of soup)) as L.
  destruct (len (jsonld_of soup) =? 0); [ok_inj H; finish_score|].
  apply bind_ok in H. destruct H as (types & _ & H).
  apply bind_ok in H. destruct H as (fs & _ & H).
  ok_inj H. finish_score.
Qed.

End AnalyzerRanges.

(** ** The analyzers that can raise: when they return *)

Section AnalyzerReturns.

Variable parse_str : string -> result Document.
Variable urlparse : string -> result ParseResult.

(** The Open Graph analyzer always returns. *)
Lemma open_graph_returns (soup : Document) :
  exists r, _audit_open_graph soup = Ok r.
Proof.
  unfold _audit_open_graph.
  pose proof (scan_og_tags_found soup) as F.
  destruct (scan_og_tags soup) as [found_tags missing_tags]. cbn [fst] in F.
  destruct (alt_coverage_score_bounds (len found_tags) (len og_tags))
    as (b & Hb & _); [exact F|reflexivity|].
  unfold alt_coverage_score in Hb.
  apply bind_ok in Hb. destruct Hb as (c & Hc & Hb).
  apply bind_ok in Hb. destruct Hb as (h & Hh & Hb).
  rewrite Hc. cbn [bind]. rewrite Hh. cbn [bind]. rewrite Hb. cbn [bind].
  destruct (find _ soup); eexists; reflexivity.
Qed.

(** [n / 1024] is a finite float for every length [n] of a byte string. *)
Lemma size_kb_finite (n : Z) :
  0 <= n <= sys_maxsize -> exists v, int_truediv n 1024 = Ok (Fin v).
Proof.
  intros H. unfold int_truediv. cbn [Z.eqb].
  destruct (Z.eq_dec n 0) as [->|N]; [eexists; reflexivity|].
  destruct (round_finite (inject_Z n / inject_Z 1024)) as (v & ->).
  - cbn. lia.
  - cbn. unfold sys_maxsize in H.
    assert (2 ^ 63 < 2 ^ 1023) by (apply Z.pow_lt_mono_r; lia). lia.
  - eauto.
Qed.

(** The performance analyzer returns on every body a Python [bytes] can
    hold, when the parser accepts the text. *)
Lemma performance_returns (response : Response) (content_length : Z)
  (html_content : string) (soup : Document) :
  0 <= content_length <= sys_maxsize ->
  parse_str html_content = Ok soup ->
  exists r,
    _audit_performance parse_str response content_length html_content = Ok r.
Proof.
  intros H P. unfold _audit_performance.
  destruct (size_kb_finite content_length H) as (v & ->). cbn [bind].
  rewrite P.
  split_ifs; cbn [bind]; split_ifs; eexists; reflexivity.
Qed.

(** The security analyzer returns whenever the audited URL parses. *)
Lemma ssl_security_returns (u : string) (response : Response) (p : ParseResult) :
  urlparse u = Ok p ->
  exists r, _audit_ssl_security urlparse u response = Ok r.
Proof.
  intros H. unfold _audit_ssl_security. rewrite H. cbn [bind].
  destruct (filter _ security_headers); split_ifs; eexists; reflexivity.
Qed.

Hypothesis urlparse_total : forall s, exists p, urlparse s = Ok p.

Lemma classify_links_returns (base_domain : string) (links : list Tag) :
  forall acc, exists counts, classify_links urlparse base_domain links acc = Ok counts.
Proof.
  induction links as [|link links IH]; intros [[i e] n]; [eexists; reflexivity|].
  cbn [classify_links].
  destruct (is_absolute _).
  - destruct (urlparse_total (get_default link "href" "")) as (p & ->).
    cbn [bind]. destruct (String.eqb _ _); cbn [bind]; apply IH.
  - destruct (negb _); cbn [bind]; apply IH.
Qed.

Lemma count_external_no_rel_returns (base_domain : string) (links : list Tag) :
  exists n, count_external_no_rel urlparse base_domain links = Ok n.
Proof.
  induction links as [|link links (n & IH)]; [eexists; reflexivity|].
  cbn [count_external_no_rel]. rewrite IH.
  destruct (is_absolute _).
  - destruct (urlparse_total (get_default link "href" "")) as (p & ->).
    cbn [bind]. eexists. reflexivity.
  - cbn [bind]. eexists. reflexivity.
Qed.

(** The links analyzer returns whenever [urlparse] accepts every string it
    is given. *)
Lemma links_returns (soup : Document) (base_url : string) :
  exists r, _audit_links urlparse soup base_url = Ok r.
Proof.
  unfold _audit_links.
  destruct (len _ =? 0); [eexists; reflexivity|].
  destruct (urlparse_total base_url) as (pb & ->). cbn [bind].
  destruct (classify_links_returns (netloc pb)
              (find_all (fun t => has_name "a" t && has_attr "href" t) soup)
              (0, 0, 0)) as ([[i e] n] & ->).
  cbn [bind].
  destruct (count_external_no_rel_returns (netloc pb)
              (find_all (fun t => has_name "a" t && has_attr "href" t) soup))
    as (k & Hk).
  destruct (len _ <? 3); cbv beta iota zeta;
    (destruct (e >? 0);
     [ rewrite Hk; cbn [bind]; destruct (k >? 0); cbn [bind]; eexists; reflexivity
     | cbn [bind]; eexists; reflexivity ]).
Qed.

End AnalyzerReturns.

(** The empty document: every analyzer returns, with the scores of the
    absent-feature paths. *)
Example empty_document_scores :
  exists a,
    fst (audit_ex "https://example.com/empty" 0) = Ok a
    /\ scores_of a = [0; 0; 0; 70; 60; 70; 100; 30; 0; 0].
Proof. eexists. split; vm_compute; reflexivity. Qed.

(** C1. For every analyzer of the ten categories and every document,
    response and URL (an empty document, a document of any size, tags
    without attributes), the score of the returned result lies in
    0..100. *)
Theorem analyzer_scores_in_range :
  forall (decode_body : list (string * string) -> list Byte.byte -> string)
         (parse_str : string -> result Document)
         (urlparse : string -> result ParseResult)
         (json_loads : string -> result pyval)
         (soup : Document) (response : Response) (u : string)
         (content_length : Z) (html_content : string),
    in_range (_audit_title soup)
    /\ in_range (_audit_meta_description soup)
    /\ in_range (_audit_headings soup)
    /\ (forall r, _audit_images soup = Ok r -> in_range r)
    /\ in_range (_audit_mobile decode_body soup response)
    /\ (forall r, _audit_ssl_security urlparse u response = Ok r -> in_range r)
    /\ (forall r,
           _audit_performance parse_str response content_length html_content
           = Ok r -> in_range r)
    /\ (forall r, _audit_links urlparse soup u = Ok r -> in_range r)
    /\ (forall r, _audit_open_graph soup = Ok r -> in_range r)
    /\ (forall r, _audit_schema json_loads soup = Ok r -> in_range r).
Proof.
  intros.
  repeat match goal with |- _ /\ _ => split end; try intros r H.
  - apply title_in_range.
  - apply meta_description_in_range.
  - apply headings_in_range.
  - apply (images_in_range soup r H).
  - apply mobile_in_range.
  - apply (ssl_security_in_range urlparse u response r H).
  - apply (performance_in_range parse_str response content_length
             html_content r H).
  - apply (links_in_range urlparse soup u r H).
  - apply (open_graph_in_range soup r H).
  - apply (schema_in_range json_loads soup r H).
Qed.

(** The six analyzers that can raise, on concrete pages: they return
    with scores in range (and the links analyzer raises on the page with
    the broken link). *)
Lemma analyzer_scores_in_range_witness :
  (exists r, _audit_images doc_four_images = Ok r /\ in_range r)
  /\ (exists r,
         _audit_ssl_security urlparse_ex "https://example.com/"
           (response_ex "https://example.com/") = Ok r
         /\ in_range r)
  /\ (exists r,
         _audit_performance parse_str_ex (response_ex "https://example.com/")
           2500000 html_plain = Ok r
         /\ in_range r)
  /\ (exists r,
         _audit_links urlparse_ex doc_bad_href "https://example.com/links"
         = Raise ValueError
         /\ _audit_links urlparse_ex doc_plain "https://example.com/" = Ok r
         /\ in_range r)
  /\ (exists r, _audit_open_graph doc_plain = Ok r /\ in_range r)
  /\ (exists r, _audit_schema json_loads_ex doc_plain = Ok r /\ in_range r).
Proof.
  pose proof (analyzer_scores_in_range decode_ex parse_str_ex
                urlparse_ex json_loads_ex doc_four_images
                (response_ex "https://example.com/")
                "https://example.com/" 2500000 html_plain)
    as (_ & _ & _ & Himg & _ & Hssl & Hperf & _).
  pose proof (analyzer_scores_in_range decode_ex parse_str_ex
                urlparse_ex json_loads_ex doc_plain
                (response_ex "https://example.com/")
                "https://example.com/" 0 "")
    as (_ & _ & _ & _ & _ & _ & _ & Hlinks & Hog & Hschema).
  repeat match goal with |- _ /\ _ => split end.
  - eexists. split; [vm_compute; reflexivity|]. apply Himg. vm_compute. reflexivity.
  - eexists. split; [vm_compute; reflexivity|]. apply Hssl. vm_compute. reflexivity.
  - eexists. split; [vm_compute; reflexivity|]. apply Hperf. vm_compute. reflexivity.
  - eexists. split; [vm_compute; reflexivity|].
    split; [vm_compute; reflexivity|]. apply Hlinks. vm_compute. reflexivity.
  - eexists. split; [vm_compute; reflexivity|]. apply Hog. vm_compute. reflexivity.
  - eexists. split; [vm_compute; reflexivity|]. apply Hschema. vm_compute. reflexivity.
Defined.

(** ** The schema analyzer *)

Section SchemaAnalyzer.

Variable json_loads : string -> result pyval.

(** Without JSON-LD blocks the analyzer returns at once: score 0 and
    exactly two recommendations. *)
Lemma schema_no_blocks (soup : Document) :
  len (jsonld_of soup) = 0 ->
  exists r,
    _audit_schema json_loads soup = Ok r
    /\ score r = 0
    /\ recommendations r
       = [ "Add JSON-LD structured data for better search visibility";
           "Consider Organization, WebSite, or Article schema types" ].
Proof.
  intros H. unfold _audit_schema. fold (jsonld_of soup). rewrite H.
  eexists. split; [reflexivity|]. split; reflexivity.
Qed.

(** A returned result for [k >= 1] blocks has score [min(100, 40 + 20 k)]. *)
Lemma schema_score_of_count (soup : Document) (r : AuditResult) :
  len (jsonld_of soup) <> 0 ->
  _audit_schema json_loads soup = Ok r ->
  score r = Z.min 100 (40 + 20 * len (jsonld_of soup)).
Proof.
  intros N. unfold _audit_schema. fold (jsonld_of soup).
  destruct (Z.eqb_spec (len (jsonld_of soup)) 0) as [|_]; [contradiction|].
  intros H.
  apply bind_ok in H. destruct H as (types & _ & H).
  apply bind_ok in H. destruct H as (fs & _ & H).
  ok_inj H. cbn [score mkResult]. f_equal. lia.
Qed.

(** A block that [json.loads] rejects adds nothing to the type list (an
    empty block is not handed to [json.loads]: it counts as [{}]). *)
Lemma malformed_block_is_swallowed (script : Tag) (s : string) :
  tag_string script = Some s ->
  s <> "" ->
  json_loads s = Raise JSONDecodeError ->
  types_of_script json_loads script = Ok [].
Proof.
  intros Hs Hn Hj. unfold types_of_script. rewrite Hs.
  destruct (String.eqb_spec s ""); [contradiction|]. rewrite Hj. reflexivity.
Qed.

Lemma join_vals_strings (sep : string) (l : list pyval) :
  forallb is_str l = true -> exists s, join_vals sep l = Ok s.
Proof.
  induction l as [|v l IH]; intros H; [eexists; reflexivity|].
  cbn [forallb] in H. apply andb_prop in H. destruct H as [Hv Hl].
  destruct v; try discriminate.
  destruct (IH Hl) as (t & Ht). cbn [join_vals].
  destruct l; [eexists; reflexivity|].
  rewrite Ht. eexists. reflexivity.
Qed.

Lemma join_vals_not_string (sep : string) (l : list pyval) :
  forallb is_str l = false -> join_vals sep l = Raise TypeError.
Proof.
  induction l as [|v l IH]; intros H; [discriminate|].
  cbn [forallb] in H.
  destruct v; try reflexivity.
  cbn [is_str andb] in H. cbn [join_vals].
  destruct l; [discriminate|]. rewrite (IH H). reflexivity.
Qed.

(** The analyzer returns exactly when the blocks are collected and the
    first five collected types are all strings; otherwise the type list
    cannot be joined and [TypeError] escapes. *)
Lemma schema_outcome (soup : Document) (types : list pyval) :
  len (jsonld_of soup) <> 0 ->
  collect_schema_types json_loads (jsonld_of soup) [] = Ok types ->
  (forallb is_str (take 5 types) = true ->
   exists r, _audit_schema json_loads soup = Ok r)
  /\ (forallb is_str (take 5 types) = false ->
      _audit_schema json_loads soup = Raise TypeError).
Proof.
  intros N Hc. unfold _audit_schema. fold (jsonld_of soup).
  destruct (Z.eqb_spec (len (jsonld_of soup)) 0) as [|_]; [contradiction|].
  rewrite Hc. cbn [bind]. split; intros Hs.
  - destruct types as [|t types]; [eexists; reflexivity|].
    destruct (join_vals_strings ", " (take 5 (t :: types)) Hs) as (j & ->).
    eexists. reflexivity.
  - destruct types as [|t types]; [discriminate|].
    rewrite (join_vals_not_string ", " (take 5 (t :: types)) Hs). reflexivity.
Qed.

End SchemaAnalyzer.

(** Two blocks, the first malformed: score 80, the malformed block adds
    no type. *)
Example schema_one_malformed_block :
  exists r,
    _audit_schema json_loads_ex doc_two_blocks = Ok r
    /\ score r = 80
    /\ dict_get "schema_types" (raw_data r) = Some (VList [VStr "WebSite"]).
Proof.
  eexists. split; [vm_compute; reflexivity|].
  split; vm_compute; reflexivity.
Qed.

(** C7, where the code departs from it. The document [doc_person] has
    one JSON-LD block, [{"@type": ["Person", "Organization"]}]; the claim gives it
    score 60, and the analyzer raises [TypeError] when it joins the type
    list, returning no score. *)
Theorem schema_list_valued_type_raises :
  len (jsonld_of doc_person) = 1
  /\ json_loads_ex jsonld_list_type_text
     = Ok (VDict [("@type", VList [VStr "Person"; VStr "Organization"])])
  /\ _audit_schema json_loads_ex doc_person = Raise TypeError.
Proof. repeat match goal with |- _ /\ _ => split end; vm_compute; reflexivity. Qed.

(** ** The orchestrator *)

Section Orchestrator.

Variable decode_body : list (string * string) -> list Byte.byte -> string.
Variable parse_bytes : list Byte.byte -> result Document.
Variable parse_str : string -> result Document.
Variable urlparse : string -> result ParseResult.
Variable json_loads : string -> result pyval.
Variable World : Type.
Variable time_time : World -> PyFloat.float * World.
Variable session_get : string -> World -> result Response * World.

Abbreviation audit' :=
  (audit decode_body parse_bytes parse_str urlparse json_loads World time_time
     session_get).
Abbreviation run' := (run_analyzers decode_body parse_str urlparse json_loads).

(** A transport failure is the failure of the audit. *)
Lemma audit_transport_failure (u : string) (w : World) (e : exn) :
  fst (session_get u (snd (time_time w))) = Raise e ->
  fst (audit' u w) = Raise e.
Proof.
  unfold audit. destruct (time_time w) as [t0 w0]. cbn [snd].
  destruct (session_get u w0) as [fetched w1]. cbn [fst].
  intros ->. reflexivity.
Qed.

(** A status in 400..599 is the failure of the audit. *)
Lemma audit_http_error (u : string) (w : World) (response : Response) :
  fst (session_get u (snd (time_time w))) = Ok response ->
  400 <= status_code response < 600 ->
  fst (audit' u w) = Raise (HTTPError (status_code response)).
Proof.
  unfold audit. destruct (time_time w) as [t0 w0]. cbn [snd].
  destruct (session_get u w0) as [fetched w1]. cbn [fst].
  intros -> H. unfold raise_for_status.
  replace (400 <=? status_code response) with true
    by (symmetry; apply Z.leb_le; lia).
  replace (status_code response <? 600) with true
    by (symmetry; apply Z.ltb_lt; lia).
  reflexivity.
Qed.

(** A returned audit was assembled by [run_analyzers] from the fetched
    response. *)
Lemma audit_ok (u : string) (w : World) (a : WebsiteAudit) :
  fst (audit' u w) = Ok a ->
  exists response soup start_time duration_ms,
    fst (session_get u (snd (time_time w))) = Ok response
    /\ parse_bytes (content response) = Ok soup
    /\ run' u start_time duration_ms response soup
         (text decode_body response) (len (content response)) = Ok a.
Proof.
  unfold audit. destruct (time_time w) as [t0 w0]. cbn [snd].
  destruct (session_get u w0) as [[response|e] w1]; cbn [fst];
    [|discriminate].
  destruct (raise_for_status response); [|discriminate].
  destruct (parse_bytes (content response)) as [soup|e] eqn:P; [|discriminate].
  destruct (time_time w1) as [t1 w2]. cbn [fst].
  intros H. apply bind_ok in H. destruct H as (th & _ & H).
  apply bind_ok in H. destruct H as (d & _ & H).
  exists response, soup, t0, d. split; [reflexivity|]. split; [exact P|exact H].
Qed.

(** The results of the analyses do not depend on the clock, nor on the
    response beyond its headers and its body. *)
Lemma run_analyzers_results (u : string) (t1 t2 : PyFloat.float) (d1 d2 : Z)
  (r1 r2 : Response) (soup : Document) (html : string) (n : Z)
  (a1 a2 : WebsiteAudit) :
  headers r1 = headers r2 ->
  content r1 = content r2 ->
  run' u t1 d1 r1 soup html n = Ok a1 ->
  run' u t2 d2 r2 soup html n = Ok a2 ->
  results_of a1 = results_of a2 /\ url a1 = url a2.
Proof.
  intros Hh Hc H1 H2. unfold run_analyzers in H1, H2.
  assert (Em : _audit_mobile decode_body soup r1 = _audit_mobile decode_body soup r2).
  { unfold _audit_mobile, text. rewrite Hh, Hc. reflexivity. }
  assert (Es : _audit_ssl_security urlparse u r1 = _audit_ssl_security urlparse u r2).
  { unfold _audit_ssl_security. rewrite Hh. reflexivity. }
  assert (Ep : _audit_performance parse_str r1 n html
               = _audit_performance parse_str r2 n html) by reflexivity.
  rewrite Em, Es, Ep in H1.
  apply bind_ok in H1. destruct H1 as (ri & Ei & H1). rewrite Ei in H2.
  apply bind_ok in H1. destruct H1 as (rs & Ess & H1). rewrite Ess in H2.
  apply bind_ok in H1. destruct H1 as (rp & Epp & H1). rewrite Epp in H2.
  apply bind_ok in H1. destruct H1 as (rl & El & H1). rewrite El in H2.
  apply bind_ok in H1. destruct H1 as (ro & Eo & H1). rewrite Eo in H2.
  apply bind_ok in H1. destruct H1 as (rc & Ec & H1). rewrite Ec in H2.
  cbn [bind] in H2. ok_inj H1. ok_inj H2. split; reflexivity.
Qed.

(** Every result of a returned audit has its score in 0..100. *)
Lemma run_analyzers_valid (u : string) (t : PyFloat.float) (d : Z)
  (r : Response) (soup : Document) (html : string) (n : Z) (a : WebsiteAudit) :
  run' u t d r soup html n = Ok a -> Forall in_range (results_of a).
Proof.
  intros H. unfold run_analyzers in H.
  apply bind_ok in H. destruct H as (ri & Ei & H).
  apply bind_ok in H. destruct H as (rs & Es & H).
  apply bind_ok in H. destruct H as (rp & Ep & H).
  apply bind_ok in H. destruct H as (rl & El & H).
  apply bind_ok in H. destruct H as (ro & Eo & H).
  apply bind_ok in H. destruct H as (rc & Ec & H).
  ok_inj H. unfold results_of. cbn.
  repeat apply Forall_cons; try apply Forall_nil.
  - apply title_in_range.
  - apply meta_description_in_range.
  - apply headings_in_range.
  - apply (images_in_range soup ri Ei).
  - apply mobile_in_range.
  - apply (ssl_security_in_range urlparse u r rs Es).
  - apply (performance_in_range parse_str r n html rp Ep).
  - apply (links_in_range urlparse soup u rl El).
  - apply (open_graph_in_range soup ro Eo).
  - apply (schema_in_range json_loads soup rc Ec).
Qed.

Lemma audit_valid_scores (u : string) (w : World) (a : WebsiteAudit) :
  fst (audit' u w) = Ok a ->
  List.length (results_of a) = 10%nat /\ Forall in_range (results_of a).
Proof.
  intros H. split; [reflexivity|].
  destruct (audit_ok u w a H) as (response & soup & t & d & _ & _ & R).
  exact (run_analyzers_valid _ _ _ _ _ _ _ _ R).
Qed.

(** The overall score of a returned audit is the mean of its ten scores,
    rounded to the nearest integer, ties to even. *)
Lemma audit_overall_score (u : string) (w : World) (a : WebsiteAudit) :
  fst (audit' u w) = Ok a ->
  valid_scores a
  /\ get_overall_score a = Ok (rne (sum (scores_of a)) 10).
Proof.
  intros H. destruct (audit_valid_scores u w a H) as (_ & V).
  assert (Hv : valid_scores a).
  { unfold valid_scores, scores_of. unfold results_of in V.
    repeat match goal with
           | H : Forall _ (_ :: _) |- _ => inversion H; subst; clear H
           end.
    repeat (apply Forall_cons; [assumption|]). apply Forall_nil. }
  split; [exact Hv|apply overall_score_of_valid, Hv].
Qed.

End Orchestrator.

(** A plain page is audited to the end: ten results. *)
Example audit_plain_page :
  exists a,
    fst (audit_ex "https://example.com/" 0) = Ok a
    /\ List.length (results_of a) = 10%nat
    /\ duration_ms a = 2000.
Proof. eexists. split; [vm_compute; reflexivity|]. split; reflexivity. Qed.

(** C6, where the code departs from it. The fetch succeeds with status
    200 and the audit still returns no [WebsiteAudit]: on a page whose
    JSON-LD block has a list-valued [@type] the schema analyzer raises
    [TypeError], and on a page with the link [http://[] the links analyzer
    raises [ValueError]; neither is a fetch error. *)
Theorem audit_raises_after_successful_fetch :
  fst (get_ex "https://example.com/person" 0)
  = Ok (response_ex "https://example.com/person")
  /\ raise_for_status (response_ex "https://example.com/person") = Ok tt
  /\ parse_bytes_ex (content (response_ex "https://example.com/person"))
     = Ok doc_person
  /\ fst (audit_ex "https://example.com/person" 0) = Raise TypeError
  /\ fst (audit_ex "https://example.com/links" 0) = Raise ValueError.
Proof. repeat match goal with |- _ /\ _ => split end; vm_compute; reflexivity. Qed.

(** C9. For every URL and every two runs of the audit whose fetches
    return the same headers and the same body bytes, the two audits hold
    the same ten category results (scores, findings, recommendations and
    raw data); the clock readings, hence the timestamp and the duration,
    and the state of the session are free to differ. *)
Theorem audit_results_depend_on_content_only :
  forall (decode_body : list (string * string) -> list Byte.byte -> string)
         (parse_bytes : list Byte.byte -> result Document)
         (parse_str : string -> result Document)
         (urlparse : string -> result ParseResult)
         (json_loads : string -> result pyval)
         (World : Type)
         (time_time : World -> PyFloat.float * World)
         (session_get : string -> World -> result Response * World)
         (u : string) (w1 w2 : World) (r1 r2 : Response)
         (a1 a2 : WebsiteAudit),
    fst (session_get u (snd (time_time w1))) = Ok r1 ->
    fst (session_get u (snd (time_time w2))) = Ok r2 ->
    headers r1 = headers r2 ->
    content r1 = content r2 ->
    fst (audit decode_body parse_bytes parse_str urlparse json_loads World
           time_time session_get u w1) = Ok a1 ->
    fst (audit decode_body parse_bytes parse_str urlparse json_loads World
           time_time session_get u w2) = Ok a2 ->
    results_of a1 = results_of a2 /\ url a1 = url a2.
Proof.
  intros decode_body parse_bytes parse_str urlparse json_loads World time_time
    session_get u w1 w2 r1 r2 a1 a2 F1 F2 Hh Hc A1 A2.
  destruct (audit_ok _ _ _ _ _ _ _ _ u w1 a1 A1)
    as (r1' & s1 & t1 & d1 & F1' & P1 & R1).
  destruct (audit_ok _ _ _ _ _ _ _ _ u w2 a2 A2)
    as (r2' & s2 & t2 & d2 & F2' & P2 & R2).
  rewrite F1 in F1'. apply Ok_inj in F1'. subst r1'.
  rewrite F2 in F2'. apply Ok_inj in F2'. subst r2'.
  rewrite Hc, P2 in P1. apply Ok_inj in P1. subst s2.
  unfold text in R1, R2. rewrite Hh, Hc in R1.
  exact (run_analyzers_results decode_body parse_str urlparse json_loads
           u t1 t2 d1 d2 r1 r2 _ _ _ a1 a2 Hh Hc R1 R2).
Qed.

(** Two runs on the same page, one at time 0 and one at time 1000: the
    timestamps differ, the results do not. *)
Lemma audit_results_depend_on_content_only_witness :
  exists a1 a2 : WebsiteAudit,
    fst (audit_ex "https://example.com/" 0) = Ok a1
    /\ fst (audit_ex "https://example.com/" 1000) = Ok a2
    /\ timestamp a1 = PyFloat.Fin 0
    /\ timestamp a2 = PyFloat.Fin (inject_Z 1000)
    /\ results_of a1 = results_of a2 /\ url a1 = url a2.
Proof.
  eexists. eexists.
  split; [vm_compute; reflexivity|].
  split; [vm_compute; reflexivity|].
  split; [reflexivity|]. split; [reflexivity|].
  apply (audit_results_depend_on_content_only decode_ex parse_bytes_ex
           parse_str_ex urlparse_ex json_loads_ex Z time_ex get_ex
           "https://example.com/" 0 1000 (response_ex "https://example.com/")
           (response_ex "https://example.com/"));
    vm_compute; reflexivity.
Defined.

(** ** The JSON report *)

Lemma as_str_list_map (l : list string) : as_str_list (VList (map VStr l)) = Some l.
Proof.
  unfold as_str_list. induction l as [|s l IH]; [reflexivity|].
  cbn [map fold_right]. rewrite IH. reflexivity.
Qed.

Section ReportFacts.

Variable Rng : Type.
Variable randbelow : Z -> Rng -> Z * Rng.

Lemma category_to_dict_fields (self : Flags) (name : string) (r : AuditResult)
  (g g' : Rng) (d : pyval) :
  _category_to_dict Rng randbelow self name r g = (Ok d, g') ->
  exists extra, d = VDict (category_fields self name r ++ extra)%list.
Proof.
  unfold _category_to_dict.
  destruct (if negb (no_roast self) then _ else _) as [[roast|e] g1];
    [|discriminate].
  intros H. injection H as <- _.
  fold (category_fields self name r).
  destruct (negb (String.eqb roast "")).
  - exists [("roast", VStr roast)]. reflexivity.
  - exists []. unfold category_fields. reflexivity.
Qed.

Lemma categories_to_dict_fields (self : Flags)
  (entries : list (string * string * AuditResult)) :
  forall (g g' : Rng) (ds : list (string * pyval)),
    categories_to_dict Rng randbelow self entries g = (Ok ds, g') ->
    Forall2
      (fun e kd =>
         fst kd = fst (fst e)
         /\ exists extra,
             snd kd
             = VDict (category_fields self (snd (fst e)) (snd e) ++ extra)%list)
      entries ds.
Proof.
  induction entries as [|[[key name] r] entries IH]; intros g g' ds H.
  - cbn in H. injection H as <- _. constructor.
  - cbn [categories_to_dict] in H.
    destruct (_category_to_dict Rng randbelow self name r g) as [[d|e] g1] eqn:E;
      [|discriminate].
    destruct (categories_to_dict Rng randbelow self entries g1) as [[ds'|e] g2] eqn:E';
      [|discriminate].
    injection H as <- _. constructor.
    + split; [reflexivity|]. exact (category_to_dict_fields _ _ _ _ _ _ E).
    + exact (IH _ _ _ E').
Qed.

Lemma read_category_fields (self : Flags) (name : string) (r : AuditResult)
  (extra : list (string * pyval)) :
  read_category (VDict (category_fields self name r ++ extra)%list)
  = Some (score r, findings r,
          if verbose self then recommendations r else []).
Proof.
  unfold read_category, category_fields. cbn [app dict_get String.eqb Ascii.eqb Bool.eqb].
  rewrite !as_str_list_map. reflexivity.
Qed.

(** The document of the report holds, for each of the ten categories,
    the score, the findings and - in verbose mode - the recommendations
    of its result. *)
Lemma report_data_reproduces_category_results :
  forall (self : Flags) (audit : WebsiteAudit) (g g' : Rng) (report : pyval),
    generate Rng randbelow self audit g = (Ok report, g') ->
    forall (key name : string) (r : AuditResult),
      In (key, name, r) (category_entries audit) ->
      parsed_category report key
      = Some (score r, findings r,
              if verbose self then recommendations r else []).
Proof.
  intros self audit g g' report H key name r HIn.
  unfold generate in H.
  destruct (get_overall_score audit) as [overall|e]; [|discriminate].
  destruct (get_grade audit) as [grade|e]; [|discriminate].
  destruct (categories_to_dict Rng randbelow self (category_entries audit) g)
    as [[cats|e] g1] eqn:E; [|discriminate].
  injection H as <- _.
  apply categories_to_dict_fields in E. unfold category_entries in E, HIn.
  repeat match goal with
         | H : Forall2 _ (_ :: _) _ |- _ => inversion H; subst; clear H
         | H : Forall2 _ [] _ |- _ => inversion H; subst; clear H
         end.
  repeat match goal with
         | H : _ /\ _ |- _ => destruct H
         | H : exists _, _ |- _ => destruct H
         end.
  repeat match goal with
         | p : (string * pyval)%type |- _ => destruct p
         end.
  cbn [fst snd] in *. subst.
  unfold parsed_category.
  cbn [dict_get String.eqb Ascii.eqb Bool.eqb].
  cbn [In] in HIn.
  repeat match goal with
         | H : _ \/ _ |- _ => destruct H as [H|H]
         end;
    try contradiction;
    injection HIn as <- <- <-;
    cbn [dict_get String.eqb Ascii.eqb Bool.eqb];
    apply read_category_fields.
Qed.

(** C5, as the code has it. For every audit and every setting of the two
    flags, when the JSON emitter returns a text and [json.loads] gives
    back the document that [json.dumps] was handed, re-parsing the text
    reproduces the score and the findings of each of the ten categories
    exactly; the recommendations are reproduced exactly when [verbose] is
    set, and are serialized as the empty list when it is not. *)
Theorem json_report_reproduces_category_results :
  forall (json_dumps : pyval -> string) (json_loads : string -> result pyval)
         (self : Flags) (audit : WebsiteAudit) (g g' : Rng) (text : string),
    json_generate Rng randbelow json_dumps self audit g = (Ok text, g') ->
    (forall data : pyval,
        fst (generate Rng randbelow self audit g) = Ok data ->
        loads_inverts_dumps json_dumps json_loads data) ->
    exists report : pyval,
      json_loads text = Ok report
      /\ forall (key name : string) (r : AuditResult),
           In (key, name, r) (category_entries audit) ->
           parsed_category report key
           = Some (score r, findings r,
                   if verbose self then recommendations r else []).
Proof.
  intros json_dumps json_loads self audit g g' text H L.
  unfold json_generate in H.
  destruct (generate Rng randbelow self audit g) as [[data|e] g1] eqn:G;
    cbn [bind2] in H; [|discriminate].
  injection H as <- <-.
  exists data. split; [exact (L data eq_refl)|].
  intros key name r HIn.
  exact (report_data_reproduces_category_results self audit g g1 data G
           key name r HIn).
Qed.

Lemma roasts_for_nonempty (s : Z) : Roaster.roasts_for s <> [].
Proof. unfold Roaster.roasts_for. split_ifs; discriminate. Qed.

Hypothesis randbelow_range :
  forall n g, 0 < n -> 0 <= fst (randbelow n g) < n.

Lemma random_choice_returns {A} (seq : list A) (g : Rng) :
  seq <> [] -> exists x g', random_choice Rng randbelow seq g = (Ok x, g').
Proof.
  intros N. unfold random_choice.
  destruct seq as [|x0 seq]; [contradiction|].
  pose proof (randbelow_range (len (x0 :: seq)) g) as R.
  destruct (randbelow (len (x0 :: seq)) g) as [i g1]. cbn [fst] in R.
  assert (L : 0 < len (x0 :: seq)) by (unfold len; cbn [List.length]; lia).
  specialize (R L).
  replace (0 <=? i) with true by (symmetry; apply Z.leb_le; lia).
  destruct (nth_error (x0 :: seq) (Z.to_nat i)) as [x|] eqn:E; [eauto|].
  apply nth_error_None in E. unfold len in R. lia.
Qed.

Lemma category_to_dict_returns (self : Flags) (name : string) (r : AuditResult)
  (g : Rng) :
  exists d g', _category_to_dict Rng randbelow self name r g = (Ok d, g').
Proof.
  unfold _category_to_dict, get_roast.
  destruct (no_roast self); cbn [negb].
  - eexists. eexists. reflexivity.
  - destruct (random_choice_returns (Roaster.roasts_for (score r)) g
                (roasts_for_nonempty (score r))) as (x & g1 & ->).
    eexists. eexists. reflexivity.
Qed.

Lemma categories_to_dict_returns (self : Flags)
  (entries : list (string * string * AuditResult)) :
  forall g, exists ds g', categories_to_dict Rng randbelow self entries g = (Ok ds, g').
Proof.
  induction entries as [|[[key name] r] entries IH]; intros g.
  - eexists. eexists. reflexivity.
  - cbn [categories_to_dict].
    destruct (category_to_dict_returns self name r g) as (d & g1 & ->).
    destruct (IH g1) as (ds & g2 & ->).
    eexists. eexists. reflexivity.
Qed.

(** The emitter returns a report for every audit whose scores lie in
    0..100. *)
Lemma generate_returns (self : Flags) (audit : WebsiteAudit) (g : Rng) :
  valid_scores audit ->
  exists report g', generate Rng randbelow self audit g = (Ok report, g').
Proof.
  intros V. unfold generate, get_grade.
  rewrite (overall_score_of_valid audit V). cbn [bind].
  destruct (categories_to_dict_returns self (category_entries audit) g)
    as (ds & g1 & ->).
  eexists. eexists. reflexivity.
Qed.

End ReportFacts.

(** In verbose mode everything is reproduced: the text of the report of
    [audit_725], written by [json_dumps_ex] and read by [json_read_ex]. *)
Lemma json_report_reproduces_category_results_witness :
  json_generate unit randbelow_ex json_dumps_ex
    {| no_roast := false; verbose := true |} audit_725 tt
  = (Ok report_725_text, tt)
  /\ exists report : pyval,
       json_read_ex report_725_text = Ok report
       /\ parsed_category report "schema"
          = Some (score (schema audit_725), findings (schema audit_725),
                  recommendations (schema audit_725)).
Proof.
  split; [vm_compute; reflexivity|].
  destruct (json_report_reproduces_category_results unit randbelow_ex
              json_dumps_ex json_read_ex
              {| no_roast := false; verbose := true |} audit_725 tt tt
              report_725_text ltac:(vm_compute; reflexivity))
    as (report & R & P).
  - intros data H. vm_compute in H. injection H as <-.
    vm_compute. reflexivity.
  - exists report. split; [exact R|].
    apply (P "schema" "Schema/Structured Data"). cbn. tauto.
Defined.

(** C5, as stated, fails: without [verbose] the two recommendations of the
    schema category of [audit_725] are serialized as the empty list. *)
Lemma json_report_drops_recommendations :
  exists report : pyval,
    generate unit randbelow_ex {| no_roast := true; verbose := false |} audit_725 tt
    = (Ok report, tt)
    /\ parsed_category report "schema"
       = Some (0, ["Found 0 JSON-LD script(s)"; "No structured data found"], [])
    /\ recommendations (schema audit_725)
       = [ "Add JSON-LD structured data for better search visibility";
           "Consider Organization, WebSite, or Article schema types" ]
    /\ parsed_category report "schema"
       <> Some (score (schema audit_725), findings (schema audit_725),
                recommendations (schema audit_725)).
Proof.
  eexists. split; [vm_compute; reflexivity|].
  split; [vm_compute; reflexivity|].
  split; [reflexivity|].
  vm_compute. discriminate.
Qed.

(** * The rest of the code: proofs *)

(** ** More facts on the binary64 model *)

(** Rounding keeps an integer lower bound below [2^53]. *)
Lemma round_ge_int (q : Q) (B : Z) :
  0 < B < 2 ^ 53 -> (inject_Z B <= q)%Q ->
  match round q with
  | Fin v => (inject_Z B <= v)%Q
  | Inf s => s = false
  | NaN => False
  end.
Proof.
  intros HB Hq. unfold round.
  destruct q as [n d]. cbn [Qnum Qden] in *.
  unfold Qle in Hq. cbn [Qnum Qden inject_Z] in Hq.
  assert (Hn : 0 < n) by nia.
  destruct (Z.eqb_spec n 0) as [|_]; [lia|].
  rewrite (Z.abs_eq n) by lia.
  replace (n <? 0) with false by (symmetry; apply Z.ltb_ge; lia).
  pose proof (ilog2_spec n (Zpos d) Hn ltac:(lia)) as [K1 K2]. cbv zeta in K1, K2.
  set (k := ilog2 n (Zpos d)) in *.
  assert (Hk : 0 <= k).
  { destruct (Z.le_gt_cases 0 k) as [|G]; [assumption|exfalso].
    destruct (K2 G) as [_ K].
    assert (1 <= 2 ^ (- k - 1)) by (apply (Z.pow_le_mono_r 2 0); lia). nia. }
  destruct (K1 Hk) as [K _].
  replace (Z.max (k - 52) (-1074)) with (k - 52) by lia.
  set (e := k - 52).
  destruct (Z.leb_spec 0 e) as [E|E]; cbn [andb].
  - pose proof (Z.pow_pos_nonneg 2 e ltac:(lia) ltac:(lia)) as P.
    set (m := rne n (Zpos d * 2 ^ e)).
    assert (M : B <= m * 2 ^ e).
    { destruct (Z.eq_dec e 0) as [E0|E0].
      - assert (B <= m); [|rewrite E0; change (2 ^ 0) with 1; lia].
        unfold m. apply rne_ge; [nia|]. rewrite E0. change (2 ^ 0) with 1. lia.
      - assert (2 ^ 52 <= m).
        { unfold m. apply rne_ge; [nia|].
          replace k with (52 + e) in K by (unfold e; lia).
          rewrite Z.pow_add_r in K by lia. nia. }
        assert (2 <= 2 ^ e) by (apply (Z.pow_le_mono_r 2 1); lia).
        change (2 ^ 53) with (2 ^ 52 * 2) in HB. nia. }
    destruct (2 ^ 1024 <=? m * 2 ^ e); [reflexivity|].
    rewrite dyadic_value.
    replace (0 <=? e) with true by (symmetry; apply Z.leb_le; lia).
    unfold Qle. cbn [Qnum Qden inject_Z]. lia.
  - pose proof (Z.pow_pos_nonneg 2 (- e) ltac:(lia) ltac:(lia)) as P.
    assert (B * 2 ^ (- e) <= rne (n * 2 ^ (- e)) (Zpos d)) by (apply rne_ge; nia).
    rewrite dyadic_value.
    replace (0 <=? e) with false by (symmetry; apply Z.leb_gt; lia).
    unfold Qle. cbn [Qnum Qden inject_Z].
    rewrite Z2Pos.id by lia. lia.
Qed.

(** Rounding of a value that is not positive gives a value that is not
    positive. *)
Lemma round_nonpos (q : Q) :
  Qnum q <= 0 ->
  match round q with
  | Fin v => (v <= 0)%Q
  | Inf s => s = true
  | NaN => False
  end.
Proof.
  intros Hn. unfold round. destruct q as [n d]. cbn [Qnum Qden] in *.
  destruct (Z.eqb_spec n 0) as [|N0]; [apply Qle_refl|].
  replace (n <? 0) with true by (symmetry; apply Z.ltb_lt; lia).
  set (e := Z.max (ilog2 (Z.abs n) (Zpos d) - 52) (-1074)).
  set (m := if 0 <=? e then rne (Z.abs n) (Zpos d * 2 ^ e)
            else rne (Z.abs n * 2 ^ (- e)) (Zpos d)).
  assert (M : 0 <= m).
  { unfold m. destruct (Z.leb_spec 0 e).
    - pose proof (Z.pow_pos_nonneg 2 e ltac:(lia) ltac:(lia)).
      apply rne_ge; nia.
    - pose proof (Z.pow_pos_nonneg 2 (- e) ltac:(lia) ltac:(lia)).
      apply rne_ge; nia. }
  destruct ((0 <=? e) && (2 ^ 1024 <=? m * 2 ^ e)); [reflexivity|].
  rewrite dyadic_value. destruct (Z.leb_spec 0 e).
  - pose proof (Z.pow_pos_nonneg 2 e ltac:(lia) ltac:(lia)).
    unfold Qle. cbn [Qnum Qden inject_Z]. nia.
  - unfold Qle. cbn [Qnum Qden]. lia.
Qed.

(** Rounding stays finite below [2^1023] in absolute value. *)
Lemma round_finite_abs (q : Q) :
  Z.abs (Qnum q) < 2 ^ 1023 * Zpos (Qden q) -> exists v, round q = Fin v.
Proof.
  intros Hq. unfold round. destruct q as [n d]. cbn [Qnum Qden] in *.
  destruct (Z.eqb_spec n 0) as [|N0]; [eexists; reflexivity|].
  assert (Hn : 0 < Z.abs n) by lia.
  pose proof (ilog2_spec (Z.abs n) (Zpos d) Hn ltac:(lia)) as [K1 K2].
  cbv zeta in K1, K2.
  set (k := ilog2 (Z.abs n) (Zpos d)) in *.
  assert (Hk : k <= 1022).
  { destruct (Z.le_gt_cases k 1022) as [|G]; [assumption|exfalso].
    destruct (K1 ltac:(lia)) as [K _].
    assert (2 ^ 1023 <= 2 ^ k) by (apply Z.pow_le_mono_r; lia). nia. }
  set (e := Z.max (k - 52) (-1074)).
  destruct (Z.leb_spec 0 e) as [E|E]; cbn [andb]; [|eexists; reflexivity].
  assert (Ee : e = k - 52) by (unfold e; lia).
  destruct (K1 ltac:(lia)) as [_ K].
  pose proof (Z.pow_pos_nonneg 2 e ltac:(lia) ltac:(lia)) as P.
  assert (M : rne (Z.abs n) (Zpos d * 2 ^ e) <= 2 ^ 53).
  { apply rne_le; [nia|].
    replace (k + 1) with (53 + e) in K by lia.
    rewrite Z.pow_add_r in K by lia. nia. }
  replace (2 ^ 1024 <=? rne (Z.abs n) (Zpos d * 2 ^ e) * 2 ^ e) with false;
    [eexists; reflexivity|].
  symmetry. apply Z.leb_gt.
  assert (2 ^ 53 * 2 ^ e <= 2 ^ 1023).
  { rewrite <- Z.pow_add_r by lia. apply Z.pow_le_mono_r; lia. }
  assert (2 ^ 1023 < 2 ^ 1024) by (apply Z.pow_lt_mono_r; lia).
  nia.
Qed.

(** Rounding keeps a value between zero and an integer below [2^53]
    there. *)
Lemma round_between (q : Q) (B : Z) :
  (0 <= q)%Q -> 0 <= B < 2 ^ 53 -> (q <= inject_Z B)%Q ->
  exists v, round q = Fin v /\ (0 <= v)%Q /\ (v <= inject_Z B)%Q.
Proof.
  intros H0 HB Hq.
  destruct (Z.eq_dec (Qnum q) 0) as [Z0|Z0].
  - exists 0%Q. unfold round. rewrite Z0. cbn.
    split; [reflexivity|]. split; [apply Qle_refl|].
    unfold Qle. cbn. lia.
  - assert (0 < Qnum q).
    { unfold Qle in H0. cbn in H0. lia. }
    assert (0 < B).
    { unfold Qle in Hq. cbn [Qnum Qden inject_Z] in Hq. nia. }
    apply round_le_int; [assumption|lia|assumption].
Qed.

(** The quotient of two integers as a fraction. *)
Lemma int_quotient (a b : Z) :
  b <> 0 ->
  Qnum (inject_Z a / inject_Z b) = a * Z.sgn b
  /\ Zpos (Qden (inject_Z a / inject_Z b)) = Z.abs b.
Proof.
  intros Hb. unfold Qdiv, Qmult, Qinv, inject_Z. cbn [Qnum Qden].
  destruct b as [|p|p]; [congruence| |]; cbn [Qnum Qden Z.sgn Z.abs];
    rewrite ?Pos.mul_1_l; split; lia.
Qed.

(** [float(z)] is exact up to [2^53]. *)
Lemma of_int_between (z : Z) :
  0 <= z < 2 ^ 53 ->
  exists v, of_int z = Ok (Fin v) /\ (0 <= v)%Q /\ (v <= inject_Z z)%Q.
Proof.
  intros Hz. unfold of_int.
  destruct (round_between (inject_Z z) z) as (v & E & V); try lia.
  - unfold Qle. cbn. lia.
  - apply Qle_refl.
  - exists v. rewrite E. split; [reflexivity|exact V].
Qed.

(** ** scores.py: normalisation, descriptions, thresholds *)

Lemma eqb_int (a b : Z) : PyOps.eqb (PyNum.NInt a) (PyNum.NInt b) = (a =? b).
Proof.
  unfold PyOps.eqb, exact, PyFloat.eqb, Qeq_bool, inject_Z. cbn [Qnum Qden].
  rewrite !Z.mul_1_r. reflexivity.
Qed.

(** The quotient of two integers, by the sign of the exact quotient. *)
Lemma int_truediv_cases (a b : Z) :
  b <> 0 -> Z.abs a < 2 ^ 1023 ->
  exists v,
    int_truediv a b = Ok (Fin v)
    /\ (a * Z.sgn b <= 0 -> (v <= 0)%Q)
    /\ (Z.abs b <= a * Z.sgn b -> (1 <= v)%Q)
    /\ (0 <= a * Z.sgn b <= Z.abs b -> (0 <= v)%Q /\ (v <= 1)%Q).
Proof.
  intros Hb Ha. unfold int_truediv.
  destruct (Z.eqb_spec b 0) as [|_]; [contradiction|].
  destruct (int_quotient a b Hb) as [Qn Qd].
  set (q := (inject_Z a / inject_Z b)%Q) in *.
  destruct (round_finite_abs q) as [v E].
  { rewrite Qn, Qd. nia. }
  exists v. rewrite E. split; [reflexivity|].
  repeat split.
  - intros S. pose proof (round_nonpos q) as R. rewrite E in R.
    apply R. rewrite Qn. exact S.
  - intros S. pose proof (round_ge_int q 1) as R. rewrite E in R.
    apply R; [split; [lia|reflexivity]|].
    unfold Qle. cbn [Qnum Qden inject_Z]. rewrite Qn, Qd. lia.
  - destruct (round_between q 1) as (v' & E' & V0 & V1).
    + unfold Qle. cbn [Qnum Qden]. rewrite Qn. lia.
    + split; [lia|reflexivity].
    + unfold Qle. cbn [Qnum Qden inject_Z]. rewrite Qn, Qd. lia.
    + rewrite E in E'. injection E' as <-. exact V0.
  - destruct (round_between q 1) as (v' & E' & V0 & V1).
    + unfold Qle. cbn [Qnum Qden]. rewrite Qn. lia.
    + split; [lia|reflexivity].
    + unfold Qle. cbn [Qnum Qden inject_Z]. rewrite Qn, Qd. lia.
    + rewrite E in E'. injection E' as <-. exact V1.
Qed.

(** [max(0, min(1, x))] on a finite float. *)
Lemma clamp_unit (v : Q) :
  let c := py_max (PyNum.NInt 0) (py_min (PyNum.NInt 1) (PyNum.NFloat (Fin v))) in
  ((v <= 0)%Q -> c = PyNum.NInt 0)
  /\ ((1 <= v)%Q -> c = PyNum.NInt 1)
  /\ (c = PyNum.NInt 0 \/ c = PyNum.NInt 1
      \/ (c = PyNum.NFloat (Fin v) /\ (0 <= v)%Q /\ (v <= 1)%Q)).
Proof.
  cbv zeta. unfold py_max, py_min, PyOps.lt, PyOps.gt, float_lt, exact.
  destruct (Qle_bool (inject_Z 1) v) eqn:L1; cbn [negb].
  - apply Qle_bool_iff in L1.
    replace (Qle_bool (inject_Z 1) (inject_Z 0)) with false by reflexivity.
    cbn [negb]. repeat split; auto.
    intros V0. exfalso. assert (H : (inject_Z 1 <= 0)%Q) by (eapply Qle_trans; eauto).
    unfold Qle in H. cbn in H. lia.
  - assert (V1 : ~ (inject_Z 1 <= v)%Q).
    { intros H. apply Qle_bool_iff in H. congruence. }
    destruct (Qle_bool v (inject_Z 0)) eqn:L0; cbn [negb].
    + repeat split; auto. intros H. contradiction.
    + assert (V0 : ~ (v <= inject_Z 0)%Q).
      { intros H. apply Qle_bool_iff in H. congruence. }
      repeat split.
      * intros H. contradiction.
      * intros H. contradiction.
      * right. right. split; [reflexivity|].
        split; [apply Qlt_le_weak, Qnot_le_lt, V0|apply Qlt_le_weak, Qnot_le_lt, V1].
Qed.

(** X1.  [normalize_score] on integers, at and beyond the ends of the
    range: a value at or below [min_val] gives [target_min], a value at or
    above [max_val] gives [target_max], exactly; and a range of one point
    gives [target_max] whatever the value. *)
Theorem normalize_score_clamps_at_the_ends :
  forall value min_val max_val target_min target_max : Z,
    Z.abs (value - min_val) < 2 ^ 1023 ->
    target_min <= target_max ->
    (min_val = max_val ->
     normalize_score (PyNum.NInt value) (PyNum.NInt min_val) (PyNum.NInt max_val)
       target_min target_max = Ok target_max)
    /\ (min_val < max_val -> value <= min_val ->
        normalize_score (PyNum.NInt value) (PyNum.NInt min_val)
          (PyNum.NInt max_val) target_min target_max = Ok target_min)
    /\ (min_val < max_val -> max_val <= value ->
        normalize_score (PyNum.NInt value) (PyNum.NInt min_val)
          (PyNum.NInt max_val) target_min target_max = Ok target_max).
Proof.
  intros value lo hi tmin tmax Hv Ht. unfold normalize_score.
  rewrite eqb_int. repeat split.
  - intros ->. rewrite Z.eqb_refl. reflexivity.
  - intros L V. replace (hi =? lo) with false by (symmetry; apply Z.eqb_neq; lia).
    cbn [PyOps.sub bind PyNum.truediv].
    destruct (int_truediv_cases (value - lo) (hi - lo)) as (v & E & S & _); [lia|lia|].
    rewrite E. cbn [bind].
    destruct (clamp_unit v) as (C & _). rewrite C.
    + cbn. f_equal. lia.
    + apply S. rewrite Z.sgn_pos by lia. lia.
  - intros L V. replace (hi =? lo) with false by (symmetry; apply Z.eqb_neq; lia).
    cbn [PyOps.sub bind PyNum.truediv].
    destruct (int_truediv_cases (value - lo) (hi - lo)) as (v & E & _ & S & _); [lia|lia|].
    rewrite E. cbn [bind].
    destruct (clamp_unit v) as (_ & C & _). rewrite C.
    + cbn [PyNum.mul PyNum.add bind PyOps.to_int]. f_equal. lia.
    + apply S. rewrite Z.sgn_pos, Z.abs_eq by lia. lia.
Qed.

Lemma normalize_score_clamps_at_the_ends_witness :
  normalize_score (PyNum.NInt (-5)) (PyNum.NInt 0) (PyNum.NInt 10) 0 100 = Ok 0
  /\ normalize_score (PyNum.NInt 12) (PyNum.NInt 0) (PyNum.NInt 10) 0 100 = Ok 100
  /\ normalize_score (PyNum.NInt 3) (PyNum.NInt 7) (PyNum.NInt 7) 0 100 = Ok 100.
Proof.
  assert (B : forall z, Z.abs z < 2 ^ 10 -> Z.abs z < 2 ^ 1023).
  { intros z H. assert (2 ^ 10 < 2 ^ 1023) by (apply Z.pow_lt_mono_r; lia). lia. }
  split; [|split].
  - apply (normalize_score_clamps_at_the_ends (-5) 0 10 0 100); [apply B; cbn|..]; lia.
  - apply (normalize_score_clamps_at_the_ends 12 0 10 0 100); [apply B; cbn|..]; lia.
  - apply (proj1 (normalize_score_clamps_at_the_ends 3 7 7 0 100
                    ltac:(apply B; cbn; lia) ltac:(lia))).
    reflexivity.
Defined.

Lemma Qmult_between (v r : Q) (R : Z) :
  (0 <= v)%Q -> (v <= 1)%Q -> (0 <= r)%Q -> (r <= inject_Z R)%Q ->
  (0 <= v * r)%Q /\ (v * r <= inject_Z R)%Q.
Proof.
  intros V0 V1 R0 R1. split; [apply Qmult_le_0_compat; assumption|].
  apply Qle_trans with (1 * r)%Q.
  - apply Qmult_le_compat_r; assumption.
  - rewrite Qmult_1_l. exact R1.
Qed.

Lemma Qplus_between (p t : Q) (P T : Z) :
  (0 <= p)%Q -> (p <= inject_Z P)%Q -> (0 <= t)%Q -> (t <= inject_Z T)%Q ->
  (0 <= p + t)%Q /\ (p + t <= inject_Z (P + T))%Q.
Proof.
  intros P0 P1 T0 T1. rewrite inject_Z_plus. split.
  - replace 0%Q with (0 + 0)%Q by reflexivity. apply Qplus_le_compat; assumption.
  - apply Qplus_le_compat; assumption.
Qed.

(** X2.  [normalize_score] on integers returns, and returns a score of
    the target range, whenever the distance of the value from [min_val]
    fits a float and the target range lies in [0, 2^53). *)
Theorem normalize_score_in_target_range :
  forall value min_val max_val target_min target_max : Z,
    Z.abs (value - min_val) < 2 ^ 1023 ->
    0 <= target_min <= target_max ->
    target_max < 2 ^ 53 ->
    exists r : Z,
      normalize_score (PyNum.NInt value) (PyNum.NInt min_val)
        (PyNum.NInt max_val) target_min target_max = Ok r
      /\ target_min <= r <= target_max.
Proof.
  intros value lo hi tmin tmax Hv Ht Hm. unfold normalize_score.
  rewrite eqb_int. destruct (Z.eqb_spec hi lo) as [|N].
  { exists tmax. split; [reflexivity|lia]. }
  cbn [PyOps.sub bind PyNum.truediv].
  destruct (int_truediv_cases (value - lo) (hi - lo)) as (v & E & _); [lia|lia|].
  rewrite E. cbn [bind].
  destruct (clamp_unit v) as (_ & _ & [C|[C|(C & V0 & V1)]]); rewrite C.
  - cbn [PyNum.mul PyNum.add bind PyOps.to_int]. eexists. split; [reflexivity|lia].
  - cbn [PyNum.mul PyNum.add bind PyOps.to_int]. eexists. split; [reflexivity|lia].
  - cbn [PyNum.mul PyNum.to_float bind].
    destruct (of_int_between (tmax - tmin)) as (r & Er & R0 & R1); [lia|].
    rewrite Er. cbn [bind PyFloat.mul].
    destruct (Qmult_between v r (tmax - tmin) V0 V1 R0 R1) as [M0 M1].
    destruct (round_between (v * r) (tmax - tmin) M0 ltac:(lia) M1)
      as (p & Ep & P0 & P1).
    rewrite Ep. cbn [PyNum.add PyNum.to_float bind].
    destruct (of_int_between tmin) as (t & Et & T0 & T1); [lia|].
    rewrite Et. cbn [bind PyFloat.add].
    destruct (Qplus_between p t (tmax - tmin) tmin P0 P1 T0 T1) as [S0 S1].
    replace (tmax - tmin + tmin) with tmax in S1 by lia.
    destruct (round_between (p + t) tmax S0 ltac:(lia) S1) as (s & Es & _).
    rewrite Es. cbn [PyOps.to_int PyFloat.to_int bind].
    eexists. split; [reflexivity|lia].
Qed.

Lemma normalize_score_in_target_range_witness :
  exists r : Z,
    normalize_score (PyNum.NInt 29) (PyNum.NInt 0) (PyNum.NInt 100) 0 100 = Ok r
    /\ 0 <= r <= 100.
Proof.
  apply (normalize_score_in_target_range 29 0 100 0 100).
  - assert (2 ^ 10 < 2 ^ 1023) by (apply Z.pow_lt_mono_r; lia). cbn. lia.
  - lia.
  - reflexivity.
Defined.

(** A table checked by computation covers every index below its length. *)
Lemma table_upto (P : Z -> bool) (n : nat) :
  forallb P (map Z.of_nat (seq 0 n)) = true ->
  forall z, 0 <= z < Z.of_nat n -> P z = true.
Proof.
  intros T z Hz. rewrite forallb_forall in T. apply T.
  apply in_map_iff. exists (Z.to_nat z). split; [lia|]. apply in_seq. lia.
Qed.

Lemma normalize_default_table :
  forallb normalize_default_ok (map Z.of_nat (seq 0 101)) = true.
Proof. vm_compute. reflexivity. Qed.

(** X3.  With the default arguments [normalize_score(v, 0, 100)] is not
    the identity on 0..100: it returns [v] except at 29, 57 and 58, where
    the product [v / 100 * 100] falls just below [v] and [int] truncates
    it to [v - 1]. *)
Theorem normalize_score_default_loses_a_point :
  forall v : Z,
    0 <= v <= 100 ->
    normalize_score (PyNum.NInt v) (PyNum.NInt 0) (PyNum.NInt 100) 0 100
    = Ok (if existsb (Z.eqb v) [29; 57; 58] then v - 1 else v).
Proof.
  intros v Hv.
  pose proof (table_upto _ _ normalize_default_table v ltac:(lia)) as T.
  unfold normalize_default_ok, normalize_default, lowered in T.
  destruct (normalize_score _ _ _ _ _) as [r|e]; [|discriminate T].
  f_equal. apply Z.eqb_eq. exact T.
Qed.

Lemma normalize_score_default_loses_a_point_witness :
  normalize_score (PyNum.NInt 29) (PyNum.NInt 0) (PyNum.NInt 100) 0 100 = Ok 28
  /\ normalize_score (PyNum.NInt 30) (PyNum.NInt 0) (PyNum.NInt 100) 0 100 = Ok 30.
Proof.
  split.
  - apply (normalize_score_default_loses_a_point 29). lia.
  - apply (normalize_score_default_loses_a_point 30). lia.
Defined.

(** The sum of a list between the bounds of its items. *)
Lemma sum_from_between (lo hi : Z) (l : list Z) :
  Forall (fun s => lo <= s <= hi) l ->
  forall a, a + lo * len l <= fold_left Z.add l a <= a + hi * len l.
Proof.
  unfold len. induction 1 as [|x l Hx _ IH]; intros a.
  - cbn. lia.
  - cbn [fold_left List.length]. specialize (IH (a + x)).
    rewrite Nat2Z.inj_succ. lia.
Qed.

(** X4.  [calculate_average] returns, and its result lies between any
    bounds that hold for every score of a list that is not empty, for
    bounds in [0, 2^53); the empty list gives 0. *)
Theorem calculate_average_between_bounds :
  forall (scores : list Z) (lo hi : Z),
    scores <> [] ->
    0 <= lo -> hi < 2 ^ 53 ->
    Forall (fun s => lo <= s <= hi) scores ->
    ScoreCalculator.calculate_average [] = Ok 0
    /\ exists r : Z,
         ScoreCalculator.calculate_average scores = Ok r /\ lo <= r <= hi.
Proof.
  intros scores lo hi Hne Hlo Hhi Hall. split; [reflexivity|].
  pose proof (sum_from_between lo hi scores Hall 0) as S.
  change (fold_left Z.add scores 0) with (sum scores) in S.
  assert (Hlen : 0 < len scores).
  { unfold len. destruct scores; [congruence|]. cbn [List.length]. lia. }
  unfold ScoreCalculator.calculate_average.
  destruct scores as [|x rest] eqn:Es; [congruence|]. rewrite <- Es in *.
  clear Es x rest.
  set (s := sum scores) in *. set (n := len scores) in *.
  assert (Hlh : lo <= hi) by nia.
  unfold int_truediv.
  destruct (Z.eqb_spec n 0) as [|_]; [lia|].
  destruct (int_quotient s n ltac:(lia)) as [Qn Qd].
  rewrite Z.sgn_pos, Z.mul_1_r in Qn by lia. rewrite Z.abs_eq in Qd by lia.
  set (q := (inject_Z s / inject_Z n)%Q) in *.
  assert (Q0 : (0 <= q)%Q).
  { unfold Qle. cbn [Qnum Qden]. rewrite Qn. nia. }
  assert (Q1 : (q <= inject_Z hi)%Q).
  { unfold Qle. cbn [Qnum Qden inject_Z]. rewrite Qn, Qd. nia. }
  assert (Q2 : (inject_Z lo <= q)%Q).
  { unfold Qle. cbn [Qnum Qden inject_Z]. rewrite Qn, Qd. nia. }
  destruct (round_between q hi Q0 ltac:(nia) Q1) as (v & E & V0 & V1).
  rewrite E. cbn [bind py_round].
  eexists. split; [reflexivity|].
  unfold Qle in V0, V1. cbn [Qnum Qden inject_Z] in V0, V1.
  split.
  - destruct (Z.eq_dec lo 0) as [->|L0].
    + apply rne_ge; lia.
    + pose proof (round_ge_int q lo ltac:(lia) Q2) as G. rewrite E in G.
      unfold Qle in G. cbn [Qnum Qden inject_Z] in G.
      apply rne_ge; lia.
  - apply rne_le; lia.
Qed.

Lemma calculate_average_between_bounds_witness :
  ScoreCalculator.calculate_average [] = Ok 0
  /\ exists r : Z,
       ScoreCalculator.calculate_average [80; 90; 100] = Ok r /\ 80 <= r <= 100.
Proof.
  apply (calculate_average_between_bounds [80; 90; 100] 80 100).
  - discriminate.
  - lia.
  - reflexivity.
  - repeat (apply Forall_cons; [lia|]). apply Forall_nil.
Defined.

Lemma dict_get_in {A} (k : string) (d : list (string * A)) (v : A) :
  dict_get k d = Some v -> In (k, v) d.
Proof.
  induction d as [|[k' v'] d IH]; cbn; [discriminate|].
  destruct (String.eqb_spec k k') as [->|_].
  - intros [= ->]. left. reflexivity.
  - intros H. right. apply IH, H.
Qed.

Lemma dict_get_not_in {A} (k : string) (d : list (string * A)) :
  ~ In k (map fst d) -> dict_get k d = None.
Proof.
  induction d as [|[k' v'] d IH]; cbn; [reflexivity|].
  intros H. destruct (String.eqb_spec k k') as [->|_].
  - exfalso. apply H. left. reflexivity.
  - apply IH. intros I. apply H. right. exact I.
Qed.

(** X5.  Every grade that [score_to_grade] returns has a description of
    its own in [grade_description]; a string that is not one of the
    thirteen grades is described as "Unknown". *)
Theorem grade_description_covers_the_grades :
  (forall score : Z,
      exists d : string,
        In (ScoreCalculator.score_to_grade score, d) descriptions
        /\ grade_description (ScoreCalculator.score_to_grade score) = d
        /\ d <> "Unknown")
  /\ (forall grade : string,
         ~ In grade (map fst descriptions) ->
         grade_description grade = "Unknown").
Proof.
  split.
  - intros score. unfold ScoreCalculator.score_to_grade.
    repeat match goal with
           | |- context [if ?c then _ else _] => destruct c
           end;
      (eexists; split; [apply dict_get_in; reflexivity|];
       split; [reflexivity|discriminate]).
  - intros grade H. unfold grade_description.
    rewrite (dict_get_not_in _ _ H). reflexivity.
Qed.

Lemma grade_description_covers_the_grades_witness :
  (exists d : string,
      In (ScoreCalculator.score_to_grade 98, d) descriptions
      /\ grade_description (ScoreCalculator.score_to_grade 98) = d
      /\ d <> "Unknown")
  /\ grade_description "E" = "Unknown".
Proof.
  split.
  - apply (proj1 grade_description_covers_the_grades 98).
  - apply (proj2 grade_description_covers_the_grades "E").
    cbn. intros H.
    repeat (destruct H as [H|H]; [discriminate H|]). exact H.
Defined.

(** X6.  [penalty] and [bonus] keep a score of the range in the range,
    and undo each other where neither floor nor ceiling is hit; a penalty
    that would go below the floor gives the floor, also for a score that
    was below it. *)
Theorem penalty_and_bonus_compose :
  forall score amount lo hi : Z,
    0 <= amount ->
    (lo <= score -> lo <= ScoreCalculator.penalty score amount lo <= score)
    /\ (score <= hi -> score <= ScoreCalculator.bonus score amount hi <= hi)
    /\ (lo <= score - amount -> score <= hi ->
        ScoreCalculator.bonus (ScoreCalculator.penalty score amount lo) amount hi
        = score)
    /\ (score + amount <= hi -> lo <= score ->
        ScoreCalculator.penalty (ScoreCalculator.bonus score amount hi) amount lo
        = score)
    /\ (score - amount <= lo -> ScoreCalculator.penalty score amount lo = lo).
Proof.
  intros score amount lo hi Ha.
  unfold ScoreCalculator.penalty, ScoreCalculator.bonus.
  repeat split; intros; lia.
Qed.

Lemma penalty_and_bonus_compose_witness :
  ScoreCalculator.bonus (ScoreCalculator.penalty 70 20 0) 20 100 = 70
  /\ ScoreCalculator.penalty 30 20 40 = 40.
Proof.
  destruct (penalty_and_bonus_compose 70 20 0 100 ltac:(lia)) as (_ & _ & H & _).
  split; [apply H; lia|].
  apply (penalty_and_bonus_compose 30 20 40 100); lia.
Defined.

(** The thresholds [get_threshold] can return. *)
Lemma get_threshold_values (category : string) :
  In (ScoreThresholds.get_threshold category) [90; 75; 60; 40; 20; 0].
Proof.
  unfold ScoreThresholds.get_threshold, ScoreThresholds.thresholds.
  generalize (Str.lower category) as s. intros s. cbn [dict_get].
  repeat match goal with
         | |- context [String.eqb ?a ?b] => destruct (String.eqb a b)
         end; cbn; auto 10.
Qed.

(** X7.  [categorize] and [get_threshold] fit together: the threshold of
    the category of a score that is not negative is the greatest threshold
    at or below the score, and the category of each threshold is the
    category itself - "disaster", which has no threshold, included. *)
Theorem categorize_picks_the_greatest_threshold :
  (forall score : Z,
      0 <= score ->
      ScoreThresholds.get_threshold (ScoreThresholds.categorize score) <= score
      /\ forall category : string,
           ScoreThresholds.get_threshold category <= score ->
           ScoreThresholds.get_threshold category
           <= ScoreThresholds.get_threshold (ScoreThresholds.categorize score))
  /\ Forall
       (fun category =>
          ScoreThresholds.categorize (ScoreThresholds.get_threshold category)
          = category)
       ["excellent"; "good"; "average"; "poor"; "critical"; "disaster"].
Proof.
  split.
  - intros score Hs. unfold ScoreThresholds.categorize.
    unfold ScoreThresholds.EXCELLENT, ScoreThresholds.GOOD,
      ScoreThresholds.AVERAGE, ScoreThresholds.POOR, ScoreThresholds.CRITICAL.
    repeat match goal with
           | |- context [?a >=? ?b] => destruct (Z.geb_spec a b)
           end;
      match goal with
      | |- context [ScoreThresholds.get_threshold ?c] =>
          let v := eval vm_compute in (ScoreThresholds.get_threshold c) in
          change (ScoreThresholds.get_threshold c) with v
      end;
      (split; [lia|]);
      intros category Hc;
      pose proof (get_threshold_values category) as V; cbn [In] in V;
      repeat (destruct V as [V|V]; [rewrite <- V in *; lia|]);
      contradiction.
  - repeat (apply Forall_cons; [reflexivity|]). apply Forall_nil.
Qed.

Lemma categorize_picks_the_greatest_threshold_witness :
  ScoreThresholds.get_threshold (ScoreThresholds.categorize 80) = 75
  /\ ScoreThresholds.get_threshold (ScoreThresholds.categorize 80) <= 80.
Proof.
  split; [reflexivity|].
  apply (proj1 categorize_picks_the_greatest_threshold 80). lia.
Defined.

(** ** roaster.py *)

Lemma randbelow_counter_in_range : randbelow_in_range randbelow_counter.
Proof.
  intros n g Hn. unfold randbelow_counter. cbn [fst].
  apply Z.mod_pos_bound. exact Hn.
Qed.

Lemma forallb_in {A} (p : A -> bool) (l : list A) (x : A) :
  forallb p l = true -> In x l -> p x = true.
Proof. intros H I. rewrite forallb_forall in H. apply H, I. Qed.

Lemma no_empty_roast_in (roasts : list string) (r : string) :
  no_empty_roast roasts = true -> In r roasts -> r <> "".
Proof.
  intros H I. pose proof (forallb_in _ _ _ H I) as E. cbn beta in E.
  intros ->. discriminate E.
Qed.

Lemma roasts_for_no_empty (score : Z) :
  no_empty_roast (Roaster.roasts_for score) = true.
Proof. unfold Roaster.roasts_for. split_ifs; reflexivity. Qed.

Section Choice.

Variable Rng : Type.
Variable randbelow : Z -> Rng -> Z * Rng.
Hypothesis randbelow_range : randbelow_in_range randbelow.

(** [random.choice] of a list that is not empty returns one of its
    items, after one draw. *)
Lemma random_choice_in {A} (seq : list A) (g : Rng) :
  seq <> [] ->
  exists x,
    random_choice Rng randbelow seq g = (Ok x, snd (randbelow (len seq) g))
    /\ In x seq.
Proof.
  intros N. unfold random_choice.
  destruct seq as [|x0 seq]; [contradiction|].
  pose proof (randbelow_range (len (x0 :: seq)) g) as R.
  destruct (randbelow (len (x0 :: seq)) g) as [i g1]. cbn [fst snd] in *.
  assert (L : 0 < len (x0 :: seq)) by (unfold len; cbn [List.length]; lia).
  specialize (R L).
  replace (0 <=? i) with true by (symmetry; apply Z.leb_le; lia).
  destruct (nth_error (x0 :: seq) (Z.to_nat i)) as [x|] eqn:E.
  - exists x. split; [reflexivity|]. eapply nth_error_In, E.
  - apply nth_error_None in E. unfold len in R. lia.
Qed.

End Choice.

(** A roaster that roasts returns a roast of the list of the score. *)
Lemma get_roast_bucket (Rng : Type) (randbelow : Z -> Rng -> Z * Rng)
  (R : randbelow_in_range randbelow) (score : Z) (category : string) (g : Rng) :
  exists r,
    get_roast Rng randbelow false score category g
    = (Ok r, snd (randbelow (len (Roaster.roasts_for score)) g))
    /\ In r (Roaster.roasts_for score)
    /\ r <> "".
Proof.
  unfold get_roast.
  destruct (random_choice_in Rng randbelow R (Roaster.roasts_for score) g
              (roasts_for_nonempty score)) as (r & E & I).
  exists r. repeat split; [exact E|exact I|].
  eapply no_empty_roast_in; [apply roasts_for_no_empty|exact I].
Qed.

(** X8.  [get_roast]: a roaster that roasts returns, after one draw, a
    roast of the list that belongs to the score, which is never the empty
    string; a roaster built with [no_roast] returns the serious comment
    and draws nothing; the category plays no part. *)
Theorem get_roast_draws_from_the_bucket :
  forall (Rng : Type) (randbelow : Z -> Rng -> Z * Rng),
    randbelow_in_range randbelow ->
    forall (score : Z) (category : string) (g : Rng),
      (exists r : string,
          get_roast Rng randbelow false score category g
          = (Ok r, snd (randbelow (len (Roaster.roasts_for score)) g))
          /\ In r (Roaster.roasts_for score)
          /\ r <> "")
      /\ get_roast Rng randbelow true score category g
         = (Ok (Roaster._get_serious_comment score), g)
      /\ get_roast Rng randbelow false score category g
         = get_roast Rng randbelow false score "" g.
Proof.
  intros Rng randbelow R score category g. repeat split.
  apply get_roast_bucket, R.
Qed.

Lemma get_roast_draws_from_the_bucket_witness :
  exists r : string,
    get_roast Z randbelow_counter false 85 "Images" 7 = (Ok r, 8)
    /\ In r Roaster.GOOD_SCORE_ROASTS
    /\ r <> "".
Proof.
  apply (get_roast_draws_from_the_bucket Z randbelow_counter
           randbelow_counter_in_range 85 "Images" 7).
Defined.

Lemma grade_roasts_of_grade (score : Z) :
  exists roasts,
    dict_get (ScoreCalculator.score_to_grade score) GRADE_ROASTS = Some roasts
    /\ List.length roasts = 2%nat
    /\ no_empty_roast roasts = true.
Proof.
  unfold ScoreCalculator.score_to_grade.
  split_ifs; (eexists; split; [reflexivity|split; reflexivity]).
Qed.

(** X9.  [get_overall_roast]: for the grade of any score a roaster that
    roasts returns one of the two roasts registered for that grade; a
    grade that is not registered gets a roast of "F"; a roaster built
    with [no_roast] returns the score and the grade in words and draws
    nothing. *)
Theorem get_overall_roast_of_a_grade :
  forall (Rng : Type) (randbelow : Z -> Rng -> Z * Rng),
    randbelow_in_range randbelow ->
    forall (score overall : Z) (grade : string) (g : Rng),
      (exists roasts r,
          dict_get (ScoreCalculator.score_to_grade score) GRADE_ROASTS
          = Some roasts
          /\ List.length roasts = 2%nat
          /\ get_overall_roast Rng randbelow false
               (ScoreCalculator.score_to_grade score) overall g
             = (Ok r, snd (randbelow 2 g))
          /\ In r roasts /\ r <> "")
      /\ (dict_get grade GRADE_ROASTS = None ->
          exists fallback r,
            dict_get "F" GRADE_ROASTS = Some fallback
            /\ fst (get_overall_roast Rng randbelow false grade overall g) = Ok r
            /\ In r fallback)
      /\ get_overall_roast Rng randbelow true grade overall g
         = (Ok ("Overall Score: " ++ str_of_int overall ++ "/100 (Grade: "
                ++ grade ++ ")"), g).
Proof.
  intros Rng randbelow R score overall grade g. repeat split.
  - destruct (grade_roasts_of_grade score) as (roasts & D & L & NE).
    assert (N : roasts <> []) by (intros ->; discriminate L).
    destruct (random_choice_in Rng randbelow R roasts g N) as (r & E & I).
    exists roasts, r. split; [exact D|]. split; [exact L|].
    unfold get_overall_roast. cbn [dict_get String.eqb Ascii.eqb Bool.eqb].
    rewrite D. replace 2 with (len roasts) by (unfold len; rewrite L; reflexivity).
    repeat split; [exact E|exact I|].
    eapply no_empty_roast_in; [exact NE|exact I].
  - intros D. unfold get_overall_roast. rewrite D.
    match goal with
    | |- context [dict_get "F" GRADE_ROASTS] =>
        let v := eval vm_compute in (dict_get "F" GRADE_ROASTS) in
        change (dict_get "F" GRADE_ROASTS) with v
    end.
    cbv beta iota zeta.
    match goal with
    | |- context [random_choice _ _ ?l _] =>
        destruct (random_choice_in Rng randbelow R l g ltac:(discriminate))
          as (r & E & I)
    end.
    eexists. exists r. split; [reflexivity|]. rewrite E. split; [reflexivity|exact I].
Qed.

Lemma get_overall_roast_of_a_grade_witness :
  exists roasts r,
    dict_get (ScoreCalculator.score_to_grade 72) GRADE_ROASTS = Some roasts
    /\ List.length roasts = 2%nat
    /\ get_overall_roast Z randbelow_counter false
         (ScoreCalculator.score_to_grade 72) 72 5
       = (Ok r, snd (randbelow_counter 2 5))
    /\ In r roasts /\ r <> "".
Proof.
  apply (get_overall_roast_of_a_grade Z randbelow_counter
           randbelow_counter_in_range 72 72 "" 5).
Defined.

(** X10.  [get_category_context]: the key is the category in lower case
    with blanks and slashes turned into underscores, so each of the ten
    keys of the JSON report has a remark for every score below 70; of the
    display names of the reporters, "Title Tag" and "Schema/Structured
    Data" turn into keys that the table does not have and never get a
    remark; there is no remark from 70 on, nor from a roaster built with
    [no_roast]. *)
Theorem get_category_context_by_key :
  (forall score : Z,
      score < 70 ->
      Forall (fun key => get_category_context false key score <> "")
        category_keys)
  /\ (forall score : Z,
         get_category_context false "Title Tag" score = ""
         /\ get_category_context false "Schema/Structured Data" score = "")
  /\ (forall score : Z,
         score < 70 ->
         Forall (fun name => get_category_context false name score <> "")
           [ "Meta Description"; "Headings"; "Images"; "Mobile";
             "SSL/Security"; "Performance"; "Links"; "Open Graph" ])
  /\ (forall (category : string) (score : Z),
         70 <= score -> get_category_context false category score = "")
  /\ (forall (category : string) (score : Z),
         get_category_context true category score = "").
Proof.
  split; [|split; [|split; [|split]]].
  - intros s H. unfold category_keys.
    repeat (apply Forall_cons;
            [unfold get_category_context;
             destruct (Z.ltb_spec s 40); [cbn; discriminate|];
             destruct (Z.ltb_spec s 70); [cbn; discriminate|lia]|]).
    apply Forall_nil.
  - intros s. unfold get_category_context.
    split; (destruct (s <? 40); [reflexivity|]; destruct (s <? 70); reflexivity).
  - intros s H.
    repeat (apply Forall_cons;
            [unfold get_category_context;
             destruct (Z.ltb_spec s 40); [cbn; discriminate|];
             destruct (Z.ltb_spec s 70); [cbn; discriminate|lia]|]).
    apply Forall_nil.
  - intros category s H. unfold get_category_context.
    destruct (Z.ltb_spec s 40); [lia|].
    destruct (Z.ltb_spec s 70); [lia|reflexivity].
  - reflexivity.
Qed.

Lemma get_category_context_by_key_witness :
  get_category_context false "images" 35
  = "Images without alt text are just digital decorations for sighted people. Rude."
  /\ Forall (fun key => get_category_context false key 35 <> "") category_keys
  /\ get_category_context false "Images" 75 = "".
Proof.
  split; [reflexivity|]. split.
  - apply (proj1 get_category_context_by_key 35). lia.
  - apply get_category_context_by_key. lia.
Defined.

(** ** reporter.py *)

(** X11.  [JsonReporter._category_to_dict]: the entry has the six fields
    of the result, always in the same order, and the field "roast" exactly
    when the reporter roasts; that roast is one of the list for the score.
    With [no_roast] there is no comment at all, the serious one is not
    written either, and nothing is drawn. *)
Theorem category_to_dict_roast_key :
  forall (Rng : Type) (randbelow : Z -> Rng -> Z * Rng),
    randbelow_in_range randbelow ->
    forall (self : Flags) (name : string) (r : AuditResult) (g : Rng),
    exists (d : list (string * pyval)) (g' : Rng),
      _category_to_dict Rng randbelow self name r g = (Ok (VDict d), g')
      /\ map fst d
         = ([ "name"; "score"; "max_score"; "findings"; "recommendations";
              "raw_data" ] ++ (if no_roast self then [] else ["roast"]))%list
      /\ (no_roast self = true -> g' = g /\ dict_get "roast" d = None)
      /\ (no_roast self = false ->
          exists roast : string,
            dict_get "roast" d = Some (VStr roast)
            /\ In roast (Roaster.roasts_for (score r))).
Proof.
  intros Rng randbelow R self name r g. unfold _category_to_dict.
  destruct (no_roast self) eqn:N; cbn [negb].
  - cbn [String.eqb negb]. eexists. exists g. split; [reflexivity|].
    split; [reflexivity|]. split; [intros _; split; reflexivity|discriminate].
  - destruct (get_roast_bucket Rng randbelow R (score r) name g) as (roast & E & I & NE).
    rewrite E.
    replace (String.eqb roast "") with false
      by (symmetry; apply String.eqb_neq; exact NE).
    cbn [negb]. eexists. eexists. split; [reflexivity|].
    split; [reflexivity|]. split; [discriminate|].
    intros _. exists roast. split; [reflexivity|exact I].
Qed.

Lemma category_to_dict_roast_key_witness :
  exists (d : list (string * pyval)) (g' : Z),
    _category_to_dict Z randbelow_counter
      {| no_roast := false; verbose := false |} "Images" (mkResult 56 [] [] []) 3
    = (Ok (VDict d), g')
    /\ map fst d
       = [ "name"; "score"; "max_score"; "findings"; "recommendations";
           "raw_data"; "roast" ]
    /\ (false = true -> g' = 3 /\ dict_get "roast" d = None)
    /\ (false = false ->
        exists roast : string,
          dict_get "roast" d = Some (VStr roast)
          /\ In roast (Roaster.roasts_for 56)).
Proof.
  apply (category_to_dict_roast_key Z randbelow_counter randbelow_counter_in_range
           {| no_roast := false; verbose := false |} "Images"
           (mkResult 56 [] [] []) 3).
Defined.

Lemma for_each_category_draws_nothing
  (f : forall Rng : Type, (Z -> Rng -> Z * Rng) ->
       string -> AuditResult -> Rng -> result string * Rng) :
  (forall name result, draws_nothing (fun Rng rb g => f Rng rb name result g)) ->
  forall cats lines,
    draws_nothing (fun Rng rb g => for_each_category Rng (f Rng rb) cats lines g).
Proof.
  intros H cats. induction cats as [|[name result] cats IH]; intros lines.
  - exists (Ok lines). intros. reflexivity.
  - destruct (H name result) as [[block|e] Hb].
    + destruct (IH (append lines block)) as [out Ho].
      exists out. intros Rng rb g. cbn [for_each_category].
      rewrite Hb. cbn [bind2]. apply Ho.
    + exists (Raise e). intros Rng rb g. cbn [for_each_category].
      rewrite Hb. reflexivity.
Qed.

Lemma categories_to_dict_draws_nothing (self : Flags)
  (entries : list (string * string * AuditResult)) :
  no_roast self = true ->
  draws_nothing (fun Rng rb g => categories_to_dict Rng rb self entries g).
Proof.
  intros N. induction entries as [|[[key name] r] entries IH].
  - exists (Ok []). intros. reflexivity.
  - destruct IH as [[ds|e] Hd].
    + eexists. intros Rng rb g. cbn [categories_to_dict].
      unfold _category_to_dict. rewrite N. cbn [negb String.eqb].
      rewrite Hd. reflexivity.
    + eexists. intros Rng rb g. cbn [categories_to_dict].
      unfold _category_to_dict. rewrite N. cbn [negb String.eqb].
      rewrite Hd. reflexivity.
Qed.

(** X12.  With [no_roast] the three reporters draw nothing from the
    random generator: the report is a function of the audit (and of the
    flags) alone, and the state of the generator is left as it was. *)
Theorem no_roast_reports_draw_nothing :
  forall (json_dumps : pyval -> string)
         (_format_timestamp : PyFloat.float -> result string)
         (verbose : bool) (audit : WebsiteAudit),
    draws_nothing
      (fun Rng rb g =>
         json_generate Rng rb json_dumps
           {| no_roast := true; verbose := verbose |} audit g)
    /\ draws_nothing
         (fun Rng rb g =>
            Markdown.generate Rng rb _format_timestamp
              {| no_roast := true; verbose := verbose |} audit g)
    /\ draws_nothing
         (fun Rng rb g =>
            Terminal.generate Rng rb
              {| no_roast := true; verbose := verbose |} audit g).
Proof.
  intros json_dumps stamp v audit.
  set (self := {| no_roast := true; verbose := v |}).
  split; [|split].
  - destruct (categories_to_dict_draws_nothing self (category_entries audit) eq_refl)
      as [out Ho].
    unfold json_generate, generate.
    destruct (get_overall_score audit) as [s|e];
      [|exists (Raise e); intros; reflexivity].
    destruct (get_grade audit) as [gr|e];
      [|exists (Raise e); intros; reflexivity].
    destruct out as [cats|e].
    + eexists. intros Rng rb g. rewrite Ho. reflexivity.
    + eexists. intros Rng rb g. rewrite Ho. reflexivity.
  - unfold Markdown.generate.
    destruct (stamp (timestamp audit)) as [st|e];
      [|exists (Raise e); intros; reflexivity].
    destruct (get_grade audit) as [gr|e];
      [|exists (Raise e); intros; reflexivity].
    destruct (get_overall_score audit) as [s|e];
      [|exists (Raise e); intros; reflexivity].
    unfold get_overall_roast. cbn [no_roast self bind2].
    match goal with
    | |- context [for_each_category _ _ ?cats ?lines _] =>
        destruct (for_each_category_draws_nothing
                    (fun Rng rb => Markdown._format_category_markdown Rng rb self)
                    ltac:(intros name result; eexists; intros; reflexivity)
                    cats lines) as [[ls|e] Ho]
    end.
    + eexists. intros Rng rb g. rewrite Ho. reflexivity.
    + eexists. intros Rng rb g. rewrite Ho. reflexivity.
  - unfold Terminal.generate.
    match goal with
    | |- context [for_each_category _ _ ?cats ?lines _] =>
        destruct (for_each_category_draws_nothing
                    (fun Rng rb => Terminal._format_category Rng rb self)
                    ltac:(intros name result;
                          unfold Terminal._format_category,
                            Terminal._format_category_lines;
                          destruct (Terminal._get_progress_bar _ _);
                          eexists; intros; reflexivity)
                    cats lines) as [[ls|e] Ho]
    end.
    + destruct (get_grade audit) as [gr|e];
        [|eexists; intros Rng rb g; rewrite Ho; reflexivity].
      destruct (get_overall_score audit) as [s|e];
        [|eexists; intros Rng rb g; rewrite Ho; reflexivity].
      eexists. intros Rng rb g. rewrite Ho. reflexivity.
    + eexists. intros Rng rb g. rewrite Ho. reflexivity.
Qed.

Lemma filled_table :
  forallb filled_is_quotient (map Z.of_nat (seq 0 (Z.to_nat 10001))) = true.
Proof. vm_compute. reflexivity. Qed.

(** X13.  [_get_progress_bar]: for a score of 0..100 and a width of
    0..100 the bar has [width * score // 100] filled cells followed by the
    empty cells that make up the width, between the colour of the score
    and the reset; with the width 20 of the reports that is one filled
    cell for every five points. *)
Theorem progress_bar_cells :
  forall score width : Z,
    0 <= score <= 100 ->
    0 <= width <= 100 ->
    Terminal._get_progress_bar score width
    = Ok (Terminal._score_color score
          ++ (str_mul Terminal.bar_char (width * score / 100)
              ++ str_mul Terminal.empty_char (width - width * score / 100))
          ++ Terminal.RESET)
    /\ 0 <= width * score / 100 <= width
    /\ 20 * score / 100 = score / 5.
Proof.
  intros score width Hs Hw.
  assert (Ha : 0 <= width * score <= 10000) by nia.
  pose proof (table_upto _ _ filled_table (width * score) ltac:(lia)) as T.
  unfold filled_is_quotient in T. unfold Terminal._get_progress_bar.
  destruct (int_truediv (width * score) 100) as [ratio|e]; [|discriminate T].
  cbn [bind] in *.
  destruct (to_int ratio) as [filled|e]; [|discriminate T].
  apply Z.eqb_eq in T. subst filled. cbn [bind].
  split; [reflexivity|].
  split.
  - split; [apply Z.div_pos; lia|].
    apply Z.div_le_upper_bound; nia.
  - replace 100 with (20 * 5) by reflexivity.
    apply Z.div_mul_cancel_l; lia.
Qed.

Lemma progress_bar_cells_witness :
  Terminal._get_progress_bar 56 20
  = Ok (Terminal._score_color 56
        ++ (str_mul Terminal.bar_char (20 * 56 / 100)
            ++ str_mul Terminal.empty_char (20 - 20 * 56 / 100))
        ++ Terminal.RESET)
  /\ 0 <= 20 * 56 / 100 <= 20
  /\ 20 * 56 / 100 = 56 / 5.
Proof. apply (progress_bar_cells 56 20); lia. Defined.

Lemma len_app {A} (l1 l2 : list A) : len (l1 ++ l2)%list = len l1 + len l2.
Proof. unfold len. rewrite length_app. lia. Qed.

Lemma len_map {A B} (f : A -> B) (l : list A) : len (map f l) = len l.
Proof. unfold len. rewrite length_map. reflexivity. Qed.

Lemma len_take {A} (n : nat) (l : list A) :
  len (take n l) = Z.min (Z.of_nat n) (len l).
Proof. unfold len, take. rewrite length_firstn. lia. Qed.

Lemma serious_comment_not_empty (score : Z) :
  Roaster._get_serious_comment score <> "".
Proof. unfold Roaster._get_serious_comment. split_ifs; discriminate. Qed.

(** Whatever the mode, [get_roast] returns a comment that is not empty. *)
Lemma get_roast_not_empty (Rng : Type) (randbelow : Z -> Rng -> Z * Rng)
  (R : randbelow_in_range randbelow) (no_roast : bool) (score : Z)
  (category : string) (g : Rng) :
  exists r g',
    get_roast Rng randbelow no_roast score category g = (Ok r, g') /\ r <> "".
Proof.
  destruct no_roast.
  - exists (Roaster._get_serious_comment score), g.
    split; [reflexivity|apply serious_comment_not_empty].
  - destruct (get_roast_bucket Rng randbelow R score category g) as (r & E & _ & N).
    eexists. eexists. split; [exact E|exact N].
Qed.

(** X14.  [TerminalReporter._format_category] for a score of 0..100
    joins the entries of its list [lines] with line breaks: three entries
    for the name, the score and the comment, then at most four findings
    under their heading, then, in verbose mode only, at most three
    recommendations under theirs - never more than twelve entries,
    however long the lists of the result are.  An entry is not always one
    line of the text: the first entry begins with a line break, and a
    finding holds the line breaks it was given. *)
Theorem terminal_category_is_cut_short :
  forall (Rng : Type) (randbelow : Z -> Rng -> Z * Rng),
    randbelow_in_range randbelow ->
    forall (self : Flags) (name : string) (result : AuditResult) (g : Rng),
      0 <= score result <= 100 ->
      exists (lines : list string) (g' : Rng),
        Terminal._format_category_lines Rng randbelow self name result g
        = (Ok lines, g')
        /\ Terminal._format_category Rng randbelow self name result g
           = (Ok (join NL lines), g')
        /\ len lines
           = 3 + block_lines (Some 4%nat) 0 (findings result)
             + (if verbose self
                then block_lines (Some 3%nat) 0 (recommendations result)
                else 0)
        /\ len lines <= 12
        /\ String.prefix NL (hd "" lines) = true.
Proof.
  intros Rng randbelow R self name result g Hs.
  unfold Terminal._format_category, Terminal._format_category_lines.
  destruct (progress_bar_cells (score result) 20 Hs ltac:(lia)) as [-> _].
  destruct (get_roast_not_empty Rng randbelow R (no_roast self) (score result)
              name g) as (roast & g' & -> & NE).
  cbn [bind2].
  replace (String.eqb roast "") with false
    by (symmetry; apply String.eqb_neq; exact NE).
  cbn [negb].
  eexists. exists g'. split; [reflexivity|]. split; [reflexivity|].
  assert (F : forall items : list string,
             0 <= block_lines (Some 4%nat) 0 items <= 5).
  { intros [|x items]; cbn [block_lines]; [lia|].
    pose proof (len_nonneg (x :: items)).
    assert (0 < len (x :: items)) by (unfold len; cbn [List.length]; lia). lia. }
  assert (G : forall items : list string,
             0 <= block_lines (Some 3%nat) 0 items <= 4).
  { intros [|x items]; cbn [block_lines]; [lia|].
    assert (0 < len (x :: items)) by (unfold len; cbn [List.length]; lia). lia. }
  specialize (F (findings result)). specialize (G (recommendations result)).
  assert (E : forall (A : Type) (l : list A) (x : A), len (append l x) = len l + 1).
  { intros A l x. unfold append. rewrite len_app. reflexivity. }
  split.
  - destruct (findings result) as [|f fs] eqn:Ef;
      destruct (verbose self);
      destruct (recommendations result) as [|r rs] eqn:Er;
      cbn [block_lines];
      rewrite ?len_app, ?len_map, ?len_take, ?E, ?len_app, ?len_map, ?len_take, ?E;
      unfold len; cbn [List.length]; lia.
  - split.
    + destruct (findings result) as [|f fs] eqn:Ef;
        destruct (verbose self);
        destruct (recommendations result) as [|r rs] eqn:Er;
        rewrite ?len_app, ?len_map, ?len_take, ?E, ?len_app, ?len_map, ?len_take, ?E;
        unfold len; cbn [List.length]; lia.
    + destruct (findings result) as [|f fs] eqn:Ef;
        destruct (verbose self);
        destruct (recommendations result) as [|r rs] eqn:Er;
        reflexivity.
Qed.

Lemma terminal_category_is_cut_short_witness :
  exists (lines : list string) (g' : Z),
    Terminal._format_category_lines Z randbelow_counter
      {| no_roast := false; verbose := true |} "Title Tag"
      (mkResult 80 ["a"; "b"; "c"; "d"; "e"; "f"] ["r"; "s"; "t"; "u"] []) 0
    = (Ok lines, g')
    /\ Terminal._format_category Z randbelow_counter
         {| no_roast := false; verbose := true |} "Title Tag"
         (mkResult 80 ["a"; "b"; "c"; "d"; "e"; "f"] ["r"; "s"; "t"; "u"] []) 0
       = (Ok (join NL lines), g')
    /\ len lines = 3 + 5 + 4
    /\ len lines <= 12
    /\ String.prefix NL (hd "" lines) = true.
Proof.
  apply (terminal_category_is_cut_short Z randbelow_counter
           randbelow_counter_in_range
           {| no_roast := false; verbose := true |} "Title Tag"
           (mkResult 80 ["a"; "b"; "c"; "d"; "e"; "f"] ["r"; "s"; "t"; "u"] []) 0).
  cbn. lia.
Defined.

(** X15.  The letter of the summary table of the Markdown report,
    [_score_to_mini_grade], is never better than the letter of
    [score_to_grade] for the same score: it is the same letter, except
    for the scores 60..64, 70..74, 80..84 and 90..92, where it is the
    letter below. *)
Theorem mini_grade_is_at_most_the_grade :
  forall score : Z,
    letter_rank (Markdown._score_to_mini_grade score)
    = letter_rank (ScoreCalculator.score_to_grade score)
      - (if lower_mini_grade score then 1 else 0).
Proof.
  intros score.
  unfold Markdown._score_to_mini_grade, ScoreCalculator.score_to_grade,
    lower_mini_grade.
  repeat match goal with
         | |- context [?a >=? ?b] => destruct (Z.geb_spec a b); try lia
         end;
    repeat match goal with
           | |- context [?a <=? ?b] => destruct (Z.leb_spec a b); try lia
           end;
    reflexivity.
Qed.

(** X16.  [MarkdownReporter._format_category_markdown] lists every
    finding, and in verbose mode every recommendation, as a bullet of its
    own: nothing is cut, and without [verbose] no recommendation is
    written. *)
Theorem markdown_category_lists_everything :
  forall (Rng : Type) (randbelow : Z -> Rng -> Z * Rng),
    randbelow_in_range randbelow ->
    forall (self : Flags) (name : string) (result : AuditResult) (g : Rng),
    exists (lines : list string) (g' : Rng),
      Markdown._format_category_markdown_lines Rng randbelow self name result g
      = (Ok lines, g')
      /\ Forall (fun finding => In ("- " ++ finding) lines) (findings result)
      /\ (verbose self = true ->
          Forall (fun rec => In ("- " ++ rec) lines) (recommendations result))
      /\ len lines
         = 4 + block_lines None 1 (findings result)
           + (if verbose self
              then block_lines None 1 (recommendations result)
              else 0).
Proof.
  intros Rng randbelow R self name result g.
  unfold Markdown._format_category_markdown_lines.
  destruct (get_roast_not_empty Rng randbelow R (no_roast self) (score result)
              name g) as (roast & g' & -> & NE).
  cbn [bind2]. eexists. exists g'. split; [reflexivity|].
  assert (E : forall (A : Type) (l : list A) (x : A), len (append l x) = len l + 1).
  { intros A l x. unfold append. rewrite len_app. reflexivity. }
  assert (I : forall (items lines : list string),
             (forall x, In x items -> In ("- " ++ x) lines) ->
             Forall (fun x => In ("- " ++ x) lines) items).
  { intros items lines H. apply Forall_forall, H. }
  split; [|split].
  - destruct (findings result) as [|f fs] eqn:Ef; [apply Forall_nil|].
    destruct (verbose self); destruct (recommendations result) as [|r rs];
      unfold append; rewrite <- ?app_assoc;
      apply I; intros x Hx;
      repeat (apply in_or_app;
              first [ solve [left; apply in_map_iff; exists x;
                             split; [reflexivity|exact Hx]]
                    | right ]).
  - intros V. rewrite V.
    destruct (recommendations result) as [|r rs] eqn:Er; [apply Forall_nil|].
    destruct (findings result) as [|f fs];
      unfold append; rewrite <- ?app_assoc;
      apply I; intros x Hx;
      repeat (apply in_or_app;
              first [ solve [left; apply in_map_iff; exists x;
                             split; [reflexivity|exact Hx]]
                    | right ]).
  - destruct (findings result) as [|f fs] eqn:Ef;
      destruct (verbose self);
      destruct (recommendations result) as [|r rs] eqn:Er;
      cbn [block_lines];
      rewrite ?E, ?len_app, ?len_map, ?E, ?len_app, ?len_map, ?E;
      unfold len; cbn [List.length]; lia.
Qed.

Lemma markdown_category_lists_everything_witness :
  exists (lines : list string) (g' : Z),
    Markdown._format_category_markdown_lines Z randbelow_counter
      {| no_roast := false; verbose := false |} "Links"
      (mkResult 70 ["a"; "b"; "c"; "d"; "e"; "f"] ["r"] []) 0
    = (Ok lines, g')
    /\ Forall (fun finding => In ("- " ++ finding) lines)
         ["a"; "b"; "c"; "d"; "e"; "f"]
    /\ (false = true -> Forall (fun rec => In ("- " ++ rec) lines) ["r"])
    /\ len lines = 4 + 8 + 0.
Proof.
  apply (markdown_category_lists_everything Z randbelow_counter
           randbelow_counter_in_range
           {| no_roast := false; verbose := false |} "Links"
           (mkResult 70 ["a"; "b"; "c"; "d"; "e"; "f"] ["r"] []) 0).
Defined.

(** ** cli.py *)

Lemma prefix_app (a b s : string) :
  String.prefix (a ++ b) s = true -> String.prefix a s = true.
Proof.
  revert s. induction a as [|c a IH]; intros s; [destruct s; reflexivity|].
  destruct s as [|c' s]; cbn; [discriminate|].
  destruct (Ascii.ascii_dec c c'); [apply IH|discriminate].
Qed.

Lemma with_scheme_starts_with_http (url : string) :
  Str.startswith_any (with_scheme url) ["http://"; "https://"] = true
  /\ Str.startswith (with_scheme url) "http" = true.
Proof.
  unfold with_scheme.
  destruct (Str.startswith_any url ["http://"; "https://"]) eqn:E.
  - split; [exact E|].
    unfold Str.startswith_any, Str.startswith in *. cbn [existsb] in E.
    apply orb_true_iff in E. destruct E as [E|E].
    + apply (prefix_app "http" "://"), E.
    + rewrite orb_false_r in E. apply (prefix_app "http" "s://"), E.
  - split; destruct url; reflexivity.
Qed.

Lemma with_scheme_keeps_the_dots (url : string) :
  Str.contains "." (with_scheme url) = Str.contains "." url.
Proof.
  unfold with_scheme.
  destruct (Str.startswith_any url ["http://"; "https://"]); reflexivity.
Qed.

Lemma validate_url_spec (url : string) (con : Cli.Console) :
  Cli.validate_url url con
  = (if Str.contains "." url
     then (Cli.Returned (with_scheme url), con)
     else (Cli.Exited 1,
           Cli.eprint "Please provide a valid URL (e.g., https://example.com)"
             (Cli.eprint ("Error: Invalid URL '" ++ with_scheme url ++ "'") con))).
Proof.
  assert (W : (if negb (Str.startswith_any url ["http://"; "https://"])
               then "https://" ++ url else url) = with_scheme url).
  { unfold with_scheme.
    destruct (Str.startswith_any url ["http://"; "https://"]); reflexivity. }
  unfold Cli.validate_url. cbv zeta. rewrite W.
  destruct (with_scheme_starts_with_http url) as [_ ->].
  rewrite with_scheme_keeps_the_dots. cbn [negb orb].
  destruct (Str.contains "." url); reflexivity.
Qed.

(** X17.  [validate_url] accepts exactly the URLs that hold a dot: the
    test on the prefix "http" cannot fail once the scheme is in place.  An
    accepted URL is returned as it is when it starts with "http://" or
    "https://" and with "https://" in front of it otherwise, and nothing
    is printed; a URL without a dot ends the process with status 1 after
    two lines on the error stream.  Validating twice changes nothing, and
    a URL of another scheme is accepted with "https://" in front. *)
Theorem validate_url_accepts_what_has_a_dot :
  forall (url : string) (con : Cli.Console),
    Cli.validate_url url con
    = (if Str.contains "." url
       then (Cli.Returned (with_scheme url), con)
       else (Cli.Exited 1,
             Cli.eprint "Please provide a valid URL (e.g., https://example.com)"
               (Cli.eprint ("Error: Invalid URL '" ++ with_scheme url ++ "'") con)))
    /\ with_scheme (with_scheme url) = with_scheme url
    /\ Cli.validate_url "ftp://example.com" con
       = (Cli.Returned "https://ftp://example.com", con).
Proof.
  intros url con. split; [apply validate_url_spec|split; [|reflexivity]].
  destruct (with_scheme_starts_with_http url) as [E _].
  unfold with_scheme at 1. rewrite E. reflexivity.
Qed.

Lemma list_ascii_app (a b : string) :
  list_ascii_of_string (a ++ b)
  = (list_ascii_of_string a ++ list_ascii_of_string b)%list.
Proof. induction a as [|c a IH]; cbn; [reflexivity|]. rewrite IH. reflexivity. Qed.

Lemma string_of_list_app (l1 l2 : list ascii) :
  string_of_list_ascii (l1 ++ l2)%list
  = string_of_list_ascii l1 ++ string_of_list_ascii l2.
Proof. induction l1 as [|c l IH]; cbn; [reflexivity|]. rewrite IH. reflexivity. Qed.

Lemma reverse_app (a b : string) :
  Str.reverse (a ++ b) = Str.reverse b ++ Str.reverse a.
Proof.
  unfold Str.reverse. rewrite list_ascii_app, rev_app_distr.
  apply string_of_list_app.
Qed.

Lemma lower_app (a b : string) : Str.lower (a ++ b) = Str.lower a ++ Str.lower b.
Proof. induction a as [|c a IH]; cbn; [reflexivity|]. rewrite IH. reflexivity. Qed.

Lemma app_not_empty (a b : string) : b <> "" -> String.eqb (a ++ b) "" = false.
Proof.
  intros H. destruct a; cbn; [|reflexivity].
  destruct b; [contradiction|reflexivity].
Qed.

(** [detect_output_format] on a path whose lowered form ends in [ext]. *)
Lemma detect_by_extension (p e ext : string) :
  Str.lower e = ext -> ext <> "" ->
  Cli.detect_output_format (Some (p ++ e))
  = if String.prefix (Str.reverse ".json") (Str.reverse ext ++ Str.reverse (Str.lower p))
    then Some "json"
    else if String.prefix (Str.reverse ".md") (Str.reverse ext ++ Str.reverse (Str.lower p))
            || (String.prefix (Str.reverse ".markdown")
                  (Str.reverse ext ++ Str.reverse (Str.lower p)) || false)
    then Some "markdown"
    else None.
Proof.
  intros L N. unfold Cli.detect_output_format.
  rewrite app_not_empty.
  2:{ intros ->. cbn in L. congruence. }
  unfold endswith_any, endswith. cbn [existsb].
  rewrite lower_app, L, reverse_app. reflexivity.
Qed.

Lemma detect_values (output_path : option string) :
  Cli.detect_output_format output_path = None
  \/ Cli.detect_output_format output_path = Some "json"
  \/ Cli.detect_output_format output_path = Some "markdown".
Proof.
  destruct output_path as [p|]; [|left; reflexivity].
  unfold Cli.detect_output_format.
  destruct (String.eqb p ""); [left; reflexivity|].
  destruct (endswith _ _); [right; left; reflexivity|].
  destruct (endswith_any _ _); [right; right; reflexivity|left; reflexivity].
Qed.

(** X18.  [detect_output_format] goes by the end of the path, whatever
    the case of its letters: ".json" gives "json", ".md" and ".markdown"
    give "markdown" (not "md"); no path and the empty path give nothing,
    and no other answer exists. *)
Theorem detect_output_format_by_extension :
  (forall p e : string,
      Str.lower e = ".json" ->
      Cli.detect_output_format (Some (p ++ e)) = Some "json")
  /\ (forall p e : string,
         Str.lower e = ".md" \/ Str.lower e = ".markdown" ->
         Cli.detect_output_format (Some (p ++ e)) = Some "markdown")
  /\ (forall output_path : option string,
         In (Cli.detect_output_format output_path)
           [None; Some "json"; Some "markdown"])
  /\ Cli.detect_output_format None = None
  /\ Cli.detect_output_format (Some "") = None.
Proof.
  repeat split.
  - intros p e L. rewrite (detect_by_extension p e ".json" L ltac:(discriminate)).
    destruct (Str.reverse (Str.lower p)); reflexivity.
  - intros p e [L|L].
    + rewrite (detect_by_extension p e ".md" L ltac:(discriminate)).
      destruct (Str.reverse (Str.lower p)); reflexivity.
    + rewrite (detect_by_extension p e ".markdown" L ltac:(discriminate)).
      destruct (Str.reverse (Str.lower p)); reflexivity.
  - intros o. destruct (detect_values o) as [->|[->| ->]]; cbn; auto.
Qed.

Lemma detect_output_format_by_extension_witness :
  Cli.detect_output_format (Some ("report" ++ ".JSON")) = Some "json"
  /\ Cli.detect_output_format (Some ("notes.json" ++ ".Md")) = Some "markdown".
Proof.
  split.
  - apply (proj1 detect_output_format_by_extension "report" ".JSON"). reflexivity.
  - apply detect_output_format_by_extension. left. reflexivity.
Defined.

Section MainFacts.

Variable decode_body : list (string * string) -> list Byte.byte -> string.
Variable parse_bytes : list Byte.byte -> result Document.
Variable parse_str : string -> result Document.
Variable urlparse : string -> result ParseResult.
Variable json_loads : string -> result pyval.
Variable _format_timestamp : PyFloat.float -> result string.
Variable json_dumps : pyval -> string.
Variable World : Type.
Variable time_time : World -> PyFloat.float * World.
Variable session_get : Z -> string -> string -> World -> result Response * World.
Variable randbelow : Z -> World -> Z * World.
Variable write_file : string -> string -> World -> result unit * World.
Variable str_exn : exn -> string.

Abbreviation main' :=
  (Cli.main decode_body parse_bytes parse_str urlparse json_loads
     _format_timestamp json_dumps World time_time session_get randbelow
     write_file str_exn).

(** The audit [main] runs, and the report of each kind. *)
Abbreviation audit_of args :=
  (audit decode_body parse_bytes parse_str urlparse json_loads World time_time
     (session_get (Cli.args_timeout args) (Cli.args_user_agent args))
     (with_scheme (Cli.args_url args))).

Abbreviation report_of kind args :=
  (match kind with
   | JsonReport => json_generate World randbelow json_dumps
   | MarkdownReport => Markdown.generate World randbelow _format_timestamp
   | TerminalReport => Terminal.generate World randbelow
   end
     {| no_roast := Cli.args_no_roast args; verbose := Cli.args_verbose args |}).

(** X19.  [main] on a URL without a dot: the process ends with status 1
    after the two lines of [validate_url] on the error stream; the world
    is as it was - no request is sent, nothing is written. *)
Theorem main_rejects_a_url_without_a_dot :
  forall (args : Cli.Args) (w : World) (con : Cli.Console),
    Str.contains "." (Cli.args_url args) = false ->
    main' args w con
    = (Cli.Exited 1, w,
       Cli.eprint "Please provide a valid URL (e.g., https://example.com)"
         (Cli.eprint
            ("Error: Invalid URL '" ++ with_scheme (Cli.args_url args) ++ "'")
            con)).
Proof.
  intros args w con H. unfold Cli.main.
  rewrite validate_url_spec, H. reflexivity.
Qed.

(** X20.  [main] when the audit raises: an exception of the class
    [Exception] - an error of the fetch as well as a [TypeError] or a
    [ValueError] of an analyzer - is reported in one line on the error
    stream and [main] returns 1; so does an interrupt from the keyboard.
    Nothing goes to the standard output, no reporter runs and no file is
    written: the world is as the audit left it. *)
Theorem main_returns_1_when_the_audit_raises :
  forall (args : Cli.Args) (w w1 : World) (con : Cli.Console) (e : exn),
    Str.contains "." (Cli.args_url args) = true ->
    audit_of args w = (Raise e, w1) ->
    (Cli.is_exception e = true ->
     main' args w con
     = (Cli.Returned 1, w1,
        Cli.eprint (NL ++ "💥 Audit failed: " ++ str_exn e) con))
    /\ (Cli.is_keyboard_interrupt e = true ->
        main' args w con
        = (Cli.Returned 1, w1,
           Cli.eprint (NL ++ NL ++ "🛑 Audit interrupted by user.") con)).
Proof.
  intros args w w1 con e H A. unfold Cli.main.
  rewrite validate_url_spec, H.
  destruct (Cli.detect_output_format (Cli.args_output args)) as [f|];
    [destruct (String.eqb f "json"); [|destruct (String.eqb f "markdown")]|];
    rewrite A; split; intros C.
  all: try (rewrite C; reflexivity).
  all: destruct (Cli.is_keyboard_interrupt e) eqn:K; [|rewrite C; reflexivity].
  all: exfalso; destruct e; try discriminate K; cbn in K, C;
    apply String.eqb_eq in K; subst; discriminate C.
Qed.

(** [main] from the result of the audit on. *)
Lemma main_after_audit (args : Cli.Args) (w w1 : World) (con : Cli.Console)
  (results : WebsiteAudit) :
  Str.contains "." (Cli.args_url args) = true ->
  audit_of args w = (Ok results, w1) ->
  main' args w con
  = (let '(output, w) := report_of (chosen_reporter args) args results w1 in
     match output with
     | Raise e => (Cli.Uncaught e, w, con)
     | Ok output =>
         match Cli.args_output args with
         | Some path =>
             if String.eqb path "" then (Cli.Returned 0, w, Cli.print output con)
             else
               let '(written, w) := write_file path output w in
               match written with
               | Raise e => (Cli.Uncaught e, w, con)
               | Ok _ =>
                   (Cli.Returned 0, w,
                    Cli.print ("✅ Report saved to: " ++ path) con)
               end
         | None => (Cli.Returned 0, w, Cli.print output con)
         end
     end).
Proof.
  intros H A. unfold Cli.main, chosen_reporter, is_some_eq.
  rewrite validate_url_spec, H.
  generalize (json_generate World randbelow json_dumps),
    (Markdown.generate World randbelow _format_timestamp),
    (Terminal.generate World randbelow).
  intros J M T.
  destruct (detect_values (Cli.args_output args)) as [->|[->| ->]];
    cbn [String.eqb Ascii.eqb Bool.eqb];
    rewrite A;
    destruct (Cli.args_json args), (Cli.args_markdown args); reflexivity.
Qed.

(** X21.  [main] when the audit succeeds: the reporter is the JSON one
    if [--json] is set or the output path ends in ".json", else the
    Markdown one if [--markdown] is set or the path ends in ".md" or
    ".markdown", else the terminal one - so [--json] wins over
    [--markdown] and over the extension of the path.  The text of that
    reporter is printed when there is no output path (or an empty one);
    otherwise it is written to the path and one line tells so; [main]
    returns 0.  An error of the reporter or of the writing is not caught. *)
Theorem main_delivers_the_chosen_report :
  forall (args : Cli.Args) (w w1 w2 : World) (con : Cli.Console)
         (results : WebsiteAudit) (text : string),
    Str.contains "." (Cli.args_url args) = true ->
    audit_of args w = (Ok results, w1) ->
    report_of (chosen_reporter args) args results w1 = (Ok text, w2) ->
    (Cli.args_output args = None \/ Cli.args_output args = Some "" ->
     main' args w con = (Cli.Returned 0, w2, Cli.print text con))
    /\ (forall path w3,
           Cli.args_output args = Some path -> path <> "" ->
           write_file path text w2 = (Ok tt, w3) ->
           main' args w con
           = (Cli.Returned 0, w3, Cli.print ("✅ Report saved to: " ++ path) con))
    /\ (forall path w3 e,
           Cli.args_output args = Some path -> path <> "" ->
           write_file path text w2 = (Raise e, w3) ->
           main' args w con = (Cli.Uncaught e, w3, con)).
Proof.
  intros args w w1 w2 con results text H A G.
  rewrite (main_after_audit args w w1 con results H A), G.
  repeat split.
  - intros [O|O]; rewrite O; reflexivity.
  - intros path w3 O N Wr. rewrite O.
    replace (String.eqb path "") with false
      by (symmetry; apply String.eqb_neq; exact N).
    rewrite Wr. reflexivity.
  - intros path w3 e O N Wr. rewrite O.
    replace (String.eqb path "") with false
      by (symmetry; apply String.eqb_neq; exact N).
    rewrite Wr. reflexivity.
Qed.

End MainFacts.

Lemma main_rejects_a_url_without_a_dot_witness :
  main_ex (args_ex "localhost" false None) world0 console0
  = (Cli.Exited 1, world0,
     {| Cli.stdout := [];
        Cli.stderr :=
          [ "Error: Invalid URL 'https://localhost'";
            "Please provide a valid URL (e.g., https://example.com)" ] |}).
Proof.
  apply (main_rejects_a_url_without_a_dot decode_ex parse_bytes_ex parse_str_ex
           urlparse_ex json_loads_ex format_timestamp_ex json_dumps_ex world_ex
           time_w get_w randbelow_w write_file_w str_exn_ex
           (args_ex "localhost" false None) world0 console0).
  reflexivity.
Defined.

(** The page with the list-valued "@type": the [TypeError] of the schema
    analyzer ends [main] with status 1. *)
Lemma main_returns_1_when_the_audit_raises_witness :
  main_ex (args_ex "example.com/person" false None) world0 console0
  = (Cli.Returned 1,
     {| clock := 2; seed := 0; files := [] |},
     {| Cli.stdout := [];
        Cli.stderr :=
          [ NL ++ "💥 Audit failed: sequence item 0: expected str instance, list found" ] |}).
Proof.
  apply (proj1
           (main_returns_1_when_the_audit_raises decode_ex parse_bytes_ex
              parse_str_ex urlparse_ex json_loads_ex format_timestamp_ex
              json_dumps_ex world_ex time_w get_w randbelow_w write_file_w
              str_exn_ex
              (args_ex "example.com/person" false None) world0
              {| clock := 2; seed := 0; files := [] |} console0 TypeError
              ltac:(reflexivity) ltac:(vm_compute; reflexivity))).
  reflexivity.
Defined.

(** [--markdown -o report.JSON]: the JSON report is written. *)
Lemma main_delivers_the_chosen_report_witness :
  chosen_reporter (args_ex "https://example.com/" true (Some "report.JSON"))
  = JsonReport
  /\ main_ex (args_ex "https://example.com/" true (Some "report.JSON"))
       world0 console0
     = (Cli.Returned 0,
        {| clock := 2; seed := 10; files := [("report.JSON", report_plain_text)] |},
        {| Cli.stdout := ["✅ Report saved to: report.JSON"];
           Cli.stderr := [] |}).
Proof.
  split; [reflexivity|].
  apply (proj1 (proj2
           (main_delivers_the_chosen_report decode_ex parse_bytes_ex
              parse_str_ex urlparse_ex json_loads_ex format_timestamp_ex
              json_dumps_ex world_ex time_w get_w randbelow_w write_file_w
              str_exn_ex
              (args_ex "https://example.com/" true (Some "report.JSON"))
              world0 world_after_audit
              {| clock := 2; seed := 10; files := [] |}
              console0 audit_plain_result report_plain_text
              ltac:(reflexivity)
              ltac:(vm_compute; reflexivity)
              ltac:(vm_compute; reflexivity)))
           "report.JSON"
           {| clock := 2; seed := 10;
              files := [("report.JSON", report_plain_text)] |}
           ltac:(reflexivity) ltac:(discriminate) ltac:(reflexivity)).
Defined.

(** ** auditor.py: more on the analyzers *)

(** X22.  The security analyzer, when the URL parses: the score is 100
    for HTTPS and 50 otherwise, less 6 for each of the five security
    headers that the response lacks - the cap of 30 is reached exactly
    when all five are missing, so the score is never below 20 - and the
    result lists the missing headers. *)
Theorem ssl_security_score_formula :
  forall (urlparse : string -> result ParseResult) (u : string)
         (response : Response) (parsed : ParseResult),
    urlparse u = Ok parsed ->
    exists r : AuditResult,
      _audit_ssl_security urlparse u response = Ok r
      /\ score r
         = (if String.eqb (scheme parsed) "https" then 100 else 50)
           - 6 * len (missing_security_headers response)
      /\ 0 <= len (missing_security_headers response) <= 5
      /\ 20 <= score r
      /\ dict_get "missing_headers" (raw_data r)
         = Some (VList (map VStr (missing_security_headers response))).
Proof.
  intros urlparse u response parsed H.
  unfold _audit_ssl_security, missing_security_headers. rewrite H. cbn [bind].
  set (missing := filter (fun hd => negb (header_in (fst hd) (headers response)))
                    security_headers).
  assert (L : 0 <= len missing <= 5).
  { split; [apply len_nonneg|]. unfold len, missing.
    pose proof (filter_length_le
                  (fun hd => negb (header_in (fst hd) (headers response)))
                  security_headers) as F.
    cbn [List.length security_headers] in F. lia. }
  assert (M : len (map fst missing) = len missing) by apply len_map.
  rewrite M.
  assert (N : missing = [] -> len missing = 0) by (intros ->; reflexivity).
  destruct (String.eqb (scheme parsed) "https"); cbn [negb];
    destruct missing as [|hd rest] eqn:E;
    (eexists; split; [reflexivity|];
     split; [cbn [score mkResult]; try rewrite N by reflexivity; lia|];
     split; [exact L|];
     split; [cbn [score mkResult]; lia|];
     cbn [raw_data mkResult dict_get String.eqb Ascii.eqb Bool.eqb];
     rewrite map_map; reflexivity).
Qed.

Lemma ssl_security_score_formula_witness :
  exists r : AuditResult,
    _audit_ssl_security urlparse_ex "https://example.com/"
      (response_ex "https://example.com/") = Ok r
    /\ score r = 100 - 6 * 5
    /\ 0 <= 5 <= 5
    /\ 20 <= score r
    /\ dict_get "missing_headers" (raw_data r)
       = Some (VList (map VStr (missing_security_headers
                                   (response_ex "https://example.com/")))).
Proof.
  apply (ssl_security_score_formula urlparse_ex "https://example.com/"
           (response_ex "https://example.com/")
           {| scheme := "https"; netloc := "example.com" |}).
  reflexivity.
Defined.

(** X23.  The Open Graph analyzer always returns, and its score is 20
    for each of the five tags that the document provides: the product
    [found / 5 * 100] is exact in binary64 for every count. *)
Theorem open_graph_score_is_20_per_tag :
  forall soup : Document,
    exists r : AuditResult,
      _audit_open_graph soup = Ok r
      /\ score r = 20 * len (found_og_tags soup)
      /\ 0 <= len (found_og_tags soup) <= 5
      /\ dict_get "found_tags" (raw_data r)
         = Some (VDict (map (fun name =>
                               (name,
                                match og_content soup name with
                                | Some c => VStr c
                                | None => VNone
                                end))
                          (found_og_tags soup))).
Proof.
  intros soup. unfold _audit_open_graph, scan_og_tags, found_og_tags, og_tags.
  cbn [fold_left filter fst].
  repeat match goal with
         | |- context [og_content soup ?k] =>
             destruct (og_content soup k) eqn:?
         end;
    cbn [is_none negb append app fst snd len List.length map];
    match goal with
    | |- context [int_truediv ?a ?b] =>
        let v := eval vm_compute in (int_truediv a b) in
        change (int_truediv a b) with v
    end;
    cbn [bind];
    match goal with
    | |- context [of_int 100] =>
        let v := eval vm_compute in (of_int 100) in
        change (of_int 100) with v
    end;
    cbn [bind];
    match goal with
    | |- context [to_int ?x] =>
        let v := eval vm_compute in (to_int x) in
        change (to_int x) with v
    end;
    cbn [bind];
    destruct (find _ soup);
    (eexists; split; [reflexivity|]; split; [reflexivity|];
     split; [cbn; lia|]; cbn [raw_data mkResult dict_get String.eqb Ascii.eqb Bool.eqb map];
     repeat match goal with
            | H : og_content soup _ = _ |- _ => rewrite H
            end;
     reflexivity).
Qed.

(** X24.  For the three analyzers that read the document only, a score
    of 0 means that the element is missing, and a missing element always
    scores 0: a title with text scores at least 20, a description tag
    scores 10 when its content is blank and at least 40 otherwise, a
    document with any heading scores at least 50. *)
Theorem zero_means_missing :
  forall soup : Document,
    (score (_audit_title soup) = 0 <-> title_text soup = None)
    /\ (title_text soup <> None -> 20 <= score (_audit_title soup))
    /\ (score (_audit_meta_description soup) = 0 <-> description_tag soup = None)
    /\ (forall tag,
           description_tag soup = Some tag ->
           if String.eqb (Str.strip (get_default tag "content" "")) ""
           then score (_audit_meta_description soup) = 10
           else 40 <= score (_audit_meta_description soup))
    /\ (score (_audit_headings soup) = 0 <-> heading_tags soup = [])
    /\ (heading_tags soup <> [] -> 50 <= score (_audit_headings soup)).
Proof.
  intros soup. split; [|split; [|split; [|split; [|split]]]].
  - unfold _audit_title, title_text.
    destruct (find (has_name "title") soup) as [tag|];
      [|split; reflexivity].
    destruct (String.eqb (tag_text tag) ""); [split; reflexivity|].
    split_ifs; cbn [score mkResult]; split; intros H; (discriminate || lia).
  - unfold _audit_title, title_text.
    destruct (find (has_name "title") soup) as [tag|]; [|congruence].
    destruct (String.eqb (tag_text tag) ""); [congruence|].
    intros _. split_ifs; cbn [score mkResult]; lia.
  - unfold _audit_meta_description, description_tag.
    destruct (find _ soup) as [tag|]; [|split; reflexivity].
    split_ifs; cbn [score mkResult]; split; intros H; (discriminate || lia).
  - intros tag. unfold _audit_meta_description, description_tag.
    intros ->. split_ifs; cbn [score mkResult]; lia.
  - unfold _audit_headings, heading_tags. cbv zeta.
    destruct (find_all is_heading soup) as [|h hs] eqn:E;
      cbn [map len List.length Z.of_nat Z.eqb].
    + split; [reflexivity|intros _].
      destruct (find_all (has_name "h1") soup) as [|h1 [|h1' more]];
        split_ifs; reflexivity.
    + split; [|discriminate]. intros H. exfalso. revert H.
      destruct (find_all (has_name "h1") soup) as [|h1 [|h1' more]];
        destruct (skipped_levels_from _ _);
        split_ifs; cbn [score mkResult]; lia.
  - unfold _audit_headings, heading_tags. cbv zeta.
    destruct (find_all is_heading soup) as [|h hs] eqn:E; [congruence|].
    intros _. cbn [map len List.length Z.of_nat Z.eqb].
    destruct (find_all (has_name "h1") soup) as [|h1 [|h1' more]];
      destruct (skipped_levels_from _ _);
      split_ifs; cbn [score mkResult]; lia.
Qed.

Lemma zero_means_missing_witness :
  20 <= score (_audit_title doc_plain)
  /\ score (_audit_headings doc_plain) = 0.
Proof.
  split.
  - apply (zero_means_missing doc_plain). discriminate.
  - apply (zero_means_missing doc_plain). reflexivity.
Defined.

(** The loop over the links only counts up, and by at most one per link. *)
Lemma classify_links_counts (urlparse : string -> result ParseResult)
  (base_domain : string) (links : list Tag) :
  forall i0 e0 n0 i e n,
    classify_links urlparse base_domain links (i0, e0, n0) = Ok (i, e, n) ->
    i0 <= i /\ e0 <= e /\ n0 <= n
    /\ (i - i0) + (e - e0) <= len links
    /\ n - n0 <= len links.
Proof.
  induction links as [|link links IH]; intros i0 e0 n0 i e n H.
  - cbn in H. injection H as <- <- <-. unfold len. cbn. lia.
  - cbn [classify_links] in H.
    apply bind_ok in H. destruct H as ([i1 e1] & Hie & H).
    cbn [fst snd] in H. apply IH in H.
    assert (L : len (link :: links) = len links + 1).
    { unfold len. cbn [List.length]. lia. }
    assert (S : i0 <= i1 /\ e0 <= e1 /\ (i1 - i0) + (e1 - e0) <= 1).
    { destruct (is_absolute _).
      - apply bind_ok in Hie. destruct Hie as (p & _ & Hie).
        destruct (String.eqb _ _); injection Hie as <- <-; lia.
      - destruct (negb _); injection Hie as <- <-; lia. }
    destruct (rel_truthy_and_has "nofollow" link); lia.
Qed.

(** X25.  The links analyzer, whenever it returns: without a link with
    [href] the score is 30; otherwise the raw data hold the number of
    links and three counts that never exceed it - every link is internal,
    external or neither (an anchor, a script, a mail or a telephone link),
    never both - and the score is 100, less 30 for fewer than three links,
    less 10 when an external link lacks [rel="noopener"]. *)
Theorem links_counts_add_up :
  forall (urlparse : string -> result ParseResult) (soup : Document)
         (base_url : string) (r : AuditResult),
    _audit_links urlparse soup base_url = Ok r ->
    (len (link_tags soup) = 0 -> score r = 30 /\ raw_data r = [])
    /\ (len (link_tags soup) <> 0 ->
        exists internal external nofollow : Z,
          raw_data r
          = [ ("total", VInt (len (link_tags soup)));
              ("internal", VInt internal); ("external", VInt external);
              ("nofollow", VInt nofollow) ]
          /\ 0 <= internal /\ 0 <= external
          /\ internal + external <= len (link_tags soup)
          /\ 0 <= nofollow <= len (link_tags soup)
          /\ In (score r) [100; 90; 70; 60]
          /\ (external = 0 ->
              score r = if len (link_tags soup) <? 3 then 70 else 100)).
Proof.
  intros urlparse soup base_url r H. unfold _audit_links in H.
  fold (link_tags soup) in H.
  destruct (Z.eqb_spec (len (link_tags soup)) 0) as [Z0|N0].
  - ok_inj H. split; [intros _; split; reflexivity|contradiction].
  - split; [contradiction|intros _].
    apply bind_ok in H. destruct H as (parsed_base & _ & H).
    apply bind_ok in H. destruct H as ([[internal external] nofollow] & Hc & H).
    apply classify_links_counts in Hc.
    cbv beta iota zeta in H.
    exists internal, external, nofollow.
    destruct (len (link_tags soup) <? 3); cbv beta iota zeta in H;
      apply bind_ok in H; destruct H as ([[s f] rec] & Hx & H);
      ok_inj H; cbn [raw_data score mkResult];
      (split; [reflexivity|]);
      (destruct (Z.gtb_spec external 0);
       [ apply bind_ok in Hx; destruct Hx as (k & _ & Hx);
         destruct (k >? 0); triple_fst Hx
       | triple_fst Hx ]);
      repeat split; try lia; cbn [In]; try lia; auto 10.
Qed.

Lemma links_counts_add_up_witness :
  _audit_links urlparse_ex doc_four_links "https://example.com/"
  = Ok links_result_ex
  /\ score links_result_ex = 90
  /\ exists internal external nofollow : Z,
       raw_data links_result_ex
       = [ ("total", VInt (len (link_tags doc_four_links)));
           ("internal", VInt internal);
           ("external", VInt external); ("nofollow", VInt nofollow) ]
       /\ 0 <= internal /\ 0 <= external
       /\ internal + external <= len (link_tags doc_four_links)
       /\ 0 <= nofollow <= len (link_tags doc_four_links)
       /\ In (score links_result_ex) [100; 90; 70; 60]
       /\ (external = 0 ->
           score links_result_ex
           = if len (link_tags doc_four_links) <? 3 then 70 else 100).
Proof.
  split; [vm_compute; reflexivity|]. split; [reflexivity|].
  apply (proj2 (links_counts_add_up urlparse_ex doc_four_links
                  "https://example.com/" links_result_ex
                  ltac:(vm_compute; reflexivity))).
  vm_compute. discriminate.
Defined.

Lemma rne_exact (k d : Z) : 0 < d -> rne (k * d) d = k.
Proof.
  intros Hd. unfold rne. rewrite Z.div_mul, Z.mod_mul by lia.
  change (2 * 0) with 0.
  destruct (Z.compare_spec 0 d); [lia|reflexivity|lia].
Qed.

(** [n / 1024] is exact for [n] below [2^53]. *)
Lemma int_truediv_1024_exact (n : Z) :
  0 <= n < 2 ^ 53 ->
  exists v, int_truediv n 1024 = Ok (Fin v) /\ (v == n # 1024)%Q.
Proof.
  intros Hn. destruct (Z.eq_dec n 0) as [->|N0].
  { exists 0%Q. split; reflexivity. }
  unfold int_truediv. cbn [Z.eqb].
  destruct (int_quotient n 1024 ltac:(lia)) as [Qn Qd].
  rewrite Z.mul_1_r in Qn. cbn [Z.abs] in Qd.
  unfold round. rewrite Qn, Qd.
  destruct (Z.eqb_spec n 0) as [|_]; [contradiction|].
  rewrite (Z.abs_eq n) by lia.
  replace (n <? 0) with false by (symmetry; apply Z.ltb_ge; lia).
  pose proof (ilog2_spec n 1024 ltac:(lia) ltac:(lia)) as [K1 K2].
  cbv zeta in K1, K2. set (k := ilog2 n 1024) in *.
  assert (Hk : k <= 42).
  { destruct (Z.le_gt_cases k 42) as [|G]; [assumption|exfalso].
    destruct (K1 ltac:(lia)) as [K _].
    assert (2 ^ 43 <= 2 ^ k) by (apply Z.pow_le_mono_r; lia).
    change (2 ^ 53) with (1024 * 2 ^ 43) in Hn. lia. }
  assert (Hk' : -10 <= k).
  { destruct (Z.le_gt_cases (-10) k) as [|G]; [assumption|exfalso].
    destruct (K2 ltac:(lia)) as [_ K].
    assert (2 ^ 10 <= 2 ^ (- k - 1)) by (apply Z.pow_le_mono_r; lia).
    change (2 ^ 10) with 1024 in *. nia. }
  replace (Z.max (k - 52) (-1074)) with (k - 52) by lia.
  replace (0 <=? k - 52) with false by (symmetry; apply Z.leb_gt; lia).
  cbn [andb].
  assert (P : 2 ^ (- (k - 52)) = 2 ^ (42 - k) * 1024).
  { change 1024 with (2 ^ 10). rewrite <- Z.pow_add_r by lia. f_equal. lia. }
  rewrite P, Z.mul_assoc, rne_exact by lia.
  eexists. split; [reflexivity|].
  rewrite dyadic_value.
  replace (0 <=? k - 52) with false by (symmetry; apply Z.leb_gt; lia).
  pose proof (Z.pow_pos_nonneg 2 (42 - k) ltac:(lia) ltac:(lia)) as Q.
  unfold Qeq. cbn [Qnum Qden]. rewrite P, Z2Pos.id by lia. lia.
Qed.

(** The size in KB is over a whole bound exactly when the size in bytes
    is over 1024 times the bound. *)
Lemma size_kb_over (n B : Z) :
  0 <= n <= sys_maxsize -> 0 < B -> 1024 * (B + 1) <= 2 ^ 53 ->
  exists v,
    int_truediv n 1024 = Ok (Fin v) /\ gt_int (Fin v) B = (n >? 1024 * B).
Proof.
  intros Hn HB HB'.
  destruct (Z.lt_ge_cases n (2 ^ 53)) as [S|S].
  - destruct (int_truediv_1024_exact n ltac:(lia)) as (v & E & V).
    exists v. split; [exact E|]. unfold gt_int.
    destruct (Z.gtb_spec n (1024 * B)) as [G|G].
    + destruct (Qle_bool v (inject_Z B)) eqn:Q; [|reflexivity].
      apply Qle_bool_iff in Q. rewrite V in Q.
      unfold Qle in Q. cbn [Qnum Qden inject_Z] in Q. lia.
    + replace (Qle_bool v (inject_Z B)) with true; [reflexivity|].
      symmetry. apply Qle_bool_iff. rewrite V.
      unfold Qle. cbn [Qnum Qden inject_Z]. lia.
  - destruct (size_kb_finite n Hn) as (v & E). exists v. split; [exact E|].
    unfold int_truediv in E. cbn [Z.eqb] in E.
    pose proof (round_ge_int (inject_Z n / inject_Z 1024) (B + 1)) as R.
    destruct (round (inject_Z n / inject_Z 1024)) as [v'| |] eqn:Er;
      try discriminate E.
    injection E as ->.
    assert (V : (inject_Z (B + 1) <= v)%Q).
    { apply R; [split; [lia|]|].
      - assert (1024 * (B + 1) < 1024 * 2 ^ 53) by lia. lia.
      - destruct (int_quotient n 1024 ltac:(lia)) as [Qn Qd].
        unfold Qle. cbn [Qnum Qden inject_Z]. rewrite Qn, Qd. cbn [Z.sgn Z.abs].
        lia. }
    unfold gt_int.
    replace (n >? 1024 * B) with true by (symmetry; apply Z.gtb_lt; lia).
    destruct (Qle_bool v (inject_Z B)) eqn:Q; [|reflexivity].
    apply Qle_bool_iff in Q.
    assert (C : (inject_Z (B + 1) <= inject_Z B)%Q) by (eapply Qle_trans; eauto).
    unfold Qle in C. cbn [Qnum Qden inject_Z] in C. lia.
Qed.

(** X26.  The performance analyzer on a body that fits a Python [bytes].
    When the parser accepts the text, the analyzer returns, and its score
    is 100 less a penalty for the size and a penalty for the style sheets
    and external scripts; the size classes, which the code tests on the
    float [content_length / 1024], are exact in bytes: over 2048000 bytes
    costs 30, over 1024000 costs 15, over 512000 costs 5; the score is
    never below 55.  When the parser rejects the text, its exception is
    the outcome of the analyzer. *)
Theorem performance_score_by_bytes :
  forall (parse_str : string -> result Document) (response : Response)
         (content_length : Z) (html_content : string),
    0 <= content_length <= sys_maxsize ->
    (forall soup : Document,
        parse_str html_content = Ok soup ->
        exists r : AuditResult,
          _audit_performance parse_str response content_length html_content
          = Ok r
          /\ score r
             = 100 - size_penalty content_length
               - resource_penalty (external_resources soup)
          /\ 55 <= score r)
    /\ (forall e : exn,
           parse_str html_content = Raise e ->
           _audit_performance parse_str response content_length html_content
           = Raise e).
Proof.
  intros parse_str response n html Hn.
  unfold _audit_performance, size_penalty, resource_penalty, external_resources.
  destruct (size_kb_over n 2000 Hn ltac:(lia) ltac:(cbn; lia)) as (v & E & G1).
  destruct (size_kb_over n 1000 Hn ltac:(lia) ltac:(cbn; lia)) as (v1 & E1 & G2).
  destruct (size_kb_over n 500 Hn ltac:(lia) ltac:(cbn; lia)) as (v2 & E2 & G3).
  rewrite E in E1, E2. injection E1 as <-. injection E2 as <-.
  rewrite E. cbn [bind]. rewrite G1, G2, G3.
  change (1024 * 2000) with 2048000. change (1024 * 1000) with 1024000.
  change (1024 * 500) with 512000.
  split.
  - intros soup P. rewrite P.
    destruct (n >? 2048000); [|destruct (n >? 1024000); [|destruct (n >? 512000)]];
      cbv beta iota zeta; cbn [bind]; cbv beta iota zeta;
      set (ext := len _ + len _);
      (destruct (ext >? 20); [|destruct (ext >? 10)]);
      cbv beta iota zeta;
      (eexists; split; [reflexivity|]; cbn [score mkResult]; lia).
  - intros e P. rewrite P.
    destruct (n >? 2048000); [|destruct (n >? 1024000); [|destruct (n >? 512000)]];
      reflexivity.
Qed.

Lemma performance_score_by_bytes_witness :
  (exists r : AuditResult,
      _audit_performance parse_str_ex (response_ex "https://example.com/")
        2048001 html_plain = Ok r
      /\ score r = 100 - 30 - 0
      /\ 55 <= score r)
  /\ _audit_performance parse_str_ex (response_ex "https://example.com/rejected")
       8 html_rejected
     = Raise (OtherError "ParserRejectedMarkup").
Proof.
  split.
  - apply (proj1 (performance_score_by_bytes parse_str_ex
                    (response_ex "https://example.com/") 2048001 html_plain
                    ltac:(unfold sys_maxsize; cbn; lia)) doc_plain).
    reflexivity.
  - apply (proj2 (performance_score_by_bytes parse_str_ex
                    (response_ex "https://example.com/rejected") 8 html_rejected
                    ltac:(unfold sys_maxsize; cbn; lia))).
    reflexivity.
Defined.

(** ** auditor.py: the images at full and at no coverage, and the audit *)

Lemma ilog2_same (t : Z) : 0 < t -> ilog2 t t = 0.
Proof.
  intros Ht. pose proof (ilog2_spec t t Ht Ht) as [K1 K2]. cbv zeta in K1, K2.
  set (k := ilog2 t t) in *.
  destruct (Z.lt_trichotomy k 0) as [L|[E|G]]; [exfalso|exact E|exfalso].
  - destruct (K2 L) as [_ K].
    assert (1 <= 2 ^ (- k - 1)) by (apply (Z.pow_le_mono_r 2 0); lia). nia.
  - destruct (K1 ltac:(lia)) as [K _].
    assert (2 <= 2 ^ k) by (apply (Z.pow_le_mono_r 2 1); lia). nia.
Qed.

(** [t / t * 100] is exactly 100, and [0 / t * 100] exactly 0. *)
Lemma alt_coverage_full (t : Z) : 0 < t -> alt_coverage_score t t = Ok 100.
Proof.
  intros Ht. unfold alt_coverage_score, int_truediv.
  destruct (Z.eqb_spec t 0) as [|_]; [lia|].
  destruct (int_quotient t t ltac:(lia)) as [Qn Qd].
  rewrite Z.sgn_pos, Z.mul_1_r in Qn by lia. rewrite Z.abs_eq in Qd by lia.
  unfold round. rewrite Qn, Qd.
  destruct (Z.eqb_spec t 0) as [|_]; [lia|].
  rewrite (Z.abs_eq t), ilog2_same by lia.
  replace (t <? 0) with false by (symmetry; apply Z.ltb_ge; lia).
  change (Z.max (0 - 52) (-1074)) with (-52).
  change (0 <=? -52) with false. cbn [andb].
  rewrite (Z.mul_comm t), rne_exact by lia.
  vm_compute. reflexivity.
Qed.

Lemma alt_coverage_none (t : Z) : 0 < t -> alt_coverage_score 0 t = Ok 0.
Proof.
  intros Ht. unfold alt_coverage_score, int_truediv.
  destruct (Z.eqb_spec t 0) as [|_]; [lia|].
  destruct (int_quotient 0 t ltac:(lia)) as [Qn _].
  unfold round. rewrite Qn. cbn [Z.mul Z.eqb]. vm_compute. reflexivity.
Qed.

(** X27.  The images analyzer at the two ends: when every image has an
    [alt] with text the score is exactly 100, whatever the number of
    images - the quotient [n / n] and its product with 100 are exact -
    and when no image has one the score is 0. *)
Theorem images_score_at_full_and_no_coverage :
  forall soup : Document,
    0 < len (images_of soup) <= sys_maxsize ->
    exists r : AuditResult,
      _audit_images soup = Ok r
      /\ (count_if alt_with_text (images_of soup) = len (images_of soup) ->
          score r = 100)
      /\ (count_if alt_with_text (images_of soup) = 0 -> score r = 0).
Proof.
  intros soup H.
  destruct (images_returns soup ltac:(lia)) as (r & Hr).
  exists r. split; [exact Hr|].
  destruct (images_some soup r ltac:(lia) Hr) as (base & Hb & ->).
  pose proof (alt_classes_partition (images_of soup)) as P.
  pose proof (count_if_nonneg alt_missing (images_of soup)) as M.
  pose proof (count_if_nonneg alt_blank (images_of soup)) as B.
  split; intros C; rewrite C in Hb.
  - rewrite alt_coverage_full in Hb by lia. injection Hb as <-.
    replace (count_if alt_missing (images_of soup)) with 0 by lia.
    replace (count_if alt_blank (images_of soup)) with 0 by lia.
    reflexivity.
  - rewrite alt_coverage_none in Hb by lia. injection Hb as <-.
    unfold images_penalties.
    destruct (_ >? 0); destruct (_ >? 0); reflexivity.
Qed.

Lemma images_score_at_full_and_no_coverage_witness :
  exists r : AuditResult,
    _audit_images (mk_doc [ mk_tag "img" [("alt", "a cat")];
                            mk_tag "img" [("alt", "a dog")];
                            mk_tag "img" [("alt", "a bird")] ]) = Ok r
    /\ (3 = 3 -> score r = 100)
    /\ (3 = 0 -> score r = 0).
Proof.
  apply (images_score_at_full_and_no_coverage
           (mk_doc [ mk_tag "img" [("alt", "a cat")];
                     mk_tag "img" [("alt", "a dog")];
                     mk_tag "img" [("alt", "a bird")] ])).
  unfold sys_maxsize. cbn. lia.
Defined.

Lemma run_analyzers_fields
  (decode_body : list (string * string) -> list Byte.byte -> string)
  (parse_str : string -> result Document)
  (urlparse : string -> result ParseResult)
  (json_loads : string -> result pyval) (u : string) (t : PyFloat.float) (d : Z)
  (r : Response) (soup : Document) (html : string) (n : Z) (a : WebsiteAudit) :
  run_analyzers decode_body parse_str urlparse json_loads u t d r soup html n
  = Ok a ->
  url a = u /\ timestamp a = t /\ duration_ms a = d.
Proof.
  unfold run_analyzers. intros H.
  repeat (apply bind_ok in H; destruct H as (? & _ & H)).
  ok_inj H. repeat split.
Qed.

Section AuditFacts.

Variable decode_body : list (string * string) -> list Byte.byte -> string.
Variable parse_bytes : list Byte.byte -> result Document.
Variable parse_str : string -> result Document.
Variable urlparse : string -> result ParseResult.
Variable json_loads : string -> result pyval.
Variable World : Type.
Variable time_time : World -> PyFloat.float * World.
Variable session_get : string -> World -> result Response * World.

Abbreviation audit'' :=
  (audit decode_body parse_bytes parse_str urlparse json_loads World time_time
     session_get).

(** X28.  The outcomes of [audit] before the analyses.  An exception of
    the session leaves the audit as it is, a status of 400..599 raises the
    HTTP error of [raise_for_status], and on any other status - also one
    that is not 2xx - an exception of the HTML parser leaves the audit as
    it is; in these three cases the clock has been read once and the world
    is as the fetch left it.  When the parser accepts the body the clock
    is read a second time, and a result holds the audited URL and the
    first reading of the clock. *)
Theorem audit_fetch_outcomes :
  forall (u : string) (w : World),
    let fetched := session_get u (snd (time_time w)) in
    (forall e : exn,
        fst fetched = Raise e -> audit'' u w = (Raise e, snd fetched))
    /\ (forall response : Response,
           fst fetched = Ok response ->
           400 <= status_code response < 600 ->
           audit'' u w = (Raise (HTTPError (status_code response)), snd fetched))
    /\ (forall response : Response,
           fst fetched = Ok response ->
           ~ 400 <= status_code response < 600 ->
           (forall e : exn,
               parse_bytes (content response) = Raise e ->
               audit'' u w = (Raise e, snd fetched))
           /\ (forall soup : Document,
                  parse_bytes (content response) = Ok soup ->
                  snd (audit'' u w) = snd (time_time (snd fetched))
                  /\ forall a : WebsiteAudit,
                       fst (audit'' u w) = Ok a ->
                       url a = u /\ timestamp a = fst (time_time w))).
Proof.
  intros u w. unfold audit, raise_for_status.
  destruct (time_time w) as [t0 w0]. cbn [fst snd].
  destruct (session_get u w0) as [f w1]. cbn [fst snd]. cbv zeta.
  split; [|split].
  - intros e ->. reflexivity.
  - intros response -> S.
    replace ((400 <=? status_code response) && (status_code response <? 600))
      with true; [reflexivity|].
    symmetry. apply andb_true_iff. split; [apply Z.leb_le|apply Z.ltb_lt]; lia.
  - intros response -> S.
    replace ((400 <=? status_code response) && (status_code response <? 600))
      with false.
    2:{ symmetry. apply andb_false_iff.
        destruct (Z.leb_spec 400 (status_code response)); [right|left; reflexivity].
        apply Z.ltb_ge. lia. }
    split.
    + intros e ->. reflexivity.
    + intros soup ->.
      destruct (time_time w1) as [now w2]. cbn [fst snd].
      split; [reflexivity|].
      intros a H.
      apply bind_ok in H. destruct H as (thousand & _ & H).
      apply bind_ok in H. destruct H as (d & _ & H).
      apply run_analyzers_fields in H. destruct H as (Hu & Ht & _).
      split; assumption.
Qed.

End AuditFacts.

Lemma audit_fetch_outcomes_witness :
  audit_ex "https://example.com/rejected" 7
  = (Raise (OtherError "ParserRejectedMarkup"), 9)
  /\ snd (audit_ex "https://example.com/" 7) = 9
  /\ forall a : WebsiteAudit,
       fst (audit_ex "https://example.com/" 7) = Ok a ->
       url a = "https://example.com/" /\ timestamp a = PyFloat.Fin (inject_Z 7).
Proof.
  split.
  - destruct (audit_fetch_outcomes decode_ex parse_bytes_ex parse_str_ex
                urlparse_ex json_loads_ex Z time_ex get_ex
                "https://example.com/rejected" 7) as (_ & _ & H).
    apply (proj1 (H (response_ex "https://example.com/rejected") eq_refl
                    ltac:(cbn; lia))).
    reflexivity.
  - destruct (audit_fetch_outcomes decode_ex parse_bytes_ex parse_str_ex
                urlparse_ex json_loads_ex Z time_ex get_ex
                "https://example.com/" 7) as (_ & _ & H).
    exact (proj2 (H (response_ex "https://example.com/") eq_refl
                    ltac:(cbn; lia)) doc_plain eq_refl).
Defined.

(** ** auditor.py: when the audit returns *)

Lemma forallb_take {A} (p : A -> bool) (n : nat) (l : list A) :
  forallb p l = true -> forallb p (take n l) = true.
Proof.
  unfold take. revert l. induction n as [|n IH]; intros [|x l] H; try reflexivity.
  cbn [firstn forallb] in *. apply andb_prop in H. destruct H as [-> H].
  cbn [andb]. apply IH, H.
Qed.

Section AuditReturns.

Variable decode_body : list (string * string) -> list Byte.byte -> string.
Variable parse_bytes : list Byte.byte -> result Document.
Variable parse_str : string -> result Document.
Variable urlparse : string -> result ParseResult.
Variable json_loads : string -> result pyval.

Lemma classify_links_parses (base_domain : string) (links : list Tag) :
  forallb (href_parses urlparse) links = true ->
  forall acc, exists counts,
    classify_links urlparse base_domain links acc = Ok counts.
Proof.
  induction links as [|link links IH]; intros H [[i e] n];
    [eexists; reflexivity|].
  cbn [forallb] in H. apply andb_prop in H. destruct H as [Hl H].
  unfold href_parses in Hl. cbn [classify_links].
  destruct (is_absolute _).
  - destruct (urlparse (get_default link "href" "")) as [p|]; [|discriminate].
    cbn [bind]. destruct (String.eqb _ _); cbn [bind]; apply IH, H.
  - destruct (negb _); cbn [bind]; apply IH, H.
Qed.

Lemma count_external_no_rel_parses (base_domain : string) (links : list Tag) :
  forallb (href_parses urlparse) links = true ->
  exists n, count_external_no_rel urlparse base_domain links = Ok n.
Proof.
  induction links as [|link links IH]; intros H; [eexists; reflexivity|].
  cbn [forallb] in H. apply andb_prop in H. destruct H as [Hl H].
  destruct (IH H) as (n & E).
  unfold href_parses in Hl. cbn [count_external_no_rel]. rewrite E.
  destruct (is_absolute _).
  - destruct (urlparse (get_default link "href" "")) as [p|]; [|discriminate].
    cbn [bind]. eexists. reflexivity.
  - cbn [bind]. eexists. reflexivity.
Qed.

(** The links analyzer returns when [urlparse] accepts the audited URL
    and the absolute [href] of every link. *)
Lemma links_returns_on_parsed_hrefs (soup : Document) (base_url : string)
  (p : ParseResult) :
  urlparse base_url = Ok p ->
  forallb (href_parses urlparse) (link_tags soup) = true ->
  exists r, _audit_links urlparse soup base_url = Ok r.
Proof.
  intros Hp Hl. unfold _audit_links. fold (link_tags soup).
  destruct (len _ =? 0); [eexists; reflexivity|].
  rewrite Hp. cbn [bind].
  destruct (classify_links_parses (netloc p) (link_tags soup) Hl (0, 0, 0))
    as ([[i e] n] & ->).
  cbn [bind].
  destruct (count_external_no_rel_parses (netloc p) (link_tags soup) Hl)
    as (k & Hk).
  destruct (len _ <? 3); cbv beta iota zeta;
    (destruct (e >? 0);
     [ rewrite Hk; cbn [bind]; destruct (k >? 0); cbn [bind]; eexists; reflexivity
     | cbn [bind]; eexists; reflexivity ]).
Qed.

Lemma collect_schema_types_strings (scripts : list Tag) :
  forallb (string_types json_loads) scripts = true ->
  forall acc, forallb is_str acc = true ->
  exists types,
    collect_schema_types json_loads scripts acc = Ok types
    /\ forallb is_str types = true.
Proof.
  induction scripts as [|script scripts IH]; intros H acc Ha.
  - exists acc. split; [reflexivity|exact Ha].
  - cbn [forallb] in H. apply andb_prop in H. destruct H as [Hs H].
    unfold string_types in Hs. cbn [collect_schema_types].
    destruct (types_of_script json_loads script) as [ts|]; [|discriminate].
    cbn [bind]. apply IH; [exact H|].
    rewrite forallb_app, Ha, Hs. reflexivity.
Qed.

(** The schema analyzer returns when every type that a block contributes
    is a string. *)
Lemma schema_returns_on_string_types (soup : Document) :
  forallb (string_types json_loads) (jsonld_of soup) = true ->
  exists r, _audit_schema json_loads soup = Ok r.
Proof.
  intros H.
  destruct (Z.eq_dec (len (jsonld_of soup)) 0) as [Z0|N0].
  - destruct (schema_no_blocks json_loads soup Z0) as (r & E & _). eauto.
  - destruct (collect_schema_types_strings (jsonld_of soup) H [] eq_refl)
      as (types & Ec & Hs).
    apply (proj1 (schema_outcome json_loads soup types N0 Ec)).
    apply forallb_take, Hs.
Qed.

(** The elapsed milliseconds [int((now - start) * 1000)] of a clock that
    went forward, by no more than [2^40] seconds. *)
Lemma duration_ms_returns (t0 t1 : Q) :
  (0 <= t1 - t0)%Q -> (t1 - t0 <= inject_Z (2 ^ 40))%Q ->
  exists d,
    (thousand <- PyFloat.of_int 1000 ;;
     PyFloat.to_int (PyFloat.mul (PyFloat.sub (Fin t1) (Fin t0)) thousand))
    = Ok d
    /\ 0 <= d <= 1000 * 2 ^ 40.
Proof.
  intros H0 H1.
  change (PyFloat.of_int 1000) with (Ok (Fin (inject_Z 1000))). cbn [bind].
  unfold PyFloat.sub, PyFloat.add, PyFloat.neg.
  destruct (round_between (t1 + - t0) (2 ^ 40) H0 ltac:(lia) H1)
    as (v & -> & V0 & V1).
  unfold PyFloat.mul.
  assert (P0 : (0 <= v * inject_Z 1000)%Q).
  { apply Qmult_le_0_compat; [exact V0|]. unfold Qle. cbn. lia. }
  assert (P1 : (v * inject_Z 1000 <= inject_Z (1000 * 2 ^ 40))%Q).
  { apply Qle_trans with (inject_Z (2 ^ 40) * inject_Z 1000)%Q.
    - apply Qmult_le_compat_r; [exact V1|]. unfold Qle. cbn. lia.
    - unfold Qle. cbn. lia. }
  destruct (round_between (v * inject_Z 1000) (1000 * 2 ^ 40) P0 ltac:(lia) P1)
    as (m & -> & M0 & M1).
  apply to_int_bounds; assumption.
Qed.

(** The ten analyses return on a page whose text, links and JSON-LD
    blocks the libraries accept. *)
Lemma run_analyzers_returns (u : string) (p : ParseResult) (t : PyFloat.float)
  (d : Z) (response : Response) (soup soup' : Document) (html : string)
  (n : Z) :
  urlparse u = Ok p ->
  parse_str html = Ok soup' ->
  0 <= n <= sys_maxsize ->
  len (images_of soup) <= sys_maxsize ->
  forallb (href_parses urlparse) (link_tags soup) = true ->
  forallb (string_types json_loads) (jsonld_of soup) = true ->
  exists a,
    run_analyzers decode_body parse_str urlparse json_loads u t d response soup
      html n = Ok a.
Proof.
  intros Hp Hh Hn Hi Hl Hs. unfold run_analyzers.
  destruct (images_returns soup Hi) as (ri & ->). cbn [bind].
  destruct (ssl_security_returns urlparse u response p Hp) as (rs & ->).
  cbn [bind].
  destruct (performance_returns parse_str response n html soup' Hn Hh)
    as (rp & ->).
  cbn [bind].
  destruct (links_returns_on_parsed_hrefs soup u p Hp Hl) as (rl & ->).
  cbn [bind].
  destruct (open_graph_returns soup) as (ro & ->). cbn [bind].
  destruct (schema_returns_on_string_types soup Hs) as (rc & ->). cbn [bind].
  eexists. reflexivity.
Qed.

Variable World : Type.
Variable time_time : World -> PyFloat.float * World.
Variable session_get : string -> World -> result Response * World.

(** X29.  When the audit returns.  The fetch answers with a status
    outside 400..599; the HTML parser accepts the body and, for the
    performance analyzer, the decoded text; the clock goes forward
    between its two readings, by at most [2^40] seconds; [urlparse]
    accepts the audited URL and the absolute [href] of every link of the
    page; every type that a JSON-LD block contributes is a string; the
    body and the list of images have lengths Python can hold.  Then
    [audit] returns a [WebsiteAudit] for the URL, in the world after the
    second reading of the clock, with a duration that is not negative,
    ten results with scores in 0..100 and an overall score in 0..100. *)
Theorem audit_returns_a_scored_audit :
  forall (u : string) (w w0 w1 w2 : World) (t0 t1 : Q) (response : Response)
         (soup soup' : Document) (p : ParseResult),
    time_time w = (Fin t0, w0) ->
    session_get u w0 = (Ok response, w1) ->
    ~ 400 <= status_code response < 600 ->
    parse_bytes (content response) = Ok soup ->
    parse_str (text decode_body response) = Ok soup' ->
    time_time w1 = (Fin t1, w2) ->
    (0 <= t1 - t0)%Q -> (t1 - t0 <= inject_Z (2 ^ 40))%Q ->
    urlparse u = Ok p ->
    len (content response) <= sys_maxsize ->
    len (images_of soup) <= sys_maxsize ->
    forallb (href_parses urlparse) (link_tags soup) = true ->
    forallb (string_types json_loads) (jsonld_of soup) = true ->
    exists (a : WebsiteAudit) (overall : Z),
      audit decode_body parse_bytes parse_str urlparse json_loads World
        time_time session_get u w = (Ok a, w2)
      /\ url a = u
      /\ timestamp a = Fin t0
      /\ 0 <= duration_ms a
      /\ Forall in_range (results_of a)
      /\ get_overall_score a = Ok overall
      /\ 0 <= overall <= 100.
Proof.
  intros u w w0 w1 w2 t0 t1 response soup soup' p Ht0 Hg Hst Hb Hh Ht1 D0 D1
    Hp Hc Hi Hl Hs.
  destruct (duration_ms_returns t0 t1 D0 D1) as (d & Hd & Hd0).
  apply bind_ok in Hd. destruct Hd as (thousand & Hth & Hd).
  destruct (run_analyzers_returns u p (Fin t0) d response soup soup'
              (text decode_body response) (len (content response)) Hp Hh
              (conj (len_nonneg _) Hc) Hi Hl Hs) as (a & Ha).
  destruct (run_analyzers_fields _ _ _ _ _ _ _ _ _ _ _ _ Ha) as (Eu & Et & Ed).
  pose proof (run_analyzers_valid _ _ _ _ _ _ _ _ _ _ _ _ Ha) as V.
  assert (Hv : valid_scores a).
  { unfold valid_scores, scores_of. unfold results_of in V.
    repeat match goal with
           | H : Forall _ (_ :: _) |- _ => inversion H; subst; clear H
           end.
    repeat (apply Forall_cons; [assumption|]). apply Forall_nil. }
  exists a, (rne (sum (scores_of a)) 10).
  split; [|split; [exact Eu|split; [exact Et|split; [lia|split; [exact V|split]]]]].
  - unfold audit. rewrite Ht0, Hg. unfold raise_for_status.
    replace ((400 <=? status_code response) && (status_code response <? 600))
      with false.
    2:{ symmetry. apply andb_false_iff.
        destruct (Z.leb_spec 400 (status_code response)); [right|left; reflexivity].
        apply Z.ltb_ge. lia. }
    rewrite Hb, Ht1, Hth. cbn [bind]. rewrite Hd. cbn [bind]. rewrite Ha.
    reflexivity.
  - apply overall_score_of_valid, Hv.
  - pose proof (valid_scores_sum a Hv) as S.
    split; [apply rne_ge; lia|apply rne_le; lia].
Qed.

End AuditReturns.

Lemma audit_returns_a_scored_audit_witness :
  exists (a : WebsiteAudit) (overall : Z),
    audit_ex "https://example.com/" 7 = (Ok a, 9)
    /\ url a = "https://example.com/"
    /\ timestamp a = Fin (inject_Z 7)
    /\ 0 <= duration_ms a
    /\ Forall in_range (results_of a)
    /\ get_overall_score a = Ok overall
    /\ 0 <= overall <= 100.
Proof.
  apply (audit_returns_a_scored_audit decode_ex parse_bytes_ex parse_str_ex
           urlparse_ex json_loads_ex Z time_ex get_ex
           "https://example.com/" 7 7 9 9 (inject_Z 7) (inject_Z 9)
           (response_ex "https://example.com/") doc_plain doc_plain
           {| scheme := "https"; netloc := "example.com" |});
    try reflexivity.
  - cbn. lia.
  - unfold Qle. cbn. lia.
  - unfold Qle. cbn. lia.
  - unfold sys_maxsize. vm_compute. discriminate.
  - unfold sys_maxsize. vm_compute. discriminate.
Defined.

(** X30.  The mobile analyzer scores one of 100, 85, 80, 65, 60 and 45,
    so never below 45.  It scores 100 exactly when it recommends nothing,
    and 60 or less exactly when the viewport tag is missing: a missing
    viewport costs 40, one without [width=device-width] 20 and a fixed
    width of four digits or more 15, each with one recommendation, so
    there are at most two. *)
Theorem mobile_score_100_means_no_recommendation :
  forall (decode_body : list (string * string) -> list Byte.byte -> string)
         (soup : Document) (response : Response),
    let r := _audit_mobile decode_body soup response in
    In (score r) [100; 85; 80; 65; 60; 45]
    /\ (score r = 100 <-> recommendations r = [])
    /\ (score r <= 60 <->
        find (fun t => has_name "meta" t && attr_is "name" "viewport" t) soup
        = None)
    /\ len (recommendations r) <= 2.
Proof.
  intros decode_body soup response. unfold _audit_mobile. cbv zeta.
  destruct (find _ soup) as [tag|];
    [destruct (negb _)|];
    cbv beta iota zeta;
    destruct (_ >? 0);
    destruct (fixed_width_search _);
    cbv beta iota zeta; cbn [score recommendations mkResult append];
    (split; [cbn [In]; auto 10|]);
    (split; [split; intros H; (discriminate H || lia || reflexivity)|]);
    (split; [split; intros H; (discriminate H || lia || reflexivity)|]);
    unfold len; cbn; lia.
Qed.
